(** * Health Thermometer profile client (profiles/thermometer/thermometer.c)

    A shallow embedding of the thermometer plugin: the measurement decoder,
    the cached properties of a thermometer, the per-adapter watcher registry
    and the indication / notification handlers, followed by the properties
    established about them.

    Conventions.
    - C integers are [Z]; a conversion to a fixed width is written out
      ([u16], [s32], ...).
    - A buffer handed over as (pointer, length) is a [list byte] together
      with the [len] the C function receives; a read at an offset the list
      does not have is the outcome [Fault].
    - A function that mutates a struct returns the new struct; calls into
      the GATT transport and the D-Bus layer are recorded, in order, as a
      list of [event]s.
    - Code that lives outside thermometer.c (att.c, libc) and whose result
      the plugin only consumes is the interface [Externals]. *)

From Stdlib Require Import ZArith List String Ascii Bool Lia.
From Stdlib.Strings Require Import Byte.
Import ListNotations.
Open Scope string_scope.
Open Scope list_scope.
Open Scope Z_scope.

(** ** Fixed-width integers *)

Definition u16 (x : Z) : Z := x mod 2 ^ 16.
Definition u64 (x : Z) : Z := x mod 2 ^ 64.

(** Conversion to a signed type: the value modulo 2^w read in two's
    complement. *)
Definition s16 (x : Z) : Z := (x + 2 ^ 15) mod 2 ^ 16 - 2 ^ 15.
Definition s32 (x : Z) : Z := (x + 2 ^ 31) mod 2 ^ 32 - 2 ^ 31.

Definition byte_val (b : byte) : Z := Z.of_N (Byte.to_N b).

Definition byte_of (z : Z) : byte :=
  match Byte.of_N (Z.to_N (z mod 256)) with
  | Some b => b
  | None => x00
  end.

(** ** Constants of the file *)

Definition THERMOMETER_INTERFACE : string := "org.bluez.Thermometer".
Definition THERMOMETER_MANAGER_INTERFACE : string := "org.bluez.ThermometerManager".
Definition THERMOMETER_WATCHER_INTERFACE : string := "org.bluez.ThermometerWatcher".

(* Temperature measurement flag fields *)
Definition TEMP_UNITS : Z := 0x01.
Definition TEMP_TIME_STAMP : Z := 0x02.
Definition TEMP_TYPE : Z := 0x04.

Definition FLOAT_MAX_MANTISSA : Z := 16777216. (* 2^24 *)

Definition VALID_RANGE_DESC_SIZE : Z := 4.
Definition TEMPERATURE_TYPE_SIZE : Z := 1.
Definition MEASUREMENT_INTERVAL_SIZE : Z := 2.

(** Modelled from the spec: the UUID strings and the 16-bit descriptor UUIDs
    are declared in gatt.h and thermometer.h, which are not part of the
    sources at hand; the values are the ones the Bluetooth assigned numbers
    give to the characteristics the spec names. *)
Definition TEMPERATURE_MEASUREMENT_UUID : string := "00002a1c-0000-1000-8000-00805f9b34fb".
Definition TEMPERATURE_TYPE_UUID : string := "00002a1d-0000-1000-8000-00805f9b34fb".
Definition INTERMEDIATE_TEMPERATURE_UUID : string := "00002a1e-0000-1000-8000-00805f9b34fb".
Definition MEASUREMENT_INTERVAL_UUID : string := "00002a21-0000-1000-8000-00805f9b34fb".
Definition GATT_CLIENT_CHARAC_CFG_UUID : Z := 0x2902.
Definition GATT_CHARAC_VALID_RANGE_UUID : Z := 0x2906.

(** Modelled from the spec: the two bits of a client characteristic
    configuration value (gatt.h): notification bit and indication bit. *)
Definition GATT_CLIENT_CHARAC_CFG_NOTIF_BIT : Z := 0x0001.
Definition GATT_CLIENT_CHARAC_CFG_IND_BIT : Z := 0x0002.

Definition ATT_FIND_INFO_RESP_FMT_16BIT : Z := 0x01.

(** ** Attribute values in a buffer

    Modelled from the spec: att_get_u16, att_get_u32 and att_put_u16 are
    inline helpers of att.h; attribute values are little-endian. A byte the
    list does not have reads as 0 here: whether a read is inside the buffer
    is decided separately, by [access]. *)

Definition att_get_u8 (buf : list byte) (off : nat) : Z :=
  byte_val (nth off buf x00).

Definition att_get_u16 (buf : list byte) (off : nat) : Z :=
  att_get_u8 buf off + 2 ^ 8 * att_get_u8 buf (off + 1).

Definition att_get_u32 (buf : list byte) (off : nat) : Z :=
  att_get_u8 buf off
  + 2 ^ 8 * att_get_u8 buf (off + 1)
  + 2 ^ 16 * att_get_u8 buf (off + 2)
  + 2 ^ 24 * att_get_u8 buf (off + 3).

Definition att_put_u16 (v : Z) : list byte :=
  [byte_of (Z.land v 0xFF); byte_of (Z.land (Z.shiftr v 8) 0xFF)].

(** [g_strcmp0 (a, b) == 0] on strings that are not NULL. *)
Definition streq (a b : string) : bool := String.eqb a b.

(** ** Outcomes of a run

    [Fault]: the run read memory it was not given (or dereferenced NULL).
    [Return why]: the function logged [why] and returned early.
    [Next a]: the run goes on with [a]. *)

Inductive res (A : Type) : Type :=
| Fault
| Return (why : string)
| Next (a : A).

Arguments Fault {A}.
Arguments Return {A} why.
Arguments Next {A} a.

Definition bind {A B : Type} (r : res A) (k : A -> res B) : res B :=
  match r with
  | Fault => Fault
  | Return why => Return why
  | Next a => k a
  end.

Notation "x <- r ;; k" := (bind r (fun x => k))
  (at level 61, r at next level, right associativity).
Notation "' pat <- r ;; k" := (bind r (fun x => match x with pat => k end))
  (at level 61, pat pattern, r at next level, right associativity).

(** [if (cond) { DBG(why); return; }] *)
Definition return_if {A : Type} (cond : bool) (why : string) (k : res A) : res A :=
  if cond then Return why else k.

(** A read of [n] bytes at offset [off] of the buffer. *)
Definition access (buf : list byte) (off n : nat) : res unit :=
  if (off + n <=? List.length buf)%nat then Next tt else Fault.

(** ** Data model *)

Record GAttrib := {
  ga_id : nat;          (* which GATT connection *)
  ga_buflen : Z         (* size of its output buffer *)
}.

Record att_range := {
  range_start : Z;
  range_end : Z
}.

Inductive bt_uuid_t :=
| BT_UUID16 (v : Z)
| BT_UUID128 (v : Z).

Record descriptor := {
  desc_handle : Z;
  desc_uuid : bt_uuid_t
}.

Record gatt_char := {
  uuid : string;
  handle : Z;
  properties : Z;
  value_handle : Z
}.

Record characteristic := {
  attr : gatt_char;           (* Characteristic *)
  desc : list descriptor      (* Descriptors *)
}.

Record thermometer := {
  dev : string;                    (* Device reference, by its object path *)
  attrib : option GAttrib;         (* GATT connection *)
  svc_range : att_range;           (* Thermometer range *)
  attioid : Z;                     (* Att watcher id *)
  attindid : Z;                    (* Att incications id *)
  attnotid : Z;                    (* Att notif id *)
  chars : list characteristic;     (* Characteristics *)
  intermediate : Z;                (* gboolean *)
  t_type : Z;
  interval : Z;
  t_max : Z;
  t_min : Z;
  has_type : bool;
  has_interval : bool
}.

Definition set_intermediate (t : thermometer) (v : Z) : thermometer :=
  {| dev := dev t; attrib := attrib t; svc_range := svc_range t;
     attioid := attioid t; attindid := attindid t; attnotid := attnotid t;
     chars := chars t; intermediate := v; t_type := t_type t;
     interval := interval t; t_max := t_max t; t_min := t_min t;
     has_type := has_type t; has_interval := has_interval t |}.

Definition set_interval (t : thermometer) (v : Z) : thermometer :=
  {| dev := dev t; attrib := attrib t; svc_range := svc_range t;
     attioid := attioid t; attindid := attindid t; attnotid := attnotid t;
     chars := chars t; intermediate := intermediate t; t_type := t_type t;
     interval := v; t_max := t_max t; t_min := t_min t;
     has_type := has_type t; has_interval := true |}.

Definition set_max (t : thermometer) (v : Z) : thermometer :=
  {| dev := dev t; attrib := attrib t; svc_range := svc_range t;
     attioid := attioid t; attindid := attindid t; attnotid := attnotid t;
     chars := chars t; intermediate := intermediate t; t_type := t_type t;
     interval := interval t; t_max := v; t_min := t_min t;
     has_type := has_type t; has_interval := has_interval t |}.

Definition set_min (t : thermometer) (v : Z) : thermometer :=
  {| dev := dev t; attrib := attrib t; svc_range := svc_range t;
     attioid := attioid t; attindid := attindid t; attnotid := attnotid t;
     chars := chars t; intermediate := intermediate t; t_type := t_type t;
     interval := interval t; t_max := t_max t; t_min := v;
     has_type := has_type t; has_interval := has_interval t |}.

Definition set_type (t : thermometer) (v : Z) : thermometer :=
  {| dev := dev t; attrib := attrib t; svc_range := svc_range t;
     attioid := attioid t; attindid := attindid t; attnotid := attnotid t;
     chars := chars t; intermediate := intermediate t; t_type := v;
     interval := interval t; t_max := t_max t; t_min := t_min t;
     has_type := true; has_interval := has_interval t |}.

Definition set_chars (t : thermometer) (l : list characteristic) : thermometer :=
  {| dev := dev t; attrib := attrib t; svc_range := svc_range t;
     attioid := attioid t; attindid := attindid t; attnotid := attnotid t;
     chars := l; intermediate := intermediate t; t_type := t_type t;
     interval := interval t; t_max := t_max t; t_min := t_min t;
     has_type := has_type t; has_interval := has_interval t |}.

Definition set_connection (t : thermometer) (a : option GAttrib) (ind notif : Z)
    : thermometer :=
  {| dev := dev t; attrib := a; svc_range := svc_range t;
     attioid := attioid t; attindid := ind; attnotid := notif;
     chars := chars t; intermediate := intermediate t; t_type := t_type t;
     interval := interval t; t_max := t_max t; t_min := t_min t;
     has_type := has_type t; has_interval := has_interval t |}.

Record watcher := {
  w_id : Z;                     (* id of the disconnect watch *)
  srv : string;
  path : string
}.

Record thermometer_adapter := {
  adapter : nat;
  devices : list thermometer;
  fwatchers : list watcher;     (* Final measurements *)
  iwatchers : list watcher      (* Intermediate measurements *)
}.

Definition set_fwatchers (ta : thermometer_adapter) (l : list watcher)
    : thermometer_adapter :=
  {| adapter := adapter ta; devices := devices ta;
     fwatchers := l; iwatchers := iwatchers ta |}.

Definition set_iwatchers (ta : thermometer_adapter) (l : list watcher)
    : thermometer_adapter :=
  {| adapter := adapter ta; devices := devices ta;
     fwatchers := fwatchers ta; iwatchers := l |}.

Definition set_devices (ta : thermometer_adapter) (l : list thermometer)
    : thermometer_adapter :=
  {| adapter := adapter ta; devices := l;
     fwatchers := fwatchers ta; iwatchers := iwatchers ta |}.

Record measurement := {
  m_exp : Z;
  m_mant : Z;
  m_time : Z;
  m_suptime : bool;
  m_unit : string;
  m_type : option string;
  m_value : string
}.

Record tm := {
  tm_year : Z;
  tm_mon : Z;
  tm_mday : Z;
  tm_hour : Z;
  tm_min : Z;
  tm_sec : Z;
  tm_isdst : Z
}.

(** What a transport request carries as callback and user data. *)
Inductive callback :=
| cb_write_ccc (msg : string)
| cb_write_ccc_value (value : Z) (for_uuid : string)
| cb_valid_range_desc (d : descriptor)
| cb_read_temp_type (ch : characteristic)
| cb_read_interval (ch : characteristic)
| cb_write_interval (value : Z)
| cb_discover_desc (ch : characteristic)
| cb_configure_thermometer.

(** Calls into the collaborators, in the order the code makes them. *)
Inductive event :=
| emit_property_changed (object_path iface name : string) (value : Z)
| gatt_discover_char (a : option GAttrib) (first last : Z) (cb : callback)
| gatt_find_info (a : option GAttrib) (first last : Z) (cb : callback)
| gatt_read_char (a : option GAttrib) (h : Z) (cb : callback)
| gatt_write_char (a : option GAttrib) (h : Z) (value : list byte) (cb : callback)
| g_attrib_send (a : GAttrib) (olen : Z)
| g_attrib_unregister (a : option GAttrib) (reg : Z)
| g_dbus_add_disconnect_watch (name : string) (watch : Z)
| g_dbus_remove_watch (watch : Z)
| MeasurementReceived (w_srv w_path object_path : string) (m : measurement).

(** Modelled from the spec: bt_uuid16_create, bt_uuid_cmp, att_get_uuid16 and
    att_get_uuid128 belong to lib/uuid.c and att.h. Two UUIDs compare equal
    when their 128-bit forms are equal; a 16-bit UUID stands for the Bluetooth
    base UUID with the 16 bits placed at bit 96. *)
Definition BLUETOOTH_BASE_UUID : Z := 0x0000000000001000800000805F9B34FB.

Definition bt_uuid_to_uuid128 (u : bt_uuid_t) : Z :=
  match u with
  | BT_UUID16 v => Z.shiftl v 96 + BLUETOOTH_BASE_UUID
  | BT_UUID128 v => v
  end.

Definition bt_uuid16_create (v : Z) : bt_uuid_t := BT_UUID16 v.

Definition bt_uuid_cmp (a b : bt_uuid_t) : Z :=
  match bt_uuid_to_uuid128 a ?= bt_uuid_to_uuid128 b with
  | Lt => -1
  | Eq => 0
  | Gt => 1
  end.

Fixpoint att_get_le (buf : list byte) (off n : nat) : Z :=
  match n with
  | O => 0
  | S n' => att_get_u8 buf off + 2 ^ 8 * att_get_le buf (S off) n'
  end.

Definition att_get_uuid16 (buf : list byte) (off : nat) : bt_uuid_t :=
  BT_UUID16 (att_get_u16 buf off).

Definition att_get_uuid128 (buf : list byte) (off : nat) : bt_uuid_t :=
  BT_UUID128 (att_get_le buf off 16).

(** ** Lists of pointers

    A GSList of watchers holds pointers. The registry never holds two
    watchers with the same (srv, path) in fwatchers, and iwatchers only
    holds pointers taken from fwatchers, so two of its pointers are equal
    exactly when the records are: g_slist_find and g_slist_remove compare
    records here. *)
Definition watcher_eqb (a b : watcher) : bool :=
  (w_id a =? w_id b) && streq (srv a) (srv b) && streq (path a) (path b).

Definition g_slist_find (l : list watcher) (w : watcher) : bool :=
  existsb (watcher_eqb w) l.

(** g_slist_remove: the first element equal to [w] goes, if there is one. *)
Fixpoint g_slist_remove (l : list watcher) (w : watcher) : list watcher :=
  match l with
  | [] => []
  | x :: l' => if watcher_eqb x w then l' else x :: g_slist_remove l' w
  end.

Definition g_slist_length {A : Type} (l : list A) : Z := Z.of_nat (List.length l).

(** Messages of the IPC layer: an incoming method call with its sender and
    arguments, and the reply the method hands back. *)
Inductive dbus_arg :=
| DBUS_TYPE_STRING (s : string)
| DBUS_TYPE_OBJECT_PATH (s : string)
| DBUS_TYPE_UINT16 (n : Z)
| DBUS_TYPE_VARIANT (a : dbus_arg)
| DBUS_TYPE_BOOLEAN (b : bool).

Record DBusMessage := {
  sender : string;
  args : list dbus_arg
}.

Inductive reply :=
| method_return
| btd_error_invalid_args
| btd_error_already_exists
| btd_error_does_not_exist
| btd_error_not_connected
| btd_error_not_available.

(** The code outside thermometer.c whose results the plugin consumes.
    - [mktime]: libc, local calendar conversion.
    - [dec_read_resp pdu len vlen]: att.c; the result (negative on error)
      and the contents of the value buffer after the call.
    - [dec_write_resp pdu len]: att.c.
    - [dec_find_info_resp pdu len]: att.c; NULL, or the format and the
      entries of the list.
    - [enc_confirmation plen]: att.c; the length of the confirmation
      written to the output buffer of size [plen], 0 when none was. *)
Class Externals := {
  mktime : tm -> Z;
  dec_read_resp : list byte -> Z -> Z -> Z * list byte;
  dec_write_resp : list byte -> Z -> bool;
  dec_find_info_resp : list byte -> Z -> option (Z * list (list byte));
  enc_confirmation : Z -> Z
}.

Section Thermometer.

Context {ext : Externals}.

(** ** Measurement decoding *)

Definition temp_type : list string :=
  [ "<reserved>"; "armpit"; "body"; "ear"; "finger"; "intestines"; "mouth";
    "rectum"; "toe"; "tympanum" ].

Definition temptype2str (value : Z) : option string :=
  if (0 <? value) && (value <? Z.of_nat (List.length temp_type))
  then Some (nth (Z.to_nat value) temp_type EmptyString)
  else None.

(** update_watcher: the MeasurementReceived call sent to one watcher. *)
Definition update_watcher (t : thermometer) (m : measurement) (w : watcher) : event :=
  MeasurementReceived (srv w) (path w) (dev t) m.

Definition recv_measurement (ta : thermometer_adapter) (t : thermometer)
    (m : measurement) : list event :=
  let wlist :=
    if streq (m_value m) "intermediate" then iwatchers ta else fwatchers ta in
  map (update_watcher t m) wlist.

(** The mantissa and the exponent of the 32-bit value field, as
    proc_measurement computes them from [raw]. *)
Definition measurement_value (raw : Z) : Z * Z :=
  let mant := s32 (Z.land raw 0x00FFFFFF) in
  let exp := s16 (Z.shiftr (s32 raw) 24) in
  let mant :=
    if Z.land mant 0x00800000 =? 0 then mant
    else (* convert to C2 negative value *) s32 (mant - FLOAT_MAX_MANTISSA) in
  (mant, exp).

Definition proc_measurement (ta : thermometer_adapter) (t : thermometer)
    (pdu : list byte) (len : Z) (final : bool)
    : res (measurement * list event) :=
  (* skip opcode and handle *)
  let p := 3%nat in
  let len := u16 (len - 3) in
  return_if (len <? 1) "Mandatory flags are not provided" (
  _ <- access pdu p 1 ;;
  let flags := att_get_u8 pdu p in
  let unit_ := if Z.land flags TEMP_UNITS =? 0 then "celsius" else "fahrenheit" in
  let p := S p in
  let len := u16 (len - 1) in
  return_if (len <? 4) "Mandatory temperature measurement value is not provided" (
  _ <- access pdu p 4 ;;
  let raw := att_get_u32 pdu p in
  let '(mant, exp) := measurement_value raw in
  let p := (p + 4)%nat in
  let len := u16 (len - 4) in
  '(time, suptime, p, len) <-
    (if Z.land flags TEMP_TIME_STAMP =? 0 then Next (0, false, p, len)
     else
       return_if (len <? 7) "Time stamp is not provided" (
       _ <- access pdu p 7 ;;
       let ts := {| tm_year := att_get_u16 pdu p - 1900;
                    tm_mon := att_get_u8 pdu (p + 2) - 1;
                    tm_mday := att_get_u8 pdu (p + 3);
                    tm_hour := att_get_u8 pdu (p + 4);
                    tm_min := att_get_u8 pdu (p + 5);
                    tm_sec := att_get_u8 pdu (p + 6);
                    tm_isdst := -1 |} in
       let time := mktime ts in
       Next (u64 time, true, (p + 7)%nat, u16 (len - 7)))) ;;
  type <-
    (if Z.land flags TEMP_TYPE =? 0 then
       Next (if has_type t then temptype2str (t_type t) else None)
     else
       return_if (len <? 1) "Temperature type is not provided" (
       _ <- access pdu p 1 ;;
       Next (temptype2str (att_get_u8 pdu p)))) ;;
  let m := {| m_exp := exp;
              m_mant := mant;
              m_time := time;
              m_suptime := suptime;
              m_unit := unit_;
              m_type := type;
              m_value := if final then "final" else "intermediate" |} in
  Next (m, recv_measurement ta t m))).

(** ** Lookups *)

Definition cmp_watcher (w m : watcher) : bool :=
  streq (srv w) (srv m) && streq (path w) (path m).

Definition cmp_char_uuid (ch : characteristic) (u : string) : bool :=
  streq (uuid (attr ch)) u.

Definition cmp_char_val_handle (ch : characteristic) (h : Z) : Z :=
  value_handle (attr ch) - h.

Definition cmp_descriptor (d : descriptor) (u : bt_uuid_t) : Z :=
  bt_uuid_cmp (desc_uuid d) u.

Definition get_characteristic (t : thermometer) (u : string)
    : option characteristic :=
  find (fun ch => cmp_char_uuid ch u) (chars t).

Definition get_descriptor (ch : characteristic) (u : bt_uuid_t)
    : option descriptor :=
  find (fun d => cmp_descriptor d u =? 0) (desc ch).

(** ** Cached properties *)

Definition change_property (t : thermometer) (name : string) (value : Z)
    : thermometer * list event :=
  if streq name "Intermediate" then
    if intermediate t =? value then (t, [])
    else
      let t := set_intermediate t value in
      (t, [emit_property_changed (dev t) THERMOMETER_INTERFACE name
             (intermediate t)])
  else if streq name "Interval" then
    if has_interval t && (interval t =? value) then (t, [])
    else
      let t := set_interval t value in
      (t, [emit_property_changed (dev t) THERMOMETER_INTERFACE name
             (interval t)])
  else if streq name "Maximum" then
    if t_max t =? value then (t, [])
    else
      let t := set_max t value in
      (t, [emit_property_changed (dev t) THERMOMETER_INTERFACE name (t_max t)])
  else if streq name "Minimum" then
    if t_min t =? value then (t, [])
    else
      let t := set_min t value in
      (t, [emit_property_changed (dev t) THERMOMETER_INTERFACE name (t_min t)])
  else
    (* DBG: not a thermometer property *)
    (t, []).

(** The callbacks of read and write requests get the thermometer through
    their user data (desc->ch->t, ch->t, data->thermometer); here they take
    it as [t] and hand back what it became. *)

Definition valid_range_desc_cb (status : Z) (pdu : list byte) (len : Z)
    (t : thermometer) : res (thermometer * list event) :=
  return_if (negb (status =? 0)) "Valid Range descriptor read failed" (
  let '(vlen, value) := dec_read_resp pdu len VALID_RANGE_DESC_SIZE in
  return_if (vlen <? 0) "Protocol error" (
  return_if (vlen <? 4) "Invalid range received" (
  let min := att_get_u16 value 0 in
  let max := att_get_u16 value 2 in
  return_if ((min =? 0) || (max <? min)) "Invalid range" (
  let '(t, e1) := change_property t "Maximum" max in
  let '(t, e2) := change_property t "Minimum" min in
  Next (t, e1 ++ e2))))).

Definition read_temp_type_cb (status : Z) (pdu : list byte) (len : Z)
    (t : thermometer) : res (thermometer * list event) :=
  return_if (negb (status =? 0)) "Temperature Type value read failed" (
  let '(vlen, value) := dec_read_resp pdu len TEMPERATURE_TYPE_SIZE in
  return_if (vlen <? 0) "Protocol error." (
  return_if (negb (vlen =? 1)) "Invalid length for Temperature type" (
  Next (set_type t (att_get_u8 value 0), [])))).

Definition read_interval_cb (status : Z) (pdu : list byte) (len : Z)
    (t : thermometer) : res (thermometer * list event) :=
  return_if (negb (status =? 0)) "Measurement Interval value read failed" (
  let '(vlen, value) := dec_read_resp pdu len MEASUREMENT_INTERVAL_SIZE in
  return_if (vlen <? 0) "Protocol error" (
  return_if (vlen <? 2) "Invalid Interval received" (
  let interval := att_get_u16 value 0 in
  Next (change_property t "Interval" interval)))).

(** ** Discovery and configuration *)

Definition process_thermometer_desc (ta : thermometer_adapter)
    (t : thermometer) (ch : characteristic) (d : descriptor) : list event :=
  if bt_uuid_cmp (desc_uuid d) (bt_uuid16_create GATT_CLIENT_CHARAC_CFG_UUID) =? 0
  then
    if streq (uuid (attr ch)) TEMPERATURE_MEASUREMENT_UUID then
      if g_slist_length (fwatchers ta) =? 0 then []
      else
        [gatt_write_char (attrib t) (desc_handle d)
           (att_put_u16 GATT_CLIENT_CHARAC_CFG_IND_BIT)
           (cb_write_ccc "Enable Temperature Measurement indication")]
    else if streq (uuid (attr ch)) INTERMEDIATE_TEMPERATURE_UUID then
      if g_slist_length (iwatchers ta) =? 0 then []
      else
        [gatt_write_char (attrib t) (desc_handle d)
           (att_put_u16 GATT_CLIENT_CHARAC_CFG_NOTIF_BIT)
           (cb_write_ccc "Enable Intermediate Temperature notification")]
    else if streq (uuid (attr ch)) MEASUREMENT_INTERVAL_UUID then
      [gatt_write_char (attrib t) (desc_handle d)
         (att_put_u16 GATT_CLIENT_CHARAC_CFG_IND_BIT)
         (cb_write_ccc "Enable Measurement Interval indication")]
    else
      (* done: DBG, ignored descriptor *) []
  else if (bt_uuid_cmp (desc_uuid d)
             (bt_uuid16_create GATT_CHARAC_VALID_RANGE_UUID) =? 0)
          && streq (uuid (attr ch)) MEASUREMENT_INTERVAL_UUID
  then [gatt_read_char (attrib t) (desc_handle d) (cb_valid_range_desc d)]
  else (* done: DBG, ignored descriptor *) [].

(** One entry of a find-information response as a descriptor. *)
Definition new_descriptor (format : Z) (value : list byte) : descriptor :=
  {| desc_handle := att_get_u16 value 0;
     desc_uuid := if format =? ATT_FIND_INFO_RESP_FMT_16BIT
                  then att_get_uuid16 value 2
                  else att_get_uuid128 value 2 |}.

Definition append_desc (ch : characteristic) (l : list descriptor)
    : characteristic :=
  {| attr := attr ch; desc := desc ch ++ l |}.

Fixpoint replace_nth {A : Type} (n : nat) (l : list A) (x : A) : list A :=
  match l, n with
  | [], _ => []
  | _ :: l', O => x :: l'
  | y :: l', S n' => y :: replace_nth n' l' x
  end.

(** discover_desc_cb: the user data is a characteristic of the
    thermometer, here its position [i] in t->chars. Each entry becomes a
    descriptor appended to that characteristic and is processed at once. *)
Definition discover_desc_cb (status : Z) (pdu : list byte) (len : Z)
    (ta : thermometer_adapter) (i : nat) (t : thermometer)
    : res (thermometer * list event) :=
  match nth_error (chars t) i with
  | None => Fault
  | Some ch =>
    return_if (negb (status =? 0))
      "Discover all characteristic descriptors failed" (
    match dec_find_info_resp pdu len with
    | None => Return EmptyString
    | Some (format, data) =>
      let descs := map (new_descriptor format) data in
      let t' := set_chars t (replace_nth i (chars t) (append_desc ch descs)) in
      Next (t', flat_map (process_thermometer_desc ta t ch) descs)
    end)
  end.

Definition process_thermometer_char (ch : characteristic) (t : thermometer)
    : thermometer * list event :=
  if streq (uuid (attr ch)) INTERMEDIATE_TEMPERATURE_UUID then
    change_property t "Intermediate" 1
  else if streq (uuid (attr ch)) TEMPERATURE_TYPE_UUID then
    (t, [gatt_read_char (attrib t) (value_handle (attr ch))
           (cb_read_temp_type ch)])
  else if streq (uuid (attr ch)) MEASUREMENT_INTERVAL_UUID then
    (t, [gatt_read_char (attrib t) (value_handle (attr ch))
           (cb_read_interval ch)])
  else (t, []).

(** The loop of configure_thermometer_cb over the discovered
    characteristics. *)
Fixpoint configure_chars (l : list gatt_char) (t : thermometer)
    : thermometer * list event :=
  match l with
  | [] => (t, [])
  | c :: next =>
    let ch := {| attr := c; desc := [] |} in
    let t := set_chars t (chars t ++ [ch]) in
    let '(t, e1) := process_thermometer_char ch t in
    let start := u16 (value_handle c + 1) in
    let e2 :=
      match next with
      | c' :: _ =>
        if start =? handle c' then []
        else [gatt_find_info (attrib t) start (u16 (handle c' - 1))
                (cb_discover_desc ch)]
      | [] =>
        if negb (value_handle c =? range_end (svc_range t)) then
          [gatt_find_info (attrib t) start (range_end (svc_range t))
             (cb_discover_desc ch)]
        else []
      end in
    let '(t, e3) := configure_chars next t in
    (t, e1 ++ e2 ++ e3)
  end.

Definition configure_thermometer_cb (characteristics : list gatt_char)
    (status : Z) (t : thermometer) : res (thermometer * list event) :=
  return_if (negb (status =? 0)) "Discover thermometer characteristics" (
  Next (configure_chars characteristics t)).

(** ** Setting the interval *)

Definition write_interval_cb (status : Z) (pdu : list byte) (len : Z)
    (data_interval : Z) (t : thermometer) : res (thermometer * list event) :=
  return_if (negb (status =? 0)) "Interval Write Request failed" (
  return_if (negb (dec_write_resp pdu len))
    "Interval Write Request: protocol error" (
  Next (change_property t "Interval" data_interval))).

Definition write_attr_interval (t : thermometer) (value : Z)
    : thermometer * reply * list event :=
  match attrib t with
  | None => (t, btd_error_not_connected, [])
  | Some a =>
    match get_characteristic t MEASUREMENT_INTERVAL_UUID with
    | None => (t, btd_error_not_available, [])
    | Some ch =>
      if (value <? t_min t) || (t_max t <? value) then
        (t, btd_error_invalid_args, [])
      else
        (t, method_return,
         [gatt_write_char (attrib t) (value_handle (attr ch))
            (att_put_u16 value) (cb_write_interval value)])
    end
  end.

Definition set_property (msg : DBusMessage) (t : thermometer)
    : thermometer * reply * list event :=
  match args msg with
  | [] => (t, btd_error_invalid_args, [])
  | DBUS_TYPE_STRING property :: rest =>
    if negb (streq "Interval" property) then (t, btd_error_invalid_args, [])
    else if negb (has_interval t) then (t, btd_error_not_available, [])
    else
      match rest with
      | DBUS_TYPE_VARIANT (DBUS_TYPE_UINT16 value) :: _ =>
        write_attr_interval t value
      | _ => (t, btd_error_invalid_args, [])
      end
  | _ :: _ => (t, btd_error_invalid_args, [])
  end.

(** ** Client characteristic configuration *)

Definition write_ccc (t : thermometer) (u : string) (value : Z) : list event :=
  match attrib t with
  | None => []
  | Some _ =>
    match get_characteristic t u with
    | None => (* DBG: characteristic not found *) []
    | Some ch =>
      match get_descriptor ch (bt_uuid16_create GATT_CLIENT_CHARAC_CFG_UUID) with
      | None => (* DBG: CCC descriptor not found *) []
      | Some d =>
        [gatt_write_char (attrib t) (desc_handle d) (att_put_u16 value)
           (cb_write_ccc_value value u)]
      end
    end
  end.

Definition enable_final_measurement (t : thermometer) : list event :=
  write_ccc t TEMPERATURE_MEASUREMENT_UUID GATT_CLIENT_CHARAC_CFG_IND_BIT.

Definition enable_intermediate_measurement (t : thermometer) : list event :=
  write_ccc t INTERMEDIATE_TEMPERATURE_UUID GATT_CLIENT_CHARAC_CFG_NOTIF_BIT.

Definition disable_final_measurement (t : thermometer) : list event :=
  write_ccc t TEMPERATURE_MEASUREMENT_UUID 0x0000.

Definition disable_intermediate_measurement (t : thermometer) : list event :=
  write_ccc t INTERMEDIATE_TEMPERATURE_UUID 0x0000.

Definition g_slist_foreach (l : list thermometer)
    (f : thermometer -> list event) : list event :=
  flat_map f l.

(** ** Watcher registry *)

Definition remove_int_watcher (ta : thermometer_adapter) (w : watcher)
    : thermometer_adapter * list event :=
  if negb (g_slist_find (iwatchers ta) w) then (ta, [])
  else
    let ta := set_iwatchers ta (g_slist_remove (iwatchers ta) w) in
    if g_slist_length (iwatchers ta) =? 0 then
      (ta, g_slist_foreach (devices ta) disable_intermediate_measurement)
    else (ta, []).

(** watcher_exit: the disconnect watch of [w] fired. *)
Definition watcher_exit (w : watcher) (ta : thermometer_adapter)
    : thermometer_adapter * list event :=
  let '(ta, e1) := remove_int_watcher ta w in
  let ta := set_fwatchers ta (g_slist_remove (fwatchers ta) w) in
  let e2 := [g_dbus_remove_watch (w_id w)] in
  if g_slist_length (fwatchers ta) =? 0 then
    (ta, e1 ++ e2 ++ g_slist_foreach (devices ta) disable_final_measurement)
  else (ta, e1 ++ e2).

Definition find_watcher (l : list watcher) (sender_ path_ : string)
    : option watcher :=
  let match_ := {| w_id := 0; srv := sender_; path := path_ |} in
  find (fun w => cmp_watcher w match_) l.

(** dbus_message_get_args (msg, NULL, DBUS_TYPE_OBJECT_PATH, &path,
    DBUS_TYPE_INVALID): the object path the call starts with. *)
Definition get_args_object_path (msg : DBusMessage) : option string :=
  match args msg with
  | DBUS_TYPE_OBJECT_PATH p :: _ => Some p
  | _ => None
  end.

(** register_watcher; [watch] is the id g_dbus_add_disconnect_watch hands
    back for the new watcher. *)
Definition register_watcher (watch : Z) (msg : DBusMessage)
    (ta : thermometer_adapter) : thermometer_adapter * reply * list event :=
  match get_args_object_path msg with
  | None => (ta, btd_error_invalid_args, [])
  | Some path_ =>
    match find_watcher (fwatchers ta) (sender msg) path_ with
    | Some _ => (ta, btd_error_already_exists, [])
    | None =>
      let w := {| w_id := watch; srv := sender msg; path := path_ |} in
      let e1 := [g_dbus_add_disconnect_watch (sender msg) watch] in
      let e2 :=
        if g_slist_length (fwatchers ta) =? 0 then
          g_slist_foreach (devices ta) enable_final_measurement
        else [] in
      (set_fwatchers ta (w :: fwatchers ta), method_return, e1 ++ e2)
    end
  end.

Definition unregister_watcher (msg : DBusMessage) (ta : thermometer_adapter)
    : thermometer_adapter * reply * list event :=
  match get_args_object_path msg with
  | None => (ta, btd_error_invalid_args, [])
  | Some path_ =>
    match find_watcher (fwatchers ta) (sender msg) path_ with
    | None => (ta, btd_error_does_not_exist, [])
    | Some w =>
      let '(ta, e1) := remove_int_watcher ta w in
      let ta := set_fwatchers ta (g_slist_remove (fwatchers ta) w) in
      let e2 := [g_dbus_remove_watch (w_id w)] in
      let e3 :=
        if g_slist_length (fwatchers ta) =? 0 then
          g_slist_foreach (devices ta) disable_final_measurement
        else [] in
      (ta, method_return, e1 ++ e2 ++ e3)
    end
  end.

Definition enable_intermediate (msg : DBusMessage) (ta : thermometer_adapter)
    : thermometer_adapter * reply * list event :=
  match get_args_object_path msg with
  | None => (ta, btd_error_invalid_args, [])
  | Some path_ =>
    match find_watcher (fwatchers ta) (sender msg) path_ with
    | None => (ta, btd_error_does_not_exist, [])
    | Some w =>
      match find_watcher (iwatchers ta) (sender msg) path_ with
      | Some _ => (ta, btd_error_already_exists, [])
      | None =>
        let e :=
          if g_slist_length (iwatchers ta) =? 0 then
            g_slist_foreach (devices ta) enable_intermediate_measurement
          else [] in
        (set_iwatchers ta (w :: iwatchers ta), method_return, e)
      end
    end
  end.

Definition disable_intermediate (msg : DBusMessage) (ta : thermometer_adapter)
    : thermometer_adapter * reply * list event :=
  match get_args_object_path msg with
  | None => (ta, btd_error_invalid_args, [])
  | Some path_ =>
    match find_watcher (iwatchers ta) (sender msg) path_ with
    | None => (ta, btd_error_does_not_exist, [])
    | Some w =>
      let '(ta, e) := remove_int_watcher ta w in
      (ta, method_return, e)
    end
  end.

(** ** Indications and notifications *)

Definition proc_measurement_interval (t : thermometer) (pdu : list byte)
    (len : Z) : res (thermometer * list event) :=
  return_if (len <? 5) "Measurement interval value is not provided" (
  _ <- access pdu 3 2 ;;
  let interval := att_get_u16 pdu 3 in
  Next (change_property t "Interval" interval)).

(** A callee that returned early leaves its caller going with [a]. *)
Definition after_call {A : Type} (r : res A) (a : A) : res A :=
  match r with
  | Return _ => Next a
  | _ => r
  end.

(** What a call of proc_measurement leaves to its caller: the calls it
    made, none when it returned early. *)
Definition calls_of (r : res (measurement * list event)) : res (list event) :=
  match r with
  | Fault => Fault
  | Return _ => Next []
  | Next (_, e) => Next e
  end.

Definition ind_handler (pdu : list byte) (len : Z) (ta : thermometer_adapter)
    (t : thermometer) : res (thermometer * list event) :=
  return_if (len <? 3) "Bad pdu received" (
  _ <- access pdu 1 2 ;;
  let handle := att_get_u16 pdu 1 in
  match find (fun ch => cmp_char_val_handle ch handle =? 0) (chars t) with
  | None => Return "Unexpected handle"
  | Some ch =>
    '(t, e1) <-
      (if streq (uuid (attr ch)) TEMPERATURE_MEASUREMENT_UUID then
         e <- calls_of (proc_measurement ta t pdu len true) ;;
         Next (t, e)
       else if streq (uuid (attr ch)) MEASUREMENT_INTERVAL_UUID then
         after_call (proc_measurement_interval t pdu len) (t, [])
       else Next (t, [])) ;;
    match attrib t with
    | None => Fault
    | Some a =>
      let plen := ga_buflen a in
      let olen := u16 (enc_confirmation plen) in
      if 0 <? olen then Next (t, e1 ++ [g_attrib_send a olen])
      else Next (t, e1)
    end
  end).

Definition notif_handler (pdu : list byte) (len : Z) (ta : thermometer_adapter)
    (t : thermometer) : res (thermometer * list event) :=
  return_if (len <? 3) "Bad pdu received" (
  _ <- access pdu 1 2 ;;
  let handle := att_get_u16 pdu 1 in
  match find (fun ch => cmp_char_val_handle ch handle =? 0) (chars t) with
  | None => Return "Unexpected handle"
  | Some ch =>
    if streq (uuid (attr ch)) INTERMEDIATE_TEMPERATURE_UUID then
      e <- calls_of (proc_measurement ta t pdu len false) ;;
      Next (t, e)
    else Next (t, [])
  end).

(** ** Connection and registration *)

(** attio_connected_cb; [ind] and [notif] are the ids g_attrib_register
    hands back. *)
Definition attio_connected_cb (a : GAttrib) (ind notif : Z) (t : thermometer)
    : thermometer * list event :=
  let t := set_connection t (Some a) ind notif in
  (t, [gatt_discover_char (attrib t) (range_start (svc_range t))
         (range_end (svc_range t)) cb_configure_thermometer]).

Definition attio_disconnected_cb (t : thermometer) : thermometer * list event :=
  let e1 := if 0 <? attindid t then [g_attrib_unregister (attrib t) (attindid t)]
            else [] in
  let e2 := if 0 <? attnotid t then [g_attrib_unregister (attrib t) (attnotid t)]
            else [] in
  (set_connection t None 0 0, e1 ++ e2).

(** The thermometer thermometer_register allocates (g_new0) and fills in;
    [attio] is the id btd_device_add_attio_callback hands back. *)
Definition new_thermometer (device : string) (tattr_range : att_range)
    (attio : Z) : thermometer :=
  {| dev := device; attrib := None;
     svc_range := {| range_start := range_start tattr_range;
                     range_end := range_end tattr_range |};
     attioid := attio; attindid := 0; attnotid := 0; chars := [];
     intermediate := 0; t_type := 0; interval := 0; t_max := 0; t_min := 0;
     has_type := false; has_interval := false |}.

Definition EIO : Z := 5.

(** thermometer_register on the adapter found for the device (-1 when
    there is none); [registered] is what g_dbus_register_interface
    answered. When it answered no, the thermometer is destroyed but its
    entry, prepended before, is not taken out of tadapter->devices: the
    list of the code then holds a pointer to a freed thermometer, the
    list here the record as it was filled in. *)
Definition thermometer_register (device : string) (tattr_range : att_range)
    (registered : bool) (attio : Z) (tadapter : option thermometer_adapter)
    : option thermometer_adapter * Z :=
  match tadapter with
  | None => (None, -1)
  | Some ta =>
    let t := new_thermometer device tattr_range (if registered then attio else 0) in
    let ta := set_devices ta (t :: devices ta) in
    if negb registered then (Some ta, - EIO) else (Some ta, 0)
  end.

(** thermometer_adapter_register: the adapter starts without devices and
    without watchers. *)
Definition new_thermometer_adapter (a : nat) : thermometer_adapter :=
  {| adapter := a; devices := []; fwatchers := []; iwatchers := [] |}.

(** ** The registry over time

    The operations that reach the watcher lists of one adapter: the four
    methods of the manager interface, the disconnect watch of an endpoint,
    and a change of the attached thermometers (thermometer_register,
    thermometer_unregister and the GATT callbacks, none of which touches a
    watcher list). *)
Inductive registry_op :=
| op_register_watcher (watch : Z) (msg : DBusMessage)
| op_unregister_watcher (msg : DBusMessage)
| op_enable_intermediate (msg : DBusMessage)
| op_disable_intermediate (msg : DBusMessage)
| op_endpoint_disconnect (name : string)
| op_devices (l : list thermometer).

(** An endpoint leaves the bus: the disconnect watch of every watcher it
    registered fires, one after the other. *)
Definition endpoint_disconnect (name : string) (ta : thermometer_adapter)
    : thermometer_adapter * list event :=
  fold_left
    (fun (acc : thermometer_adapter * list event) (w : watcher) =>
       let '(ta', e') := watcher_exit w (fst acc) in (ta', snd acc ++ e'))
    (filter (fun w => streq (srv w) name) (fwatchers ta))
    (ta, []).

Definition apply_op (op : registry_op) (ta : thermometer_adapter)
    : thermometer_adapter * list event :=
  match op with
  | op_register_watcher watch msg =>
    let '(ta', _, e) := register_watcher watch msg ta in (ta', e)
  | op_unregister_watcher msg =>
    let '(ta', _, e) := unregister_watcher msg ta in (ta', e)
  | op_enable_intermediate msg =>
    let '(ta', _, e) := enable_intermediate msg ta in (ta', e)
  | op_disable_intermediate msg =>
    let '(ta', _, e) := disable_intermediate msg ta in (ta', e)
  | op_endpoint_disconnect name => endpoint_disconnect name ta
  | op_devices l => (set_devices ta l, [])
  end.

Definition run_ops (ops : list registry_op) (ta : thermometer_adapter)
    : thermometer_adapter :=
  fold_left (fun ta op => fst (apply_op op ta)) ops ta.

(** ** A thermometer over time

    What happens to one thermometer after thermometer_register: the
    connection comes and goes, responses to the requests the plugin issued
    come back, indications and notifications arrive, SetProperty is called. *)
Inductive thermo_event :=
| ev_connected (a : GAttrib) (ind notif : Z)
| ev_disconnected
| ev_characteristics (l : list gatt_char) (status : Z)
| ev_descriptors (i : nat) (status : Z) (pdu : list byte) (len : Z)
| ev_temp_type (status : Z) (pdu : list byte) (len : Z)
| ev_interval_read (status : Z) (pdu : list byte) (len : Z)
| ev_valid_range (status : Z) (pdu : list byte) (len : Z)
| ev_interval_written (status : Z) (pdu : list byte) (len : Z) (value : Z)
| ev_indication (pdu : list byte) (len : Z)
| ev_notification (pdu : list byte) (len : Z)
| ev_set_property (msg : DBusMessage).

Definition has_characteristic (t : thermometer) (u : string) : bool :=
  match get_characteristic t u with
  | Some _ => true
  | None => false
  end.

(** Whether the event can occur: a response only comes back for a request
    that was issued, and each request is issued for a characteristic that
    is already in t->chars (process_thermometer_char, write_attr_interval,
    process_thermometer_desc); the handlers are registered on the
    connection, and a PDU comes with its length. *)
Definition pending (e : thermo_event) (t : thermometer) : bool :=
  match e with
  | ev_descriptors i _ _ _ => (i <? List.length (chars t))%nat
  | ev_temp_type _ _ _ => has_characteristic t TEMPERATURE_TYPE_UUID
  | ev_interval_read _ _ _ => has_characteristic t MEASUREMENT_INTERVAL_UUID
  | ev_valid_range _ _ _ => has_characteristic t MEASUREMENT_INTERVAL_UUID
  | ev_interval_written _ _ _ _ =>
    has_characteristic t MEASUREMENT_INTERVAL_UUID
  | ev_indication pdu len | ev_notification pdu len =>
    match attrib t with
    | Some _ => (len =? Z.of_nat (List.length pdu)) && (len <=? 65535)
    | None => false
    end
  | _ => true
  end.

Definition fire (ta : thermometer_adapter) (e : thermo_event) (t : thermometer)
    : res (thermometer * list event) :=
  match e with
  | ev_connected a ind notif => Next (attio_connected_cb a ind notif t)
  | ev_disconnected => Next (attio_disconnected_cb t)
  | ev_characteristics l status => configure_thermometer_cb l status t
  | ev_descriptors i status pdu len => discover_desc_cb status pdu len ta i t
  | ev_temp_type status pdu len => read_temp_type_cb status pdu len t
  | ev_interval_read status pdu len => read_interval_cb status pdu len t
  | ev_valid_range status pdu len => valid_range_desc_cb status pdu len t
  | ev_interval_written status pdu len value =>
    write_interval_cb status pdu len value t
  | ev_indication pdu len => ind_handler pdu len ta t
  | ev_notification pdu len => notif_handler pdu len ta t
  | ev_set_property msg =>
    let '(t', _, e) := set_property msg t in Next (t', e)
  end.

(** The thermometer after a callback: an early return leaves it as it
    was; after a fault there is none. *)
Definition state_after (r : res (thermometer * list event)) (t : thermometer)
    : option thermometer :=
  match r with
  | Fault => None
  | Return _ => Some t
  | Next (t', _) => Some t'
  end.

(** The event is a Valid Range read whose range is applied. *)
Definition range_applied (e : thermo_event) (t : thermometer) : bool :=
  match e with
  | ev_valid_range status pdu len =>
    match valid_range_desc_cb status pdu len t with
    | Next _ => true
    | _ => false
    end
  | _ => false
  end.

(** One step of a thermometer to which no valid range is applied. *)
Definition no_range_step (ta : thermometer_adapter) (e : thermo_event)
    (t : thermometer) : option thermometer :=
  if pending e t && negb (range_applied e t)
  then state_after (fire ta e t) t
  else None.

Fixpoint no_range_steps (l : list (thermometer_adapter * thermo_event))
    (t : thermometer) : option thermometer :=
  match l with
  | [] => Some t
  | (ta, e) :: l' =>
    match no_range_step ta e t with
    | Some t' => no_range_steps l' t'
    | None => None
    end
  end.

(** The thermometers that exist without a valid range ever applied. *)
Definition no_range_run (t : thermometer) : Prop :=
  exists device tattr_range attio l,
    no_range_steps l (new_thermometer device tattr_range attio) = Some t.

End Thermometer.

(** ** Notions the properties are stated with *)

(** The PDU a handler gets: [len] is the number of bytes of [pdu], and it
    fits the uint16_t it is passed in. *)
Definition pdu_of_len (pdu : list byte) (len : Z) : Prop :=
  len = Z.of_nat (List.length pdu) /\ len <= 65535.

(** A payload is truncated: after the 3-byte header, less than the flags,
    the value field, a flagged time stamp or a flagged type is left. *)
Definition truncated (pdu : list byte) (len : Z) : bool :=
  let flags := att_get_u8 pdu 3 in
  let ts := negb (Z.land flags TEMP_TIME_STAMP =? 0) in
  let ty := negb (Z.land flags TEMP_TYPE =? 0) in
  (len - 3 <? 1)
  || (len - 4 <? 4)
  || (ts && (len - 8 <? 7))
  || (ty && (len - 8 - (if ts then 7 else 0) <? 1)).

(** Modelled from the spec: the re-encoding of a mantissa / exponent pair
    that the round-trip property of the value field speaks of; no encoder
    exists in thermometer.c. The exponent goes to the high byte, the
    mantissa to the low 24 bits, both in two's complement, and the 32 bits
    are laid out little-endian. *)
Definition encode_float (mant exp : Z) : list byte :=
  let raw := 2 ^ 24 * (exp mod 2 ^ 8) + mant mod 2 ^ 24 in
  [ byte_of raw; byte_of (Z.shiftr raw 8); byte_of (Z.shiftr raw 16);
    byte_of (Z.shiftr raw 24) ].







Definition is_confirmation (e : event) : bool :=
  match e with
  | g_attrib_send _ _ => true
  | _ => false
  end.

Definition is_property_changed (e : event) : bool :=
  match e with
  | emit_property_changed _ _ _ _ => true
  | _ => false
  end.

(** The (endpoint, path) pair is the key of a watcher of the list. *)
Definition registered (l : list watcher) (endpoint path_ : string) : Prop :=
  exists w, In w l /\ srv w = endpoint /\ path w = path_.

(** What the registry keeps true of its two lists. *)
Definition registry_inv (ta : thermometer_adapter) : Prop :=
  NoDup (iwatchers ta) /\ incl (iwatchers ta) (fwatchers ta).

(** The number of watchers of a list goes from [a] to [b]. *)
Definition count_goes (before after : list watcher) (a b : Z) : bool :=
  (g_slist_length before =? a) && (g_slist_length after =? b).

(** What holds of a thermometer to which no valid range was applied: the
    cached range is still the one it was created with, and an interval is
    only there when the Measurement Interval characteristic is. *)
Definition no_range_inv (t : thermometer) : Prop :=
  t_min t = 0 /\ t_max t = 0
  /\ (has_interval t = true ->
      existsb (fun ch => streq (uuid (attr ch)) MEASUREMENT_INTERVAL_UUID)
        (chars t) = true).

(** The fields the invariant speaks of, before and after a callback. *)
Definition same_range_and_chars (t t' : thermometer) : Prop :=
  t_min t' = t_min t /\ t_max t' = t_max t /\ chars t' = chars t.

(** ** An instance to run the model on

    The ATT codec the way a response is laid out on the wire (an opcode,
    then the value or the list), and the calendar conversion in UTC for
    fields that are in range (mktime of the C library also normalises
    fields out of range and works in local time). Only the computations
    on the sample data use this instance; every property holds for any
    [Externals]. *)

Definition ATT_OP_READ_RESP : Z := 0x0B.
Definition ATT_OP_WRITE_RESP : Z := 0x13.
Definition ATT_OP_FIND_INFO_RESP : Z := 0x05.

Definition days_from_civil (y m d : Z) : Z :=
  let y := if m <=? 2 then y - 1 else y in
  let era := y / 400 in
  let yoe := y - era * 400 in
  let doy := (153 * (if 2 <? m then m - 3 else m + 9) + 2) / 5 + d - 1 in
  let doe := yoe * 365 + yoe / 4 - yoe / 100 + doy in
  era * 146097 + doe - 719468.

Fixpoint chunks (n : nat) (fuel : nat) (l : list byte) : list (list byte) :=
  match fuel, l with
  | O, _ | _, [] => []
  | S fuel', _ => firstn n l :: chunks n fuel' (skipn n l)
  end.

Definition wire_externals : Externals :=
  {| mktime := fun ts =>
       86400 * days_from_civil (tm_year ts + 1900) (tm_mon ts + 1) (tm_mday ts)
       + 3600 * tm_hour ts + 60 * tm_min ts + tm_sec ts;
     dec_read_resp := fun pdu len vlen =>
       if negb (att_get_u8 pdu 0 =? ATT_OP_READ_RESP) then (-22, [])
       else if vlen <? len - 1 then (-105, [])
       else (len - 1, skipn 1 pdu);
     dec_write_resp := fun pdu len =>
       (len =? 1) && (att_get_u8 pdu 0 =? ATT_OP_WRITE_RESP);
     dec_find_info_resp := fun pdu len =>
       if (len <? 6) || negb (att_get_u8 pdu 0 =? ATT_OP_FIND_INFO_RESP)
       then None
       else
         let format := att_get_u8 pdu 1 in
         let n := if format =? ATT_FIND_INFO_RESP_FMT_16BIT then 4%nat else 18%nat in
         Some (format, chunks n (List.length pdu) (skipn 2 pdu));
     enc_confirmation := fun plen => if plen <? 1 then 0 else 1 |}.

(** ** Sample data *)

Definition sample_attrib : GAttrib := {| ga_id := 1; ga_buflen := 23 |}.

Definition sample_ccc (h : Z) : descriptor :=
  {| desc_handle := h; desc_uuid := BT_UUID16 GATT_CLIENT_CHARAC_CFG_UUID |}.

Definition sample_measurement_gatt_char : gatt_char :=
  {| uuid := TEMPERATURE_MEASUREMENT_UUID; handle := 0x11; properties := 0x20;
     value_handle := 0x12 |}.

Definition sample_interval_gatt_char : gatt_char :=
  {| uuid := MEASUREMENT_INTERVAL_UUID; handle := 0x14; properties := 0x2A;
     value_handle := 0x15 |}.

Definition sample_measurement_char : characteristic :=
  {| attr := sample_measurement_gatt_char; desc := [sample_ccc 0x13] |}.

Definition sample_interval_char : characteristic :=
  {| attr := sample_interval_gatt_char;
     desc := [ sample_ccc 0x16;
               {| desc_handle := 0x17;
                  desc_uuid := BT_UUID16 GATT_CHARAC_VALID_RANGE_UUID |} ] |}.

Definition sample_new : thermometer :=
  new_thermometer "/org/bluez/hci0/dev_00_11_22_33_44_55"
    {| range_start := 0x10; range_end := 0x20 |} 1.

(** Connected, with the Temperature Measurement and Measurement Interval
    characteristics and their descriptors discovered; the device has no
    Intermediate Temperature characteristic. *)
Definition sample_thermometer : thermometer :=
  set_chars (set_connection sample_new (Some sample_attrib) 2 3)
    [sample_measurement_char; sample_interval_char].

Definition sample_watcher : watcher :=
  {| w_id := 1; srv := ":1.42"; path := "/test/watcher" |}.

Definition sample_msg : DBusMessage :=
  {| sender := ":1.42"; args := [DBUS_TYPE_OBJECT_PATH "/test/watcher"] |}.

Definition sample_adapter : thermometer_adapter :=
  {| adapter := 0; devices := [sample_thermometer];
     fwatchers := [sample_watcher]; iwatchers := [] |}.

(** An indication of the Temperature Measurement value (handle 0x12):
    flags 0x00, value bytes 6c 01 00 ff, that is mantissa 364 and
    exponent -1. *)
Definition sample_indication : list byte :=
  [x1d; x12; x00; x00; x6c; x01; x00; xff].

(** The same with a negative mantissa: value bytes ff ff ff 02, that is
    mantissa -1 and exponent 2. *)
Definition sample_indication_neg : list byte :=
  [x1d; x12; x00; x00; xff; xff; xff; x02].

(** A thermometer whose interval was read and which was then disconnected:
    connection, discovery of the two characteristics, the response to the
    read of the interval (30), disconnection. *)
Definition sample_history : list (thermometer_adapter * thermo_event) :=
  [ (sample_adapter, ev_connected sample_attrib 2 3);
    (sample_adapter,
     ev_characteristics [sample_measurement_gatt_char; sample_interval_gatt_char] 0);
    (sample_adapter, ev_interval_read 0 [x0b; x1e; x00] 3);
    (sample_adapter, ev_disconnected) ].

(** ** The rest of the plugin *)

(** get_properties: the entries of the dictionary of the reply, in the
    order they are appended. *)
Definition get_properties (t : thermometer) : list (string * dbus_arg) :=
  ("Intermediate", DBUS_TYPE_BOOLEAN (negb (intermediate t =? 0)))
  :: (if has_interval t then
        [ ("Interval", DBUS_TYPE_UINT16 (interval t));
          ("Maximum", DBUS_TYPE_UINT16 (t_max t));
          ("Minimum", DBUS_TYPE_UINT16 (t_min t)) ]
      else []).

(** The value a dictionary gives for a key (the first entry of that
    name), as the receiver of the reply reads it. *)
Fixpoint dict_get (name : string) (d : list (string * dbus_arg))
    : option dbus_arg :=
  match d with
  | [] => None
  | (k, v) :: d' => if streq k name then Some v else dict_get name d'
  end.

(** cmp_adapter and cmp_device compare the pointer held with the one
    looked for: 0 when they are the same, -1 otherwise. An adapter is its
    number here, a device its object path. *)
Definition cmp_adapter (ta : thermometer_adapter) (a : nat) : Z :=
  if Nat.eqb a (adapter ta) then 0 else -1.

Definition cmp_device (t : thermometer) (device : string) : Z :=
  if streq device (dev t) then 0 else -1.

(** g_slist_remove of the element a g_slist_find_custom just found: the
    first element the comparison accepts goes. *)
Fixpoint remove_found {A : Type} (f : A -> bool) (l : list A) : list A :=
  match l with
  | [] => []
  | x :: l' => if f x then l' else x :: remove_found f l'
  end.

(** find_thermometer_adapter over the list thermometer_adapters. *)
Definition find_thermometer_adapter
    (thermometer_adapters : list thermometer_adapter) (a : nat)
    : option thermometer_adapter :=
  find (fun ta => cmp_adapter ta a =? 0) thermometer_adapters.

(** thermometer_unregister on the adapter found for the device: the
    adapter afterwards, and the thermometer whose interface is
    unregistered, if there is one. *)
Definition thermometer_unregister (device : string)
    (tadapter : option thermometer_adapter)
    : option thermometer_adapter * option thermometer :=
  match tadapter with
  | None => (None, None)
  | Some ta =>
    match find (fun t => cmp_device t device =? 0) (devices ta) with
    | None => (Some ta, None)
    | Some t =>
      (Some (set_devices ta
               (remove_found (fun t => cmp_device t device =? 0) (devices ta))),
       Some t)
    end
  end.

(** thermometer_adapter_register; [registered] is what
    g_dbus_register_interface answered. The list thermometer_adapters
    afterwards and the value returned. *)
Definition thermometer_adapter_register (a : nat) (registered : bool)
    (thermometer_adapters : list thermometer_adapter)
    : list thermometer_adapter * Z :=
  let tadapter := new_thermometer_adapter a in
  if negb registered then (thermometer_adapters, - EIO)
  else (tadapter :: thermometer_adapters, 0).

Definition thermometer_adapter_unregister (a : nat)
    (thermometer_adapters : list thermometer_adapter)
    : list thermometer_adapter :=
  match find_thermometer_adapter thermometer_adapters a with
  | None => thermometer_adapters
  | Some _ =>
    remove_found (fun ta => cmp_adapter ta a =? 0) thermometer_adapters
  end.

Section Histories.

Context {ext : Externals}.

(** The measurement proc_measurement builds from a payload that is not
    cut short, each field read at the place the code reads it: flags at
    3, value at 4, the time stamp at 8 when flagged, the type after it. *)
Definition decoded_measurement (t : thermometer) (pdu : list byte)
    (final : bool) : measurement :=
  let flags := att_get_u8 pdu 3 in
  let ts := negb (Z.land flags TEMP_TIME_STAMP =? 0) in
  {| m_exp := snd (measurement_value (att_get_u32 pdu 4));
     m_mant := fst (measurement_value (att_get_u32 pdu 4));
     m_time :=
       if ts then
         u64 (mktime {| tm_year := att_get_u16 pdu 8 - 1900;
                        tm_mon := att_get_u8 pdu 10 - 1;
                        tm_mday := att_get_u8 pdu 11;
                        tm_hour := att_get_u8 pdu 12;
                        tm_min := att_get_u8 pdu 13;
                        tm_sec := att_get_u8 pdu 14;
                        tm_isdst := -1 |})
       else 0;
     m_suptime := ts;
     m_unit := if Z.land flags TEMP_UNITS =? 0 then "celsius" else "fahrenheit";
     m_type :=
       if Z.land flags TEMP_TYPE =? 0 then
         if has_type t then temptype2str (t_type t) else None
       else temptype2str (att_get_u8 pdu (if ts then 15 else 8));
     m_value := if final then "final" else "intermediate" |}.

(** One step of a thermometer, and a history of steps, whatever the
    events are. *)
Definition thermo_step (ta : thermometer_adapter) (e : thermo_event)
    (t : thermometer) : option thermometer :=
  if pending e t then state_after (fire ta e t) t else None.

Fixpoint thermo_steps (l : list (thermometer_adapter * thermo_event))
    (t : thermometer) : option thermometer :=
  match l with
  | [] => Some t
  | (ta, e) :: l' =>
    match thermo_step ta e t with
    | Some t' => thermo_steps l' t'
    | None => None
    end
  end.

(** The thermometers that exist: what thermometer_register creates, after
    any history. *)
Definition thermo_run (t : thermometer) : Prop :=
  exists device tattr_range attio l,
    thermo_steps l (new_thermometer device tattr_range attio) = Some t.

End Histories.

(** The cached range is the one a thermometer is created with, or a
    valid one. *)
Definition range_ok (t : thermometer) : Prop :=
  (t_min t = 0 /\ t_max t = 0)
  \/ (1 <= t_min t /\ t_min t <= t_max t /\ t_max t <= 65535).

Definition has_uuid (u : string) (l : list characteristic) : bool :=
  existsb (fun ch => streq (uuid (attr ch)) u) l.

(** What holds of every thermometer that exists. *)
Definition thermo_inv (t : thermometer) : Prop :=
  range_ok t
  /\ (has_interval t = true -> has_uuid MEASUREMENT_INTERVAL_UUID (chars t) = true)
  /\ (intermediate t = 0
      \/ (intermediate t = 1
          /\ has_uuid INTERMEDIATE_TEMPERATURE_UUID (chars t) = true))
  /\ (attrib t = None -> attindid t = 0 /\ attnotid t = 0).

(** Nothing that was learnt about the device is lost from [t] to [t']:
    the flags stay set, every characteristic stays where it is with its
    attribute, and its descriptors are only added to. *)
Definition keeps (t t' : thermometer) : Prop :=
  dev t' = dev t
  /\ svc_range t' = svc_range t
  /\ (has_interval t = true -> has_interval t' = true)
  /\ (has_type t = true -> has_type t' = true)
  /\ (forall i ch,
        nth_error (chars t) i = Some ch ->
        exists added,
          nth_error (chars t') i
          = Some {| attr := attr ch; desc := desc ch ++ added |}).

(** The ways a callback changes a thermometer: not at all, or in the
    connection, the interval, the type, the range, the descriptors of one
    characteristic, or by the characteristics of a discovery (with the
    Intermediate flag raised when one of them is the Intermediate
    Temperature characteristic). *)
Definition new_characteristic (c : gatt_char) : characteristic :=
  {| attr := c; desc := [] |}.

Inductive changes (t : thermometer) : thermometer -> Prop :=
| changes_nothing : changes t t
| changes_connected a ind notif :
    changes t (set_connection t (Some a) ind notif)
| changes_disconnected : changes t (set_connection t None 0 0)
| changes_interval v :
    has_uuid MEASUREMENT_INTERVAL_UUID (chars t) = true ->
    changes t (set_interval t v)
| changes_type v : changes t (set_type t v)
| changes_range min max :
    1 <= min -> min <= max -> max <= 65535 ->
    changes t (set_min (set_max t max) min)
| changes_descriptors i ch added :
    nth_error (chars t) i = Some ch ->
    changes t (set_chars t (replace_nth i (chars t) (append_desc ch added)))
| changes_characteristics (l : list gatt_char) :
    changes t
      (set_chars
         (set_intermediate t
            (if has_uuid INTERMEDIATE_TEMPERATURE_UUID (map new_characteristic l)
             then 1 else intermediate t))
         (chars t ++ map new_characteristic l)).

(** No two watchers of the list have the same (srv, path). *)
Definition unique_keys (l : list watcher) : Prop :=
  NoDup (map (fun w => (srv w, path w)) l).

Definition keys_inv (ta : thermometer_adapter) : Prop :=
  unique_keys (fwatchers ta) /\ unique_keys (iwatchers ta).

(** An adapter with two final watchers, the second one also an
    intermediate watcher. *)
Definition sample_watcher2 : watcher :=
  {| w_id := 2; srv := ":1.43"; path := "/test/other" |}.

Definition sample_adapter2 : thermometer_adapter :=
  {| adapter := 0; devices := [sample_thermometer];
     fwatchers := [sample_watcher; sample_watcher2];
     iwatchers := [sample_watcher2] |}.

(** An indication of the Measurement Interval value (handle 0x15): 30. *)
Definition sample_interval_indication : list byte := [x1d; x15; x00; x1e; x00].

(** A measurement in fahrenheit with a time stamp (2012-01-01 00:00:00)
    and the type 2 (body). *)
Definition sample_full_indication : list byte :=
  [x1d; x12; x00; x07; x6c; x01; x00; xff;
   xdc; x07; x01; x01; x00; x00; x00; x02].



(** The sample thermometer with the interval 7 established and the valid
    range 5 to 10 applied. *)
Definition sample_ranged : thermometer :=
  set_min (set_max (set_interval sample_thermometer 7) 10) 5.




(** SetProperty (Interval, 8). *)
Definition sample_set_interval : DBusMessage :=
  {| sender := ":1.42";
     args := [DBUS_TYPE_STRING "Interval";
              DBUS_TYPE_VARIANT (DBUS_TYPE_UINT16 8)] |}.

(** * Properties *)

(** ** Bytes and the value field *)

Lemma byte_val_range (b : byte) : 0 <= byte_val b < 256.
Proof.
  unfold byte_val. pose proof (Byte.to_N_bounded b). lia.
Qed.

Lemma byte_of_val (b : byte) : byte_of (byte_val b) = b.
Proof.
  unfold byte_of, byte_val.
  pose proof (Byte.to_N_bounded b).
  rewrite Z.mod_small by lia.
  rewrite N2Z.id, Byte.of_to_N. reflexivity.
Qed.

Lemma byte_val_of (z : Z) : byte_val (byte_of z) = z mod 256.
Proof.
  unfold byte_of, byte_val.
  pose proof (Z.mod_pos_bound z 256 ltac:(lia)).
  destruct (Byte.of_N (Z.to_N (z mod 256))) eqn:E.
  - apply Byte.to_of_N in E. rewrite E. lia.
  - apply Byte.of_N_None_iff in E. lia.
Qed.

Lemma land_pow2 (x n : Z) :
  0 <= n -> Z.land x (2 ^ n) = if Z.testbit x n then 2 ^ n else 0.
Proof.
  intros Hn. apply Z.bits_inj'. intros m Hm.
  rewrite Z.land_spec, Z.pow2_bits_eqb by lia.
  destruct (Z.eqb_spec n m) as [->|Hne].
  - destruct (Z.testbit x m); simpl.
    + rewrite Z.pow2_bits_eqb by lia. now rewrite Z.eqb_refl.
    + now rewrite Z.bits_0.
  - rewrite andb_false_r. destruct (Z.testbit x n).
    + rewrite Z.pow2_bits_eqb by lia. symmetry. now apply Z.eqb_neq.
    + now rewrite Z.bits_0.
Qed.

Lemma testbit_ge (x n : Z) :
  0 <= n -> 0 <= x < 2 ^ (n + 1) -> Z.testbit x n = (2 ^ n <=? x).
Proof.
  intros Hn Hx.
  replace (n + 1) with (Z.succ n) in Hx by lia.
  rewrite Z.pow_succ_r in Hx by lia.
  pose proof (Z.pow_pos_nonneg 2 n ltac:(lia) Hn) as Hp.
  destruct (Z.leb_spec (2 ^ n) x) as [H|H].
  - apply Z.testbit_true; [lia|].
    assert (x / 2 ^ n = 1) as ->; [|reflexivity].
    symmetry. apply Z.div_unique with (r := x - 2 ^ n); lia.
  - apply Z.testbit_false; [lia|].
    rewrite Z.div_small by lia. reflexivity.
Qed.

Lemma measurement_value_spec (raw : Z) :
  0 <= raw < 2 ^ 32 ->
  measurement_value raw =
    (raw mod 2 ^ 24 - (if Z.testbit raw 23 then 2 ^ 24 else 0),
     raw / 2 ^ 24 - (if Z.testbit raw 31 then 2 ^ 8 else 0)).
Proof.
  intros Hraw. unfold measurement_value, FLOAT_MAX_MANTISSA.
  change 0x00FFFFFF with (Z.ones 24). rewrite Z.land_ones by lia.
  change 0x00800000 with (2 ^ 23). 
  pose proof (Z.mod_pos_bound raw (2 ^ 24) ltac:(lia)) as Hm.
  assert (Hs : s32 (raw mod 2 ^ 24) = raw mod 2 ^ 24).
  { unfold s32. rewrite Z.mod_small; lia. }
  rewrite Hs, land_pow2 by lia.
  rewrite Z.mod_pow2_bits_low by lia.
  rewrite (testbit_ge raw 31) by (simpl; lia).
  rewrite Z.shiftr_div_pow2 by lia.
  assert (Hb : Z.testbit raw 23 = (2 ^ 23 <=? raw mod 2 ^ 24)).
  { rewrite <- (Z.mod_pow2_bits_low raw 24 23) by lia.
    apply testbit_ge; simpl; lia. }
  rewrite Hb.
  f_equal.
  - destruct (Z.leb_spec (2 ^ 23) (raw mod 2 ^ 24)).
    + change (2 ^ 23 =? 0) with false. cbv iota.
      unfold s32. rewrite Z.mod_small; lia.
    + rewrite Z.eqb_refl. lia.
  - unfold s32, s16. destruct (Z.leb_spec (2 ^ 31) raw).
    + replace ((raw + 2 ^ 31) mod 2 ^ 32) with (raw - 2 ^ 31).
      2:{ apply Z.mod_unique with (q := 1); lia. }
      replace (raw - 2 ^ 31 - 2 ^ 31) with (raw + (-2 ^ 8) * 2 ^ 24) by lia.
      rewrite Z.div_add by lia.
      assert (2 ^ 7 <= raw / 2 ^ 24 < 2 ^ 8).
      { split. apply Z.div_le_lower_bound; lia. apply Z.div_lt_upper_bound; lia. }
      rewrite Z.mod_small; lia.
    + rewrite (Z.mod_small (raw + 2 ^ 31)) by lia.
      replace (raw + 2 ^ 31 - 2 ^ 31) with raw by lia.
      assert (0 <= raw / 2 ^ 24 < 2 ^ 7).
      { split. apply Z.div_pos; lia. apply Z.div_lt_upper_bound; lia. }
      rewrite Z.mod_small; lia.
Qed.


Lemma measurement_value_arith (raw : Z) :
  0 <= raw < 2 ^ 32 ->
  measurement_value raw =
    (raw mod 2 ^ 24 - (if 2 ^ 23 <=? raw mod 2 ^ 24 then 2 ^ 24 else 0),
     raw / 2 ^ 24 - (if 2 ^ 7 <=? raw / 2 ^ 24 then 2 ^ 8 else 0)).
Proof.
  intros Hraw. rewrite measurement_value_spec by assumption.
  pose proof (Z.mod_pos_bound raw (2 ^ 24) ltac:(lia)) as Hm.
  rewrite <- (Z.mod_pow2_bits_low raw 24 23) by lia.
  rewrite (testbit_ge (raw mod 2 ^ 24) 23) by (simpl; lia).
  rewrite (testbit_ge raw 31) by (simpl; lia).
  do 2 f_equal.
  destruct (Z.leb_spec (2 ^ 31) raw), (Z.leb_spec (2 ^ 7) (raw / 2 ^ 24));
    try reflexivity; exfalso.
  - assert (2 ^ 7 <= raw / 2 ^ 24) by (apply Z.div_le_lower_bound; lia). lia.
  - assert (raw / 2 ^ 24 < 2 ^ 7) by (apply Z.div_lt_upper_bound; lia). lia.
Qed.

Lemma le32_split (a0 a1 a2 a3 : Z) :
  0 <= a0 < 256 -> 0 <= a1 < 256 -> 0 <= a2 < 256 -> 0 <= a3 < 256 ->
  let raw := a0 + 2 ^ 8 * a1 + 2 ^ 16 * a2 + 2 ^ 24 * a3 in
  0 <= raw < 2 ^ 32
  /\ raw mod 256 = a0
  /\ (raw / 2 ^ 8) mod 256 = a1
  /\ (raw / 2 ^ 16) mod 256 = a2
  /\ (raw / 2 ^ 24) mod 256 = a3
  /\ raw / 2 ^ 24 = a3
  /\ raw mod 2 ^ 24 = a0 + 2 ^ 8 * a1 + 2 ^ 16 * a2.
Proof.
  intros H0 H1 H2 H3 raw. subst raw.
  assert (E8 : (a0 + 2 ^ 8 * a1 + 2 ^ 16 * a2 + 2 ^ 24 * a3) / 2 ^ 8
               = a1 + 2 ^ 8 * a2 + 2 ^ 16 * a3).
  { symmetry. apply Z.div_unique with (r := a0); lia. }
  assert (E16 : (a0 + 2 ^ 8 * a1 + 2 ^ 16 * a2 + 2 ^ 24 * a3) / 2 ^ 16
               = a2 + 2 ^ 8 * a3).
  { symmetry. apply Z.div_unique with (r := a0 + 2 ^ 8 * a1); lia. }
  assert (E24 : (a0 + 2 ^ 8 * a1 + 2 ^ 16 * a2 + 2 ^ 24 * a3) / 2 ^ 24 = a3).
  { symmetry. apply Z.div_unique with (r := a0 + 2 ^ 8 * a1 + 2 ^ 16 * a2); lia. }
  rewrite E8, E16, E24.
  repeat split; try lia.
  - symmetry. apply Z.mod_unique with (q := a1 + 2 ^ 8 * a2 + 2 ^ 16 * a3); lia.
  - symmetry. apply Z.mod_unique with (q := a2 + 2 ^ 8 * a3); lia.
  - symmetry. apply Z.mod_unique with (q := a3); lia.
  - apply Z.mod_small; lia.
  - symmetry. apply Z.mod_unique with (q := a3); lia.
Qed.

Lemma byte_of_mod (z : Z) : byte_of (z mod 256) = byte_of z.
Proof.
  unfold byte_of. rewrite Z.mod_mod by lia. reflexivity.
Qed.

Lemma byte_of_eq (z : Z) (b : byte) : z mod 256 = byte_val b -> byte_of z = b.
Proof.
  intros H. rewrite <- byte_of_mod, H. apply byte_of_val.
Qed.

(** The pair re-encodes to the four bytes it was read from. *)
Lemma encode_measurement_value (buf : list byte) (p : nat) :
  let '(mant, exp) := measurement_value (att_get_u32 buf p) in
  encode_float mant exp =
    [nth p buf x00; nth (p + 1) buf x00; nth (p + 2) buf x00; nth (p + 3) buf x00].
Proof.
  unfold att_get_u32, att_get_u8.
  pose proof (byte_val_range (nth p buf x00)) as H0.
  pose proof (byte_val_range (nth (p + 1) buf x00)) as H1.
  pose proof (byte_val_range (nth (p + 2) buf x00)) as H2.
  pose proof (byte_val_range (nth (p + 3) buf x00)) as H3.
  destruct (le32_split _ _ _ _ H0 H1 H2 H3) as (Hr & E0 & E1 & E2 & E3 & E24 & Em).
  set (raw := _ + _ + _ + _) in *.
  rewrite (measurement_value_arith raw Hr).
  unfold encode_float.
  assert (Eraw : 2 ^ 24 * ((raw / 2 ^ 24 - (if 2 ^ 7 <=? raw / 2 ^ 24 then 2 ^ 8 else 0)) mod 2 ^ 8)
          + (raw mod 2 ^ 24 - (if 2 ^ 23 <=? raw mod 2 ^ 24 then 2 ^ 24 else 0)) mod 2 ^ 24
          = raw).
  { pose proof (Z.mod_pos_bound raw (2 ^ 24) ltac:(lia)) as Hm.
    assert (Hq : 0 <= raw / 2 ^ 24 < 2 ^ 8) by (rewrite E24; lia).
    assert ((raw / 2 ^ 24 - (if 2 ^ 7 <=? raw / 2 ^ 24 then 2 ^ 8 else 0)) mod 2 ^ 8
            = raw / 2 ^ 24) as ->.
    { destruct (2 ^ 7 <=? raw / 2 ^ 24).
      - symmetry. apply Z.mod_unique with (q := -1); lia.
      - rewrite Z.sub_0_r. apply Z.mod_small; lia. }
    assert ((raw mod 2 ^ 24 - (if 2 ^ 23 <=? raw mod 2 ^ 24 then 2 ^ 24 else 0)) mod 2 ^ 24
            = raw mod 2 ^ 24) as ->.
    { destruct (2 ^ 23 <=? raw mod 2 ^ 24).
      - symmetry. apply Z.mod_unique with (q := -1); lia.
      - rewrite Z.sub_0_r. apply Z.mod_small; lia. }
    pose proof (Z.div_mod raw (2 ^ 24) ltac:(lia)). lia. }
  rewrite Eraw.
  rewrite !Z.shiftr_div_pow2 by lia.
  repeat f_equal; apply byte_of_eq; assumption.
Qed.

(** A pair in range is read back from its encoding. *)
Lemma measurement_value_encode (mant exp : Z) :
  - 2 ^ 23 <= mant < 2 ^ 23 -> - 2 ^ 7 <= exp < 2 ^ 7 ->
  measurement_value (att_get_u32 (encode_float mant exp) 0) = (mant, exp).
Proof.
  intros Hm He. unfold encode_float.
  set (raw := 2 ^ 24 * (exp mod 2 ^ 8) + mant mod 2 ^ 24).
  pose proof (Z.mod_pos_bound exp (2 ^ 8) ltac:(lia)) as He'.
  pose proof (Z.mod_pos_bound mant (2 ^ 24) ltac:(lia)) as Hm'.
  assert (Hr : 0 <= raw < 2 ^ 32) by (subst raw; lia).
  assert (E24 : raw / 2 ^ 24 = exp mod 2 ^ 8).
  { symmetry. apply Z.div_unique with (r := mant mod 2 ^ 24); subst raw; lia. }
  assert (Em : raw mod 2 ^ 24 = mant mod 2 ^ 24).
  { symmetry. apply Z.mod_unique with (q := exp mod 2 ^ 8); subst raw; lia. }
  assert (Eget : att_get_u32
            [byte_of raw; byte_of (Z.shiftr raw 8); byte_of (Z.shiftr raw 16);
             byte_of (Z.shiftr raw 24)] 0 = raw).
  { unfold att_get_u32, att_get_u8. cbn [nth Nat.add].
    rewrite !byte_val_of, !Z.shiftr_div_pow2 by lia.
    clear - Hr. 
    pose proof (Z.div_mod raw 256 ltac:(lia)).
    pose proof (Z.mod_pos_bound raw 256 ltac:(lia)).
    pose proof (Z.div_mod (raw / 2 ^ 8) 256 ltac:(lia)).
    pose proof (Z.mod_pos_bound (raw / 2 ^ 8) 256 ltac:(lia)).
    pose proof (Z.div_mod (raw / 2 ^ 16) 256 ltac:(lia)).
    pose proof (Z.mod_pos_bound (raw / 2 ^ 16) 256 ltac:(lia)).
    assert ((raw / 2 ^ 8) / 256 = raw / 2 ^ 16) by (rewrite Z.div_div by lia; reflexivity).
    assert ((raw / 2 ^ 16) / 256 = raw / 2 ^ 24) by (rewrite Z.div_div by lia; reflexivity).
    assert (0 <= raw / 2 ^ 24 < 256).
    { split. apply Z.div_pos; lia. apply Z.div_lt_upper_bound; lia. }
    rewrite (Z.mod_small (raw / 2 ^ 24)) by lia.
    change (2 ^ 8) with 256 in *. lia. }
  rewrite Eget, (measurement_value_arith raw Hr), E24, Em.
  assert (Mm : mant mod 2 ^ 24 = if mant <? 0 then mant + 2 ^ 24 else mant).
  { destruct (Z.ltb_spec mant 0).
    - symmetry. apply Z.mod_unique with (q := -1); lia.
    - apply Z.mod_small; lia. }
  assert (Me : exp mod 2 ^ 8 = if exp <? 0 then exp + 2 ^ 8 else exp).
  { destruct (Z.ltb_spec exp 0).
    - symmetry. apply Z.mod_unique with (q := -1); lia.
    - apply Z.mod_small; lia. }
  rewrite Mm, Me.
  destruct (Z.ltb_spec mant 0), (Z.ltb_spec exp 0);
    repeat match goal with
           | |- context [?a <=? ?b] => destruct (Z.leb_spec a b)
           end; f_equal; lia.
Qed.

Section Decoder.

Context {ext : Externals}.

Lemma u16_small (x : Z) : 0 <= x <= 65535 -> u16 x = x.
Proof. intros H. unfold u16. apply Z.mod_small. lia. Qed.

Lemma access_ok (pdu : list byte) (len : Z) (p n : nat) :
  pdu_of_len pdu len -> Z.of_nat p + Z.of_nat n <= len ->
  access pdu p n = Next tt.
Proof.
  intros [Hlen _] H. unfold access.
  destruct (Nat.leb_spec (p + n) (List.length pdu)); [reflexivity | lia].
Qed.

Lemma proc_measurement_spec ta t pdu len final :
  pdu_of_len pdu len -> 3 <= len ->
  let flags := att_get_u8 pdu 3 in
  let ts := negb (Z.land flags TEMP_TIME_STAMP =? 0) in
  let ty := negb (Z.land flags TEMP_TYPE =? 0) in
  if len - 3 <? 1 then
    proc_measurement ta t pdu len final = Return "Mandatory flags are not provided"
  else if len - 4 <? 4 then
    proc_measurement ta t pdu len final =
      Return "Mandatory temperature measurement value is not provided"
  else if ts && (len - 8 <? 7) then
    proc_measurement ta t pdu len final = Return "Time stamp is not provided"
  else if ty && (len - 8 - (if ts then 7 else 0) <? 1) then
    proc_measurement ta t pdu len final = Return "Temperature type is not provided"
  else
    exists m,
      proc_measurement ta t pdu len final = Next (m, recv_measurement ta t m)
      /\ (m_mant m, m_exp m) = measurement_value (att_get_u32 pdu 4)
      /\ m_suptime m = ts
      /\ m_value m = (if final then "final" else "intermediate")%string.
Proof.
  intros Hp H3 flags ts ty.
  pose proof Hp as [Hlen Hmax].
  unfold proc_measurement, return_if.
  rewrite (u16_small (len - 3)) by lia.
  destruct (Z.ltb_spec (len - 3) 1) as [|H4]; [reflexivity|].
  rewrite (access_ok pdu len 3 1 Hp) by lia. cbn [bind].
  rewrite (u16_small (len - 3 - 1)) by lia.
  replace (len - 3 - 1 <? 4) with (len - 4 <? 4) by (f_equal; lia).
  destruct (Z.ltb_spec (len - 4) 4) as [|H8]; [reflexivity|].
  rewrite (access_ok pdu len 4 4 Hp) by lia. cbn [bind].
  destruct (measurement_value (att_get_u32 pdu 4)) as [mant exp] eqn:Emv.
  rewrite (u16_small (len - 3 - 1 - 4)) by lia.
  replace (len - 3 - 1 - 4) with (len - 8) by lia.
  fold flags. change (4 + 4)%nat with 8%nat.
  subst ts ty.
  destruct (Z.land flags TEMP_TIME_STAMP =? 0) eqn:Ets; cbn [negb andb bind].
  - destruct (Z.land flags TEMP_TYPE =? 0) eqn:Ety; cbn [negb andb bind].
    + eexists. split; [reflexivity|]. cbn. auto.
    + replace (len - 8 - 0) with (len - 8) by lia.
      destruct (Z.ltb_spec (len - 8) 1); [reflexivity|].
      rewrite (access_ok pdu len 8 1 Hp) by lia. cbn [bind].
      eexists. split; [reflexivity|]. cbn. auto.
  - destruct (Z.ltb_spec (len - 8) 7); [reflexivity|].
    rewrite (access_ok pdu len 8 7 Hp) by lia. cbn [bind].
    rewrite (u16_small (len - 8 - 7)) by lia.
    destruct (Z.land flags TEMP_TYPE =? 0) eqn:Ety; cbn [negb andb bind].
    + eexists. split; [reflexivity|]. cbn. auto.
    + destruct (Z.ltb_spec (len - 8 - 7) 1); [reflexivity|].
      rewrite (access_ok pdu len (8 + 7) 1 Hp) by lia. cbn [bind].
      eexists. split; [reflexivity|]. cbn. auto.
Qed.

Lemma shiftr_s32_24 (raw : Z) :
  0 <= raw < 2 ^ 32 ->
  Z.shiftr (s32 raw) 24 =
    raw / 2 ^ 24 - (if 2 ^ 7 <=? raw / 2 ^ 24 then 2 ^ 8 else 0).
Proof.
  intros Hraw. rewrite Z.shiftr_div_pow2 by lia. unfold s32.
  assert (Hq : 0 <= raw / 2 ^ 24 < 2 ^ 8).
  { split; [apply Z.div_pos | apply Z.div_lt_upper_bound]; lia. }
  destruct (Z.leb_spec (2 ^ 7) (raw / 2 ^ 24)) as [Hhi|Hlo].
  - assert (2 ^ 31 <= raw).
    { pose proof (Z.mul_div_le raw (2 ^ 24) ltac:(lia)). lia. }
    replace ((raw + 2 ^ 31) mod 2 ^ 32) with (raw - 2 ^ 31)
      by (apply Z.mod_unique with (q := 1); lia).
    replace (raw - 2 ^ 31 - 2 ^ 31) with (raw + (- 2 ^ 8) * 2 ^ 24) by lia.
    rewrite Z.div_add by lia. lia.
  - assert (raw < 2 ^ 31).
    { pose proof (Z.div_mod raw (2 ^ 24) ltac:(lia)).
      pose proof (Z.mod_pos_bound raw (2 ^ 24) ltac:(lia)). lia. }
    rewrite Z.mod_small by lia.
    replace (raw + 2 ^ 31 - 2 ^ 31) with raw by lia. lia.
Qed.

Lemma att_get_u32_range (buf : list byte) (p : nat) :
  0 <= att_get_u32 buf p < 2 ^ 32.
Proof.
  unfold att_get_u32, att_get_u8.
  pose proof (byte_val_range (nth p buf x00)).
  pose proof (byte_val_range (nth (p + 1) buf x00)).
  pose proof (byte_val_range (nth (p + 2) buf x00)).
  pose proof (byte_val_range (nth (p + 3) buf x00)).
  lia.
Qed.

(** With the 3-byte header in place the decoder reads inside the PDU, and
    it returns early exactly on a truncated payload. *)
Lemma proc_measurement_outcome ta t pdu len final :
  pdu_of_len pdu len -> 3 <= len ->
  (truncated pdu len = true
   /\ exists why, proc_measurement ta t pdu len final = Return why)
  \/ (truncated pdu len = false
      /\ exists m,
           proc_measurement ta t pdu len final = Next (m, recv_measurement ta t m)
           /\ (m_mant m, m_exp m) = measurement_value (att_get_u32 pdu 4)).
Proof.
  intros Hp H3. pose proof (proc_measurement_spec ta t pdu len final Hp H3) as H.
  cbv zeta in H. unfold truncated.
  destruct (len - 3 <? 1); [left; split; eauto|].
  destruct (len - 4 <? 4); [left; split; eauto|].
  cbn [orb].
  destruct (negb (Z.land (att_get_u8 pdu 3) TEMP_TIME_STAMP =? 0) && (len - 8 <? 7));
    [left; split; eauto|].
  cbn [orb].
  destruct (negb (Z.land (att_get_u8 pdu 3) TEMP_TYPE =? 0) && _);
    [left; split; eauto|].
  right. split; [reflexivity|].
  destruct H as (m & Hm & Hv & _). eauto.
Qed.

Lemma proc_measurement_no_fault ta t pdu len final :
  pdu_of_len pdu len -> 3 <= len ->
  proc_measurement ta t pdu len final <> Fault.
Proof.
  intros Hp H3.
  destruct (proc_measurement_outcome ta t pdu len final Hp H3)
    as [[_ [why ->]] | [_ (m & -> & _)]]; discriminate.
Qed.

(** C1. For a payload of at least 8 bytes (header, flags, value field) the
    value field is read as the little-endian 32-bit integer of bytes 4 to 7;
    the mantissa is its low 24 bits less 2^24 when bit 23 is set, a signed
    24-bit integer; the exponent is the arithmetic shift of the 32-bit
    value by 24, that is the high byte sign-extended. The measurement
    handed to the watchers carries this pair whenever the payload is not
    cut short in a flagged optional field. Re-encoding the pair gives back
    the four value bytes, and decoding that encoding gives back the pair. *)
Theorem value_field_decoding ta t pdu len final :
  pdu_of_len pdu len -> 8 <= len ->
  let raw := att_get_u32 pdu 4 in
  let mant := Z.land raw 0x00FFFFFF - (if Z.testbit raw 23 then 2 ^ 24 else 0) in
  let exp := Z.shiftr (s32 raw) 24 in
  raw = byte_val (nth 4 pdu x00) + 2 ^ 8 * byte_val (nth 5 pdu x00)
        + 2 ^ 16 * byte_val (nth 6 pdu x00) + 2 ^ 24 * byte_val (nth 7 pdu x00)
  /\ measurement_value raw = (mant, exp)
  /\ - 2 ^ 23 <= mant < 2 ^ 23
  /\ exp = byte_val (nth 7 pdu x00)
           - (if 2 ^ 7 <=? byte_val (nth 7 pdu x00) then 2 ^ 8 else 0)
  /\ ((exists m,
         proc_measurement ta t pdu len final = Next (m, recv_measurement ta t m)
         /\ m_mant m = mant /\ m_exp m = exp)
      \/ proc_measurement ta t pdu len final = Return "Time stamp is not provided"
      \/ proc_measurement ta t pdu len final
           = Return "Temperature type is not provided")
  /\ (truncated pdu len = false ->
      exists m,
        proc_measurement ta t pdu len final = Next (m, recv_measurement ta t m)
        /\ m_mant m = mant /\ m_exp m = exp)
  /\ encode_float mant exp
     = [nth 4 pdu x00; nth 5 pdu x00; nth 6 pdu x00; nth 7 pdu x00]
  /\ measurement_value (att_get_u32 (encode_float mant exp) 0) = (mant, exp).
Proof.
  intros Hp H8 raw mant exp.
  pose proof (att_get_u32_range pdu 4) as Hraw. fold raw in Hraw.
  pose proof (Z.mod_pos_bound raw (2 ^ 24) ltac:(lia)) as Hmod.
  assert (Emv : measurement_value raw = (mant, exp)).
  { rewrite (measurement_value_arith raw Hraw). subst mant exp.
    change 0x00FFFFFF with (Z.ones 24). rewrite Z.land_ones by lia.
    rewrite shiftr_s32_24 by assumption.
    rewrite <- (Z.mod_pow2_bits_low raw 24 23) by lia.
    rewrite (testbit_ge (raw mod 2 ^ 24) 23) by (simpl; lia).
    reflexivity. }
  assert (Hmant : - 2 ^ 23 <= mant < 2 ^ 23).
  { pose proof (measurement_value_arith raw Hraw) as Ha. rewrite Emv in Ha.
    apply (f_equal fst) in Ha. cbn [fst] in Ha. rewrite Ha.
    destruct (Z.leb_spec (2 ^ 23) (raw mod 2 ^ 24)); lia. }
  assert (Hexp : exp = byte_val (nth 7 pdu x00)
                       - (if 2 ^ 7 <=? byte_val (nth 7 pdu x00) then 2 ^ 8 else 0)).
  { pose proof (byte_val_range (nth 4 pdu x00)) as H0.
    pose proof (byte_val_range (nth 5 pdu x00)) as H1.
    pose proof (byte_val_range (nth 6 pdu x00)) as H2.
    pose proof (byte_val_range (nth 7 pdu x00)) as H3.
    destruct (le32_split _ _ _ _ H0 H1 H2 H3) as (_ & _ & _ & _ & _ & E24 & _).
    subst exp. rewrite shiftr_s32_24 by assumption.
    subst raw. unfold att_get_u32, att_get_u8. cbn [Nat.add].
    rewrite E24. reflexivity. }
  assert (Hdel : forall m,
             (m_mant m, m_exp m) = measurement_value raw ->
             m_mant m = mant /\ m_exp m = exp).
  { intros m Hm. rewrite Emv in Hm. injection Hm as -> ->. auto. }
  split; [reflexivity|]. split; [exact Emv|]. split; [exact Hmant|].
  split; [exact Hexp|]. split; [|split; [|split]].
  - pose proof (proc_measurement_spec ta t pdu len final Hp ltac:(lia)) as H.
    cbv zeta in H.
    destruct (Z.ltb_spec (len - 3) 1); [lia|].
    destruct (Z.ltb_spec (len - 4) 4); [lia|].
    destruct (negb (Z.land (att_get_u8 pdu 3) TEMP_TIME_STAMP =? 0) && (len - 8 <? 7));
      [auto|].
    destruct (negb (Z.land (att_get_u8 pdu 3) TEMP_TYPE =? 0) && _); [auto|].
    destruct H as (m & Hm & Hv & _). left. exists m. split; [exact Hm|].
    apply Hdel, Hv.
  - intros Htr.
    destruct (proc_measurement_outcome ta t pdu len final Hp ltac:(lia))
      as [[Ht _] | [_ (m & Hm & Hv)]]; [congruence|].
    exists m. split; [exact Hm|]. apply Hdel, Hv.
  - pose proof (encode_measurement_value pdu 4) as He.
    fold raw in He. rewrite Emv in He. exact He.
  - apply measurement_value_encode; [exact Hmant|].
    rewrite Hexp. pose proof (byte_val_range (nth 7 pdu x00)).
    destruct (Z.leb_spec (2 ^ 7) (byte_val (nth 7 pdu x00))); lia.
Qed.

(** ** The indication handler *)

(** Both handlers drop a PDU that is shorter than its header before
    anything is read from it. *)
Lemma handlers_drop_short_pdu pdu len ta t :
  len < 3 ->
  ind_handler pdu len ta t = Return "Bad pdu received"
  /\ notif_handler pdu len ta t = Return "Bad pdu received".
Proof.
  intros H. unfold ind_handler, notif_handler, return_if.
  apply Z.ltb_lt in H. rewrite H. split; reflexivity.
Qed.

Lemma recv_measurement_calls ta t m :
  forallb (fun e => negb (is_confirmation e)) (recv_measurement ta t m) = true.
Proof.
  unfold recv_measurement.
  induction (if streq (m_value m) "intermediate" then iwatchers ta else fwatchers ta)
    as [|w l IH]; [reflexivity | exact IH].
Qed.

Lemma change_property_calls t name v :
  forallb is_property_changed (snd (change_property t name v)) = true.
Proof.
  unfold change_property.
  repeat match goal with
         | |- context [if ?b then _ else _] => destruct b
         end; reflexivity.
Qed.

Lemma property_changed_not_confirmation (l : list event) :
  forallb is_property_changed l = true ->
  forallb (fun e => negb (is_confirmation e)) l = true.
Proof.
  induction l as [|e l IH]; [reflexivity|].
  cbn [forallb]. intros H. apply andb_prop in H as [He Hl].
  rewrite (IH Hl), andb_true_r. destruct e; try discriminate; reflexivity.
Qed.

(** What the handler does between the lookup of the characteristic and
    the confirmation never fails and sends no confirmation of its own. *)
Lemma ind_handler_processing ta t pdu len ch :
  pdu_of_len pdu len -> 3 <= len ->
  exists t' e,
    (if streq (uuid (attr ch)) TEMPERATURE_MEASUREMENT_UUID then
       e <- calls_of (proc_measurement ta t pdu len true) ;; Next (t, e)
     else if streq (uuid (attr ch)) MEASUREMENT_INTERVAL_UUID then
       after_call (proc_measurement_interval t pdu len) (t, [])
     else Next (t, [])) = Next (t', e)
    /\ attrib t' = attrib t
    /\ forallb (fun x => negb (is_confirmation x)) e = true.
Proof.
  intros Hp H3.
  destruct (streq (uuid (attr ch)) TEMPERATURE_MEASUREMENT_UUID).
  - destruct (proc_measurement_outcome ta t pdu len true Hp H3)
      as [[_ [why ->]] | [_ (m & -> & _)]]; cbn [calls_of bind].
    + exists t, []. auto.
    + exists t, (recv_measurement ta t m).
      split; [reflexivity|]. split; [reflexivity|]. apply recv_measurement_calls.
  - destruct (streq (uuid (attr ch)) MEASUREMENT_INTERVAL_UUID).
    + unfold proc_measurement_interval, return_if.
      destruct (Z.ltb_spec len 5).
      * exists t, []. auto.
      * rewrite (access_ok pdu len 3 2 Hp) by lia. cbn [bind after_call].
        pose proof (change_property_calls t "Interval" (att_get_u16 pdu 3)) as Hc.
        assert (Ha : attrib (fst (change_property t "Interval" (att_get_u16 pdu 3)))
                     = attrib t).
        { unfold change_property. cbn.
          destruct (has_interval t && (interval t =? att_get_u16 pdu 3));
            reflexivity. }
        destruct (change_property t "Interval" (att_get_u16 pdu 3)) as [t' e].
        exists t', e. split; [reflexivity|]. split; [exact Ha|].
        now apply property_changed_not_confirmation.
    + exists t, []. auto.
Qed.

(** Neither handler ever reads outside the PDU it is given, whatever its
    length; the indication handler needs the connection it was registered
    on for the confirmation. *)
Lemma notif_handler_no_fault pdu len ta t :
  pdu_of_len pdu len -> notif_handler pdu len ta t <> Fault.
Proof.
  intros Hp. unfold notif_handler, return_if.
  destruct (Z.ltb_spec len 3); [discriminate|].
  rewrite (access_ok pdu len 1 2 Hp) by lia. cbn [bind].
  destruct (find _ (chars t)) as [ch|]; [|discriminate].
  destruct (streq (uuid (attr ch)) INTERMEDIATE_TEMPERATURE_UUID);
    [|discriminate].
  destruct (proc_measurement_outcome ta t pdu len false Hp ltac:(lia))
    as [[_ [why ->]] | [_ (m & -> & _)]]; discriminate.
Qed.

Lemma ind_handler_no_fault pdu len ta t :
  pdu_of_len pdu len -> attrib t <> None -> ind_handler pdu len ta t <> Fault.
Proof.
  intros Hp Ha. unfold ind_handler, return_if.
  destruct (Z.ltb_spec len 3); [discriminate|].
  rewrite (access_ok pdu len 1 2 Hp) by lia. cbn [bind].
  destruct (find _ (chars t)) as [ch|]; [|discriminate].
  destruct (ind_handler_processing ta t pdu len ch Hp ltac:(lia))
    as (t' & e & -> & Hattr & _).
  cbn [bind]. rewrite Hattr. destruct (attrib t) as [a|]; [|contradiction].
  destruct (0 <? u16 (enc_confirmation (ga_buflen a))); discriminate.
Qed.

(** C2. For every payload, decoding a measurement never reads outside the
    PDU. proc_measurement is static and gets a PDU from the indication
    and the notification handler only: whatever PDU the transport
    delivers, of any length, neither handler reads outside it, and a PDU
    shorter than the 3-byte header is dropped by both before the decoder
    is called. On a PDU with its header the decoder reads inside the PDU,
    and when less than the flags byte, the 4-byte value field, a flagged
    7-byte time stamp or a flagged type byte is left, it returns early:
    nothing is decoded, no watcher is called, and the handler that called
    it leaves the thermometer as it was. On any other payload a
    measurement goes to the watchers. *)
Theorem proc_measurement_truncated ta t pdu len final :
  pdu_of_len pdu len ->
  let flags := att_get_u8 pdu 3 in
  let ts := negb (Z.land flags TEMP_TIME_STAMP =? 0) in
  let ty := negb (Z.land flags TEMP_TYPE =? 0) in
  notif_handler pdu len ta t <> Fault
  /\ (attrib t <> None -> ind_handler pdu len ta t <> Fault)
  /\ (len < 3 ->
      ind_handler pdu len ta t = Return "Bad pdu received"
      /\ notif_handler pdu len ta t = Return "Bad pdu received")
  /\ (3 <= len ->
      proc_measurement ta t pdu len final <> Fault
      /\ (len - 3 < 1 ->
          proc_measurement ta t pdu len final
          = Return "Mandatory flags are not provided")
      /\ (1 <= len - 3 -> len - 4 < 4 ->
          proc_measurement ta t pdu len final
          = Return "Mandatory temperature measurement value is not provided")
      /\ (4 <= len - 4 -> ts = true -> len - 8 < 7 ->
          proc_measurement ta t pdu len final = Return "Time stamp is not provided")
      /\ (4 <= len - 4 -> ty = true -> (ts = true -> 7 <= len - 8) ->
          len - 8 - (if ts then 7 else 0) < 1 ->
          proc_measurement ta t pdu len final
          = Return "Temperature type is not provided")
      /\ (truncated pdu len = true ->
          exists why, proc_measurement ta t pdu len final = Return why)
      /\ (truncated pdu len = false ->
          exists m,
            proc_measurement ta t pdu len final = Next (m, recv_measurement ta t m))
      /\ (forall why ch,
            proc_measurement ta t pdu len false = Return why ->
            find (fun ch => cmp_char_val_handle ch (att_get_u16 pdu 1) =? 0) (chars t)
            = Some ch ->
            uuid (attr ch) = INTERMEDIATE_TEMPERATURE_UUID ->
            notif_handler pdu len ta t = Next (t, []))
      /\ (forall why ch a,
            proc_measurement ta t pdu len true = Return why ->
            find (fun ch => cmp_char_val_handle ch (att_get_u16 pdu 1) =? 0) (chars t)
            = Some ch ->
            uuid (attr ch) = TEMPERATURE_MEASUREMENT_UUID ->
            attrib t = Some a ->
            exists conf,
              ind_handler pdu len ta t = Next (t, conf)
              /\ forallb is_confirmation conf = true)).
Proof.
  intros Hp flags ts ty.
  split; [now apply notif_handler_no_fault|].
  split; [now apply ind_handler_no_fault|].
  split; [now apply handlers_drop_short_pdu|].
  intros H3.
  pose proof (proc_measurement_spec ta t pdu len final Hp H3) as H.
  cbv zeta in H. fold flags in H. fold ts in H. fold ty in H.
  split; [now apply proc_measurement_no_fault|].
  split.
  { intros Hl. destruct (Z.ltb_spec (len - 3) 1); [exact H | lia]. }
  split.
  { intros H1 Hl. destruct (Z.ltb_spec (len - 3) 1); [lia|].
    destruct (Z.ltb_spec (len - 4) 4); [exact H | lia]. }
  split.
  { intros H4 Hts Hl. destruct (Z.ltb_spec (len - 3) 1); [lia|].
    destruct (Z.ltb_spec (len - 4) 4); [lia|].
    rewrite Hts in H. destruct (Z.ltb_spec (len - 8) 7); [exact H | lia]. }
  split.
  { intros H4 Hty Hts Hl. destruct (Z.ltb_spec (len - 3) 1); [lia|].
    destruct (Z.ltb_spec (len - 4) 4); [lia|].
    rewrite Hty in H. destruct ts.
    - specialize (Hts eq_refl).
      destruct (Z.ltb_spec (len - 8) 7); [lia|]. cbn [andb] in H.
      destruct (Z.ltb_spec (len - 8 - 7) 1); [exact H | lia].
    - cbn [andb] in H.
      destruct (Z.ltb_spec (len - 8 - 0) 1); [exact H | lia]. }
  split.
  { intros Htr.
    destruct (proc_measurement_outcome ta t pdu len final Hp H3)
      as [[_ Hw] | [Hf _]]; [exact Hw | congruence]. }
  split.
  { intros Htr.
    destruct (proc_measurement_outcome ta t pdu len final Hp H3)
      as [[Ht _] | [_ (m & Hm & _)]]; [congruence | eauto]. }
  assert (Hacc : access pdu 1 2 = Next tt) by (apply (access_ok pdu len); [exact Hp | lia]).
  split.
  - intros why ch Hret Hfind Hu.
    unfold notif_handler, return_if.
    destruct (Z.ltb_spec len 3); [lia|].
    rewrite Hacc. cbn [bind]. rewrite Hfind, Hu.
    unfold streq. rewrite String.eqb_refl, Hret. reflexivity.
  - intros why ch a Hret Hfind Hu Ha.
    unfold ind_handler, return_if.
    destruct (Z.ltb_spec len 3); [lia|].
    rewrite Hacc. cbn [bind]. rewrite Hfind, Hu.
    unfold streq. rewrite String.eqb_refl, Hret. cbn [calls_of bind].
    rewrite Ha.
    destruct (0 <? u16 (enc_confirmation (ga_buflen a))); eexists; split;
      reflexivity.
Qed.

(** C5, as the code has it. An indication of at least 3 bytes whose value
    handle is the one of a characteristic of the thermometer is confirmed
    once processing is over, whatever the decoding came to: the
    confirmation is the last call and the only one of its kind (the
    transport is there and its buffer takes the confirmation). An
    indication shorter than 3 bytes, or for a handle the thermometer does
    not know, is dropped at once: the handler returns without a
    confirmation. *)
Theorem ind_handler_confirmation pdu len ta t :
  pdu_of_len pdu len ->
  (len < 3 -> ind_handler pdu len ta t = Return "Bad pdu received")
  /\ (3 <= len ->
      find (fun ch => cmp_char_val_handle ch (att_get_u16 pdu 1) =? 0) (chars t)
      = None ->
      ind_handler pdu len ta t = Return "Unexpected handle")
  /\ (forall ch a,
        3 <= len ->
        find (fun ch => cmp_char_val_handle ch (att_get_u16 pdu 1) =? 0) (chars t)
        = Some ch ->
        attrib t = Some a ->
        0 < u16 (enc_confirmation (ga_buflen a)) ->
        exists t' e,
          ind_handler pdu len ta t
          = Next (t', e ++ [g_attrib_send a (u16 (enc_confirmation (ga_buflen a)))])
          /\ forallb (fun x => negb (is_confirmation x)) e = true).
Proof.
  intros Hp. unfold ind_handler, return_if.
  split; [|split].
  - intros Hl. destruct (Z.ltb_spec len 3); [reflexivity | lia].
  - intros H3 Hfind. destruct (Z.ltb_spec len 3); [lia|].
    rewrite (access_ok pdu len 1 2 Hp) by lia. cbn [bind].
    rewrite Hfind. reflexivity.
  - intros ch a H3 Hfind Ha Holen. destruct (Z.ltb_spec len 3); [lia|].
    rewrite (access_ok pdu len 1 2 Hp) by lia. cbn [bind].
    rewrite Hfind.
    destruct (ind_handler_processing ta t pdu len ch Hp H3)
      as (t' & e & -> & Hattr & Hconf).
    cbn [bind]. rewrite Hattr, Ha.
    apply Z.ltb_lt in Holen. rewrite Holen.
    exists t', e. auto.
Qed.

End Decoder.

(** ** The watcher registry *)

Section Registry.

Implicit Types (ta : thermometer_adapter) (w : watcher) (l : list watcher).

Lemma watcher_eqb_eq w w' : watcher_eqb w w' = true <-> w = w'.
Proof.
  unfold watcher_eqb, streq. split.
  - intros H. apply andb_prop in H as [H Hp]. apply andb_prop in H as [Hi Hs].
    apply Z.eqb_eq in Hi. apply String.eqb_eq in Hs, Hp.
    destruct w, w'; cbn in *; congruence.
  - intros <-. now rewrite Z.eqb_refl, !String.eqb_refl.
Qed.

Lemma watcher_eqb_refl w : watcher_eqb w w = true.
Proof. now apply watcher_eqb_eq. Qed.

Lemma g_slist_find_In l w : g_slist_find l w = true <-> In w l.
Proof.
  unfold g_slist_find. rewrite existsb_exists. split.
  - intros (x & Hx & E). apply watcher_eqb_eq in E. now subst.
  - intros H. exists w. split; [exact H | apply watcher_eqb_refl].
Qed.

Lemma g_slist_remove_In l w x : In x (g_slist_remove l w) -> In x l.
Proof.
  induction l as [|y l IH]; cbn; [tauto|].
  destruct (watcher_eqb y w); cbn; intuition.
Qed.

Lemma g_slist_remove_other l w x :
  In x l -> x <> w -> In x (g_slist_remove l w).
Proof.
  induction l as [|y l IH]; cbn; [tauto|].
  intros [Hy|Hin] Hne.
  - subst y. destruct (watcher_eqb x w) eqn:E; [|now left].
    apply watcher_eqb_eq in E. contradiction.
  - destruct (watcher_eqb y w); [exact Hin | right; auto].
Qed.

Lemma g_slist_remove_NoDup l w : NoDup l -> NoDup (g_slist_remove l w).
Proof.
  induction 1 as [|y l Hy Hnd IH]; cbn; [constructor|].
  destruct (watcher_eqb y w); [exact Hnd|].
  constructor; [|exact IH].
  intros Hin. apply Hy. eapply g_slist_remove_In, Hin.
Qed.

Lemma g_slist_remove_gone l w : NoDup l -> ~ In w (g_slist_remove l w).
Proof.
  induction 1 as [|y l Hy Hnd IH]; cbn; [tauto|].
  destruct (watcher_eqb y w) eqn:E.
  - apply watcher_eqb_eq in E. now subst.
  - intros [->|Hin]; [|now apply IH].
    now rewrite watcher_eqb_refl in E.
Qed.

Lemma g_slist_remove_length l w :
  In w l -> g_slist_length (g_slist_remove l w) = g_slist_length l - 1.
Proof.
  unfold g_slist_length.
  induction l as [|y l IH]; cbn [In g_slist_remove]; [tauto|].
  intros H. destruct (watcher_eqb y w) eqn:E.
  - cbn [List.length]. lia.
  - destruct H as [->|H]; [now rewrite watcher_eqb_refl in E|].
    specialize (IH H). cbn [List.length]. lia.
Qed.

Lemma g_slist_remove_absent l w : ~ In w l -> g_slist_remove l w = l.
Proof.
  induction l as [|y l IH]; cbn; [reflexivity|].
  intros H. destruct (watcher_eqb y w) eqn:E.
  - apply watcher_eqb_eq in E. tauto.
  - f_equal. apply IH. tauto.
Qed.

Lemma find_watcher_Some l s p w :
  find_watcher l s p = Some w -> In w l /\ srv w = s /\ path w = p.
Proof.
  unfold find_watcher, cmp_watcher, streq. intros H.
  apply find_some in H as [Hin Hc]. cbn in Hc.
  apply andb_prop in Hc as [Hs Hp]. apply String.eqb_eq in Hs, Hp. auto.
Qed.

Lemma find_watcher_None l s p :
  find_watcher l s p = None <-> ~ registered l s p.
Proof.
  unfold find_watcher, registered, cmp_watcher, streq. split.
  - intros H (w & Hin & Hs & Hp).
    pose proof (find_none _ _ H w Hin) as Hc. cbn in Hc.
    subst s p. now rewrite !String.eqb_refl in Hc.
  - intros H. destruct (find _ l) as [w|] eqn:E; [|reflexivity].
    exfalso. apply H. apply find_some in E as [Hin Hc]. cbn in Hc.
    apply andb_prop in Hc as [Hs Hp]. apply String.eqb_eq in Hs, Hp.
    exists w. auto.
Qed.

Lemma find_watcher_registered l s p :
  registered l s p -> exists w, find_watcher l s p = Some w.
Proof.
  intros H. destruct (find_watcher l s p) as [w|] eqn:E; [eauto|].
  now apply find_watcher_None in E.
Qed.

(** *** The invariant *)

Lemma remove_int_watcher_inv ta w :
  registry_inv ta ->
  let ta' := fst (remove_int_watcher ta w) in
  registry_inv ta' /\ fwatchers ta' = fwatchers ta /\ ~ In w (iwatchers ta').
Proof.
  intros [Hnd Hincl]. unfold remove_int_watcher.
  destruct (g_slist_find (iwatchers ta) w) eqn:E; cbn [negb].
  - assert (Hinv : registry_inv (set_iwatchers ta (g_slist_remove (iwatchers ta) w))).
    { split; cbn.
      - now apply g_slist_remove_NoDup.
      - intros x Hx. apply Hincl. eapply g_slist_remove_In, Hx. }
    assert (Hgone : ~ In w (g_slist_remove (iwatchers ta) w))
      by now apply g_slist_remove_gone.
    destruct (g_slist_length _ =? 0); cbn; auto.
  - cbn. split; [split; assumption|]. split; [reflexivity|].
    intros Hin. apply g_slist_find_In in Hin. congruence.
Qed.

Lemma remove_final_inv ta w :
  registry_inv ta -> ~ In w (iwatchers ta) ->
  registry_inv (set_fwatchers ta (g_slist_remove (fwatchers ta) w)).
Proof.
  intros [Hnd Hincl] Hw. split; cbn; [exact Hnd|].
  intros x Hx. apply g_slist_remove_other; [now apply Hincl|].
  intros ->. contradiction.
Qed.

Lemma watcher_exit_inv ta w :
  registry_inv ta -> registry_inv (fst (watcher_exit w ta)).
Proof.
  intros Hinv. unfold watcher_exit.
  destruct (remove_int_watcher_inv ta w Hinv) as (Hinv' & _ & Hgone).
  destruct (remove_int_watcher ta w) as [ta1 e1]. cbn [fst] in *.
  pose proof (remove_final_inv ta1 w Hinv' Hgone) as H.
  destruct (g_slist_length _ =? 0); exact H.
Qed.

Lemma register_watcher_inv watch msg ta :
  registry_inv ta -> registry_inv (fst (fst (register_watcher watch msg ta))).
Proof.
  intros Hinv. unfold register_watcher.
  destruct (get_args_object_path msg) as [p|]; [|exact Hinv].
  destruct (find_watcher (fwatchers ta) (sender msg) p); [exact Hinv|].
  destruct Hinv as [Hnd Hincl]. split; cbn; [exact Hnd|].
  intros x Hx. right. now apply Hincl.
Qed.

Lemma unregister_watcher_inv msg ta :
  registry_inv ta -> registry_inv (fst (fst (unregister_watcher msg ta))).
Proof.
  intros Hinv. unfold unregister_watcher.
  destruct (get_args_object_path msg) as [p|]; [|exact Hinv].
  destruct (find_watcher (fwatchers ta) (sender msg) p) as [w|]; [|exact Hinv].
  destruct (remove_int_watcher_inv ta w Hinv) as (Hinv' & _ & Hgone).
  destruct (remove_int_watcher ta w) as [ta1 e1]. cbn [fst] in *.
  now apply remove_final_inv.
Qed.

Lemma enable_intermediate_inv msg ta :
  registry_inv ta -> registry_inv (fst (fst (enable_intermediate msg ta))).
Proof.
  intros Hinv. unfold enable_intermediate.
  destruct (get_args_object_path msg) as [p|]; [|exact Hinv].
  destruct (find_watcher (fwatchers ta) (sender msg) p) as [w|] eqn:Ef;
    [|exact Hinv].
  destruct (find_watcher (iwatchers ta) (sender msg) p) as [w'|] eqn:Ei;
    [exact Hinv|].
  apply find_watcher_Some in Ef as (Hin & Hs & Hp).
  destruct Hinv as [Hnd Hincl]. split; cbn [fst iwatchers fwatchers set_iwatchers].
  - constructor; [|exact Hnd].
    intros Hw. apply find_watcher_None in Ei. apply Ei. exists w. auto.
  - intros x [<-|Hx]; [exact Hin | now apply Hincl].
Qed.

Lemma disable_intermediate_inv msg ta :
  registry_inv ta -> registry_inv (fst (fst (disable_intermediate msg ta))).
Proof.
  intros Hinv. unfold disable_intermediate.
  destruct (get_args_object_path msg) as [p|]; [|exact Hinv].
  destruct (find_watcher (iwatchers ta) (sender msg) p) as [w|]; [|exact Hinv].
  destruct (remove_int_watcher_inv ta w Hinv) as (Hinv' & _ & _).
  destruct (remove_int_watcher ta w) as [ta1 e1]. exact Hinv'.
Qed.

Lemma endpoint_disconnect_inv name ta :
  registry_inv ta -> registry_inv (fst (endpoint_disconnect name ta)).
Proof.
  unfold endpoint_disconnect.
  generalize (filter (fun w => streq (srv w) name) (fwatchers ta)).
  generalize (@nil event).
  intros e l. revert ta e.
  induction l as [|w l IH]; intros ta e Hinv; [exact Hinv|].
  cbn [fold_left fst snd].
  pose proof (watcher_exit_inv ta w Hinv) as H.
  destruct (watcher_exit w ta) as [ta' e']. cbn [fst] in H.
  now apply IH.
Qed.

Lemma apply_op_inv op ta :
  registry_inv ta -> registry_inv (fst (apply_op op ta)).
Proof.
  intros Hinv. destruct op as [watch msg|msg|msg|msg|name|l]; cbn [apply_op].
  - pose proof (register_watcher_inv watch msg ta Hinv) as H.
    destruct (register_watcher watch msg ta) as [[ta' r] e]. exact H.
  - pose proof (unregister_watcher_inv msg ta Hinv) as H.
    destruct (unregister_watcher msg ta) as [[ta' r] e]. exact H.
  - pose proof (enable_intermediate_inv msg ta Hinv) as H.
    destruct (enable_intermediate msg ta) as [[ta' r] e]. exact H.
  - pose proof (disable_intermediate_inv msg ta Hinv) as H.
    destruct (disable_intermediate msg ta) as [[ta' r] e]. exact H.
  - now apply endpoint_disconnect_inv.
  - exact Hinv.
Qed.

Lemma run_ops_inv ops ta : registry_inv ta -> registry_inv (run_ops ops ta).
Proof.
  revert ta. induction ops as [|op ops IH]; intros ta Hinv; [exact Hinv|].
  cbn. apply IH. now apply apply_op_inv.
Qed.

Lemma new_thermometer_adapter_inv a : registry_inv (new_thermometer_adapter a).
Proof.
  split; cbn; [constructor | intros x []].
Qed.

Lemma run_ops_incl (a : nat) (ops : list registry_op) :
  incl (iwatchers (run_ops ops (new_thermometer_adapter a)))
       (fwatchers (run_ops ops (new_thermometer_adapter a))).
Proof.
  exact (proj2 (run_ops_inv ops _ (new_thermometer_adapter_inv a))).
Qed.

(** C3. On an adapter, after any sequence of RegisterWatcher,
    UnregisterWatcher, EnableIntermediateMeasurement,
    DisableIntermediateMeasurement calls and endpoint disconnections
    (with the attached thermometers changing in between), every watcher of
    the intermediate list is a watcher of the final list. *)
Theorem intermediate_watchers_are_final (a : nat) (ops : list registry_op) w :
  In w (iwatchers (run_ops ops (new_thermometer_adapter a))) ->
  In w (fwatchers (run_ops ops (new_thermometer_adapter a))).
Proof.
  apply run_ops_incl.
Qed.

(** C6. With the object path read from the call: RegisterWatcher for an
    (endpoint, path) already in the final list answers AlreadyExists;
    UnregisterWatcher and EnableIntermediateMeasurement for a pair that is
    not in the final list answer DoesNotExist (NotFound);
    EnableIntermediateMeasurement for a pair already in the intermediate
    list of an adapter, in any state the registry reaches, answers
    AlreadyExists. In each case the adapter is left as it was and no call
    is made. *)
Theorem watcher_errors ta (msg : DBusMessage) (p : string) :
  get_args_object_path msg = Some p ->
  (registered (fwatchers ta) (sender msg) p ->
   forall watch,
     register_watcher watch msg ta = (ta, btd_error_already_exists, []))
  /\ (~ registered (fwatchers ta) (sender msg) p ->
      unregister_watcher msg ta = (ta, btd_error_does_not_exist, []))
  /\ (~ registered (fwatchers ta) (sender msg) p ->
      enable_intermediate msg ta = (ta, btd_error_does_not_exist, []))
  /\ (forall a ops,
        ta = run_ops ops (new_thermometer_adapter a) ->
        registered (iwatchers ta) (sender msg) p ->
        enable_intermediate msg ta = (ta, btd_error_already_exists, [])).
Proof.
  intros Hargs.
  unfold register_watcher, unregister_watcher, enable_intermediate.
  rewrite Hargs. repeat split.
  - intros Hreg watch. apply find_watcher_registered in Hreg as [w ->].
    reflexivity.
  - intros Hreg. apply find_watcher_None in Hreg. now rewrite Hreg.
  - intros Hreg. apply find_watcher_None in Hreg. now rewrite Hreg.
  - intros a ops -> Hreg.
    set (ta := run_ops ops (new_thermometer_adapter a)) in *.
    assert (Hf : registered (fwatchers ta) (sender msg) p).
    { destruct Hreg as (w & Hin & Hk). exists w. split; [|exact Hk].
      now apply run_ops_incl. }
    apply find_watcher_registered in Hf as [w ->].
    apply find_watcher_registered in Hreg as [w' ->]. reflexivity.
Qed.

(** *** CCC writes *)





Lemma remove_int_watcher_spec ta w :
  let '(ta', e) := remove_int_watcher ta w in
  devices ta' = devices ta
  /\ fwatchers ta' = fwatchers ta
  /\ iwatchers ta' = (if g_slist_find (iwatchers ta) w
                     then g_slist_remove (iwatchers ta) w else iwatchers ta)
  /\ e = (if count_goes (iwatchers ta) (iwatchers ta') 1 0
          then g_slist_foreach (devices ta) disable_intermediate_measurement
          else []).
Proof.
  unfold remove_int_watcher, count_goes.
  destruct (g_slist_find (iwatchers ta) w) eqn:E; cbn [negb].
  - apply g_slist_find_In in E.
    pose proof (g_slist_remove_length _ _ E) as Hlen.
    cbn [iwatchers set_iwatchers].
    destruct (Z.eqb_spec (g_slist_length (g_slist_remove (iwatchers ta) w)) 0)
      as [H0|H0]; cbn [devices fwatchers iwatchers set_iwatchers].
    + rewrite H0. replace (g_slist_length (iwatchers ta)) with 1 by lia. auto.
    + rewrite (proj2 (Z.eqb_neq _ 0) H0), andb_false_r. auto.
  - repeat split.
    destruct (Z.eqb_spec (g_slist_length (iwatchers ta)) 1) as [H1|];
      [|reflexivity].
    rewrite H1. reflexivity.
Qed.












End Registry.

(** ** Cached properties and the interval *)

Section Properties.

Context {ext : Externals}.

Implicit Types (t : thermometer) (v value : Z) (name : string).

(** A setter that writes what is already there changes nothing. *)
Lemma set_max_same t : set_max t (t_max t) = t.
Proof. destruct t; reflexivity. Qed.

Lemma set_min_same t : set_min t (t_min t) = t.
Proof. destruct t; reflexivity. Qed.

(** C9. change_property is idempotent. Called with the value that is
    cached for the named property (for Interval, with the has-interval
    flag set as well) it changes nothing and emits nothing; called with
    another value it stores the value and emits exactly one
    PropertyChanged with the name and the new value; a name that is no
    property of a thermometer changes nothing and emits nothing. Hence, of
    two consecutive calls with the same Interval value the second emits
    nothing, and the two together emit exactly the one notification of the
    first call when that call was a change. *)
Theorem change_property_idempotent t name v :
  (intermediate t = v ->
   change_property t "Intermediate" v = (t, []))
  /\ (has_interval t = true -> interval t = v ->
      change_property t "Interval" v = (t, []))
  /\ (t_max t = v -> change_property t "Maximum" v = (t, []))
  /\ (t_min t = v -> change_property t "Minimum" v = (t, []))
  /\ (intermediate t <> v ->
      change_property t "Intermediate" v
      = (set_intermediate t v,
         [emit_property_changed (dev t) THERMOMETER_INTERFACE "Intermediate" v]))
  /\ (has_interval t = false \/ interval t <> v ->
      change_property t "Interval" v
      = (set_interval t v,
         [emit_property_changed (dev t) THERMOMETER_INTERFACE "Interval" v]))
  /\ (t_max t <> v ->
      change_property t "Maximum" v
      = (set_max t v,
         [emit_property_changed (dev t) THERMOMETER_INTERFACE "Maximum" v]))
  /\ (t_min t <> v ->
      change_property t "Minimum" v
      = (set_min t v,
         [emit_property_changed (dev t) THERMOMETER_INTERFACE "Minimum" v]))
  /\ (name <> "Intermediate" -> name <> "Interval" -> name <> "Maximum" ->
      name <> "Minimum" ->
      change_property t name v = (t, []))
  /\ (let '(t1, e1) := change_property t "Interval" v in
      let '(t2, e2) := change_property t1 "Interval" v in
      t2 = t1 /\ e2 = []
      /\ (has_interval t = false \/ interval t <> v ->
          List.length (e1 ++ e2) = 1%nat)).
Proof.
  unfold change_property, streq. cbn [String.eqb Ascii.eqb Bool.eqb andb].
  repeat split.
  - intros ->. now rewrite Z.eqb_refl.
  - intros -> ->. now rewrite Z.eqb_refl.
  - intros ->. now rewrite Z.eqb_refl.
  - intros ->. now rewrite Z.eqb_refl.
  - intros H. apply Z.eqb_neq in H. now rewrite H.
  - intros [H|H].
    + now rewrite H.
    + apply Z.eqb_neq in H. now rewrite H, andb_false_r.
  - intros H. apply Z.eqb_neq in H. now rewrite H.
  - intros H. apply Z.eqb_neq in H. now rewrite H.
  - intros H1 H2 H3 H4.
    apply String.eqb_neq in H1, H2, H3, H4. now rewrite H1, H2, H3, H4.
  - destruct (has_interval t && (interval t =? v)) eqn:E.
    + rewrite E. split; [reflexivity|]. split; [reflexivity|].
      intros [H|H].
      * rewrite H in E. discriminate.
      * apply andb_prop in E as [_ E]. apply Z.eqb_eq in E. contradiction.
    + cbn. rewrite Z.eqb_refl. auto.
Qed.

(** C7. write_attr_interval checks in this order: without a GATT
    connection it answers NotConnected; connected, but with no Measurement
    Interval characteristic discovered, NotAvailable; with both, for a
    value below the cached minimum or above the cached maximum,
    InvalidArguments. Whenever the value is outside the cached range the
    answer is an error, no write is issued and the thermometer is left as
    it was; a value inside the range of a connected thermometer with the
    characteristic is written to its value handle. *)
Theorem write_attr_interval_errors t value :
  (attrib t = None ->
   write_attr_interval t value = (t, btd_error_not_connected, []))
  /\ (attrib t <> None ->
      get_characteristic t MEASUREMENT_INTERVAL_UUID = None ->
      write_attr_interval t value = (t, btd_error_not_available, []))
  /\ (attrib t <> None ->
      get_characteristic t MEASUREMENT_INTERVAL_UUID <> None ->
      value < t_min t \/ t_max t < value ->
      write_attr_interval t value = (t, btd_error_invalid_args, []))
  /\ (value < t_min t \/ t_max t < value ->
      exists r,
        write_attr_interval t value = (t, r, []) /\ r <> method_return)
  /\ (forall ch,
        attrib t <> None ->
        get_characteristic t MEASUREMENT_INTERVAL_UUID = Some ch ->
        t_min t <= value <= t_max t ->
        write_attr_interval t value
        = (t, method_return,
           [gatt_write_char (attrib t) (value_handle (attr ch))
              (att_put_u16 value) (cb_write_interval value)])).
Proof.
  unfold write_attr_interval.
  assert (Hout : value < t_min t \/ t_max t < value ->
                 (value <? t_min t) || (t_max t <? value) = true).
  { intros [H|H]; apply orb_true_iff; [left | right]; now apply Z.ltb_lt. }
  repeat split.
  - now intros ->.
  - intros Ha ->. destruct (attrib t); [reflexivity | contradiction].
  - intros Ha Hc Hv. destruct (attrib t); [|contradiction].
    destruct (get_characteristic t MEASUREMENT_INTERVAL_UUID); [|contradiction].
    now rewrite (Hout Hv).
  - intros Hv. rewrite (Hout Hv).
    destruct (attrib t); [|eexists; split; [reflexivity | discriminate]].
    destruct (get_characteristic t MEASUREMENT_INTERVAL_UUID);
      eexists; (split; [reflexivity | discriminate]).
  - intros ch Ha -> Hv. destruct (attrib t); [|contradiction].
    destruct (Z.ltb_spec value (t_min t)); [lia|].
    destruct (Z.ltb_spec (t_max t) value); [lia|]. reflexivity.
Qed.

(** C8. The response to the read of the Valid Range descriptor: with
    [vlen] the number of bytes decoded and min and max the two
    little-endian 16-bit values of the buffer, fewer than 4 bytes are
    refused, and so is a range with min = 0 or min > max (logged as
    Invalid range): the callback returns before it changes or emits
    anything. A valid range is applied: afterwards the cached maximum and
    minimum are max and min, nothing else changed, and PropertyChanged is
    emitted for Maximum and then Minimum, each if its value changed. *)
Theorem valid_range_desc_cb_applies status pdu len t :
  let vlen := fst (dec_read_resp pdu len VALID_RANGE_DESC_SIZE) in
  let value_ := snd (dec_read_resp pdu len VALID_RANGE_DESC_SIZE) in
  let min := att_get_u16 value_ 0 in
  let max := att_get_u16 value_ 2 in
  (vlen < 4 -> exists why, valid_range_desc_cb status pdu len t = Return why)
  /\ (status = 0 -> 4 <= vlen -> min = 0 \/ max < min ->
      valid_range_desc_cb status pdu len t = Return "Invalid range")
  /\ (forall why,
        valid_range_desc_cb status pdu len t = Return why ->
        state_after (valid_range_desc_cb status pdu len t) t = Some t)
  /\ (status = 0 -> 4 <= vlen -> min <> 0 -> min <= max ->
      valid_range_desc_cb status pdu len t
      = Next (set_min (set_max t max) min,
              (if t_max t =? max then []
               else [emit_property_changed (dev t) THERMOMETER_INTERFACE
                       "Maximum" max])
              ++ (if t_min t =? min then []
                  else [emit_property_changed (dev t) THERMOMETER_INTERFACE
                          "Minimum" min]))).
Proof.
  intros vlen value_ min max. subst vlen value_ min max.
  unfold valid_range_desc_cb, return_if.
  destruct (dec_read_resp pdu len VALID_RANGE_DESC_SIZE) as [vlen value_].
  cbn [fst snd].
  set (min := att_get_u16 value_ 0). set (max := att_get_u16 value_ 2).
  repeat split.
  - intros Hv. destruct (negb (status =? 0)); [eauto|].
    destruct (Z.ltb_spec vlen 0); [eauto|].
    destruct (Z.ltb_spec vlen 4); [eauto | lia].
  - intros -> Hv Hr. cbn [Z.eqb negb].
    destruct (Z.ltb_spec vlen 0); [lia|].
    destruct (Z.ltb_spec vlen 4); [lia|].
    destruct Hr as [Hr|Hr].
    + rewrite Hr. reflexivity.
    + apply Z.ltb_lt in Hr. rewrite Hr, orb_true_r. reflexivity.
  - intros why ->. reflexivity.
  - intros -> Hv Hmin Hr. cbn [Z.eqb negb].
    destruct (Z.ltb_spec vlen 0); [lia|].
    destruct (Z.ltb_spec vlen 4); [lia|].
    apply Z.eqb_neq in Hmin. rewrite Hmin.
    destruct (Z.ltb_spec max min); [lia|]. cbn [orb].
    unfold change_property, streq.
    cbn [String.eqb Ascii.eqb Bool.eqb andb].
    destruct (Z.eqb_spec (t_max t) max) as [Emax|Emax].
    + destruct (Z.eqb_spec (t_min t) min) as [Emin|Emin].
      * rewrite <- Emax, set_max_same, <- Emin, set_min_same. reflexivity.
      * rewrite <- Emax, set_max_same. reflexivity.
    + cbn [t_min set_max].
      destruct (Z.eqb_spec (t_min t) min) as [Emin|Emin].
      * replace (set_min (set_max t max) min) with (set_max t max)
          by (rewrite <- Emin; destruct t; reflexivity).
        reflexivity.
      * reflexivity.
Qed.

(** *** A thermometer without a valid range *)

Lemma find_existsb {A : Type} (f : A -> bool) (l : list A) :
  match find f l with Some _ => true | None => false end = existsb f l.
Proof.
  induction l as [|x l IH]; [reflexivity|].
  cbn. destruct (f x); [reflexivity | exact IH].
Qed.

Lemma has_characteristic_existsb t u :
  has_characteristic t u
  = existsb (fun ch => streq (uuid (attr ch)) u) (chars t).
Proof.
  unfold has_characteristic, get_characteristic. apply find_existsb.
Qed.

Lemma existsb_replace_nth {A : Type} (f : A -> bool) (l : list A) i x x' :
  nth_error l i = Some x -> f x' = f x ->
  existsb f (replace_nth i l x') = existsb f l.
Proof.
  revert i. induction l as [|y l IH]; intros [|i] Hn Hf; cbn in *;
    try discriminate.
  - injection Hn as ->. now rewrite Hf.
  - now rewrite (IH i Hn Hf).
Qed.

Lemma change_property_interval_fields t v :
  same_range_and_chars t (fst (change_property t "Interval" v))
  /\ attrib (fst (change_property t "Interval" v)) = attrib t.
Proof.
  unfold change_property, streq, same_range_and_chars.
  cbn [String.eqb Ascii.eqb Bool.eqb andb].
  destruct (has_interval t && (interval t =? v)); cbn; auto.
Qed.

Lemma change_property_intermediate_fields t v :
  same_range_and_chars t (fst (change_property t "Intermediate" v))
  /\ has_interval (fst (change_property t "Intermediate" v)) = has_interval t
  /\ svc_range (fst (change_property t "Intermediate" v)) = svc_range t.
Proof.
  unfold change_property, streq, same_range_and_chars.
  cbn [String.eqb Ascii.eqb Bool.eqb andb].
  destruct (intermediate t =? v); cbn; auto.
Qed.

Lemma process_thermometer_char_fields ch t :
  same_range_and_chars t (fst (process_thermometer_char ch t))
  /\ has_interval (fst (process_thermometer_char ch t)) = has_interval t.
Proof.
  unfold process_thermometer_char.
  destruct (streq (uuid (attr ch)) INTERMEDIATE_TEMPERATURE_UUID).
  - destruct (change_property_intermediate_fields t 1) as (H & Hi & _). auto.
  - unfold same_range_and_chars.
    destruct (streq _ TEMPERATURE_TYPE_UUID); [cbn; auto|].
    destruct (streq _ MEASUREMENT_INTERVAL_UUID); cbn; auto.
Qed.

Lemma configure_chars_fields (l : list gatt_char) t :
  let t' := fst (configure_chars l t) in
  t_min t' = t_min t /\ t_max t' = t_max t
  /\ has_interval t' = has_interval t
  /\ exists added, chars t' = chars t ++ added.
Proof.
  revert t. induction l as [|c l IH]; intros t; cbn [configure_chars].
  - cbn. repeat split; auto. exists []. now rewrite app_nil_r.
  - set (ch := {| attr := c; desc := [] |}).
    set (t1 := set_chars t (chars t ++ [ch])).
    destruct (process_thermometer_char_fields ch t1) as ((Hmin & Hmax & Hch) & Hi).
    destruct (process_thermometer_char ch t1) as [t2 e1]. cbn [fst] in *.
    specialize (IH t2). cbv zeta in IH.
    destruct (configure_chars l t2) as [t3 e3]. cbn [fst] in *.
    destruct IH as (Imin & Imax & Ii & added & Ich).
    repeat split.
    + now rewrite Imin, Hmin.
    + now rewrite Imax, Hmax.
    + now rewrite Ii, Hi.
    + exists ([ch] ++ added). now rewrite Ich, Hch, app_assoc.
Qed.

Lemma ind_handler_fields pdu len ta t t' e :
  ind_handler pdu len ta t = Next (t', e) ->
  same_range_and_chars t t'
  /\ (has_interval t' = true ->
      has_interval t = true
      \/ existsb (fun ch => streq (uuid (attr ch)) MEASUREMENT_INTERVAL_UUID)
           (chars t) = true).
Proof.
  unfold ind_handler, return_if.
  destruct (len <? 3); [discriminate|].
  destruct (access pdu 1 2); cbn [bind]; try discriminate.
  destruct (find _ (chars t)) as [ch|] eqn:Ef; [|discriminate].
  apply find_some in Ef as [Hin _].
  assert (Hsame : forall r : res (thermometer * list event),
             (forall t1 e1, r = Next (t1, e1) ->
                same_range_and_chars t t1
                /\ attrib t1 = attrib t
                /\ (has_interval t1 = true ->
                    has_interval t = true
                    \/ existsb
                         (fun ch => streq (uuid (attr ch)) MEASUREMENT_INTERVAL_UUID)
                         (chars t) = true)) ->
             (x <- r ;;
              (let '(t0, e1) := x in
               match attrib t0 with
               | Some a =>
                 let plen := ga_buflen a in
                 let olen := u16 (enc_confirmation plen) in
                 if 0 <? olen then Next (t0, e1 ++ [g_attrib_send a olen])
                 else Next (t0, e1)
               | None => Fault
               end)) = Next (t', e) ->
             same_range_and_chars t t'
             /\ (has_interval t' = true ->
                 has_interval t = true
                 \/ existsb
                      (fun ch => streq (uuid (attr ch)) MEASUREMENT_INTERVAL_UUID)
                      (chars t) = true)).
  { intros r Hr. destruct r as [| |[t1 e1]]; cbn [bind]; try discriminate.
    destruct (Hr t1 e1 eq_refl) as (Hs & Ha & Hi).
    destruct (attrib t1); [|discriminate].
    destruct (0 <? _); intros [= <- _]; auto. }
  assert (Hrefl : same_range_and_chars t t) by (repeat split).
  destruct (streq (uuid (attr ch)) TEMPERATURE_MEASUREMENT_UUID).
  - apply Hsame. intros t1 e1.
    destruct (proc_measurement ta t pdu len true) as [| |[m e0]];
      cbn [calls_of bind]; try discriminate; intros [= <- _]; auto.
  - destruct (streq (uuid (attr ch)) MEASUREMENT_INTERVAL_UUID) eqn:Eu.
    + apply Hsame. intros t1 e1.
      unfold proc_measurement_interval, return_if.
      destruct (len <? 5); cbn [after_call].
      * intros [= <- _]. auto.
      * destruct (access pdu 3 2) as [|why|[]]; cbn [bind after_call];
          [discriminate | intros [= <- _]; auto |].
        destruct (change_property_interval_fields t (att_get_u16 pdu 3))
          as (Hs & Ha).
        destruct (change_property t "Interval" (att_get_u16 pdu 3)) as [t2 e2].
        cbn [fst] in *. intros [= <- _].
        split; [exact Hs|]. split; [exact Ha|].
        intros _. right. apply existsb_exists. exists ch. auto.
    + apply Hsame. intros t1 e1 [= <- _]. auto.
Qed.

Lemma notif_handler_state pdu len ta t t' e :
  notif_handler pdu len ta t = Next (t', e) -> t' = t.
Proof.
  unfold notif_handler, return_if.
  destruct (len <? 3); [discriminate|].
  destruct (access pdu 1 2); cbn [bind]; try discriminate.
  destruct (find _ (chars t)) as [ch|]; [|discriminate].
  destruct (streq _ _); [|now intros [= <- _]].
  destruct (proc_measurement ta t pdu len false) as [| |[m e0]];
    cbn [calls_of bind]; try discriminate; now intros [= <- _].
Qed.

Lemma set_property_state msg t : fst (fst (set_property msg t)) = t.
Proof.
  unfold set_property, write_attr_interval.
  repeat match goal with
         | |- context [match ?x with _ => _ end] => destruct x
         end; reflexivity.
Qed.

Lemma no_range_step_inv ta e t t' :
  no_range_inv t -> no_range_step ta e t = Some t' -> no_range_inv t'.
Proof.
  intros (Hmin & Hmax & Hint). unfold no_range_step.
  destruct (pending e t) eqn:Ep; [|discriminate].
  destruct (range_applied e t) eqn:Er; [discriminate|]. cbn [negb andb].
  assert (Hkeep : forall t1,
             same_range_and_chars t t1 ->
             (has_interval t1 = true ->
              has_interval t = true
              \/ existsb
                   (fun ch => streq (uuid (attr ch)) MEASUREMENT_INTERVAL_UUID)
                   (chars t) = true) ->
             no_range_inv t1).
  { intros t1 (Emin & Emax & Ech) Hi. unfold no_range_inv.
    rewrite Emin, Emax, Ech. repeat split; try assumption.
    intros H1. destruct (Hi H1); auto. }
  assert (Hrefl : same_range_and_chars t t) by (repeat split).
  destruct e as [a ind notif| |l status|i status pdu len|status pdu len
                 |status pdu len|status pdu len|status pdu len value
                 |pdu len|pdu len|msg]; cbn [fire pending range_applied] in *.
  - (* connected *) intros [= <-]. apply Hkeep; [repeat split | cbn; auto].
  - (* disconnected *) intros [= <-]. apply Hkeep; [repeat split | cbn; auto].
  - (* characteristics *)
    unfold configure_thermometer_cb, return_if.
    destruct (negb (status =? 0)); cbn [state_after].
    + intros [= <-]. now apply Hkeep; auto.
    + pose proof (configure_chars_fields l t) as H. cbv zeta in H.
      destruct (configure_chars l t) as [t1 e1]. cbn [fst] in H.
      destruct H as (Emin & Emax & Ei & added & Ech).
      intros [= <-]. unfold no_range_inv.
      rewrite Emin, Emax, Ei, Ech, existsb_app. repeat split; try assumption.
      intros H1. now rewrite (Hint H1).
  - (* descriptors *)
    unfold discover_desc_cb, return_if.
    destruct (nth_error (chars t) i) as [ch|] eqn:En; [|discriminate].
    destruct (negb (status =? 0)); cbn [state_after].
    + intros [= <-]. apply Hkeep; auto.
    + destruct (dec_find_info_resp pdu len) as [[format data]|];
        cbn [state_after]; intros [= <-]; [|apply Hkeep; auto].
      unfold no_range_inv. cbn [t_min t_max has_interval chars set_chars].
      repeat split; try assumption.
      intros H1. rewrite (existsb_replace_nth _ _ _ ch); auto.
  - (* temperature type *)
    unfold read_temp_type_cb, return_if.
    destruct (negb (status =? 0)); cbn [state_after];
      [intros [= <-]; apply Hkeep; auto|].
    destruct (dec_read_resp pdu len TEMPERATURE_TYPE_SIZE) as [vlen value_].
    destruct (vlen <? 0); cbn [state_after];
      [intros [= <-]; apply Hkeep; auto|].
    destruct (negb (vlen =? 1)); cbn [state_after]; intros [= <-];
      apply Hkeep; auto; repeat split.
  - (* interval read *)
    rewrite has_characteristic_existsb in Ep.
    unfold read_interval_cb, return_if.
    destruct (negb (status =? 0)); cbn [state_after];
      [intros [= <-]; apply Hkeep; auto|].
    destruct (dec_read_resp pdu len MEASUREMENT_INTERVAL_SIZE) as [vlen value_].
    destruct (vlen <? 0); cbn [state_after];
      [intros [= <-]; apply Hkeep; auto|].
    destruct (vlen <? 2); cbn [state_after];
      [intros [= <-]; apply Hkeep; auto|].
    destruct (change_property_interval_fields t (att_get_u16 value_ 0)) as (Hs & _).
    destruct (change_property t "Interval" (att_get_u16 value_ 0)) as [t1 e1].
    intros [= <-]. apply Hkeep; auto.
  - (* valid range, not applied *)
    destruct (valid_range_desc_cb status pdu len t) as [|why|[t1 e1]];
      cbn [state_after]; try discriminate.
    intros [= <-]. apply Hkeep; auto.
  - (* interval written *)
    rewrite has_characteristic_existsb in Ep.
    unfold write_interval_cb, return_if.
    destruct (negb (status =? 0)); cbn [state_after];
      [intros [= <-]; apply Hkeep; auto|].
    destruct (negb (dec_write_resp pdu len)); cbn [state_after];
      [intros [= <-]; apply Hkeep; auto|].
    destruct (change_property_interval_fields t value) as (Hs & _).
    destruct (change_property t "Interval" value) as [t1 e1].
    intros [= <-]. apply Hkeep; auto.
  - (* indication *)
    destruct (ind_handler pdu len ta t) as [|why|[t1 e1]] eqn:Eh;
      cbn [state_after]; try discriminate; intros [= <-].
    + apply Hkeep; auto.
    + destruct (ind_handler_fields _ _ _ _ _ _ Eh) as (Hs & Hi).
      apply Hkeep; auto.
  - (* notification *)
    destruct (notif_handler pdu len ta t) as [|why|[t1 e1]] eqn:Eh;
      cbn [state_after]; try discriminate; intros [= <-].
    + apply Hkeep; auto.
    + apply notif_handler_state in Eh as ->. apply Hkeep; auto.
  - (* SetProperty *)
    pose proof (set_property_state msg t) as H.
    destruct (set_property msg t) as [[t1 r] e1]. cbn in H. subst t1.
    intros [= <-]. apply Hkeep; auto.
Qed.

Lemma no_range_run_inv t : no_range_run t -> no_range_inv t.
Proof.
  intros (device & tattr_range & attio & l & Hrun).
  assert (H0 : no_range_inv (new_thermometer device tattr_range attio)).
  { repeat split. cbn. discriminate. }
  revert Hrun H0. generalize (new_thermometer device tattr_range attio).
  induction l as [|[ta e] l IH]; intros t0 Hrun H0; cbn in Hrun.
  - now injection Hrun as <-.
  - destruct (no_range_step ta e t0) as [t1|] eqn:Es; [|discriminate].
    apply (IH t1 Hrun). eapply no_range_step_inv; eauto.
Qed.

(** C10, as the code has it. A thermometer is created with minimum and
    maximum 0, and only a valid range read from the Valid Range descriptor
    changes them. So for a thermometer whose interval was established and
    to which no valid range was ever applied, the cached range is still
    [0, 0]: while it is connected, write_attr_interval (and SetProperty
    through it) answers InvalidArguments for every value greater than 0,
    and 0 is written to the Measurement Interval characteristic; while it
    is not connected the answer is NotConnected whatever the value; in
    either case 0 is the only value for which a write is ever issued. *)
Theorem interval_without_valid_range t :
  no_range_run t -> has_interval t = true ->
  t_min t = 0 /\ t_max t = 0
  /\ (attrib t <> None ->
      forall value, 0 < value ->
        write_attr_interval t value = (t, btd_error_invalid_args, []))
  /\ (attrib t <> None ->
      forall value endpoint, 0 < value ->
        set_property
          {| sender := endpoint;
             args := [DBUS_TYPE_STRING "Interval";
                      DBUS_TYPE_VARIANT (DBUS_TYPE_UINT16 value)] |} t
        = (t, btd_error_invalid_args, []))
  /\ (attrib t = None ->
      forall value,
        write_attr_interval t value = (t, btd_error_not_connected, []))
  /\ (forall value,
        0 <= value -> snd (write_attr_interval t value) <> [] -> value = 0)
  /\ (attrib t <> None ->
      exists ch,
        get_characteristic t MEASUREMENT_INTERVAL_UUID = Some ch
        /\ write_attr_interval t 0
           = (t, method_return,
              [gatt_write_char (attrib t) (value_handle (attr ch))
                 (att_put_u16 0) (cb_write_interval 0)])).
Proof.
  intros Hrun Hint.
  destruct (no_range_run_inv t Hrun) as (Hmin & Hmax & Hch).
  specialize (Hch Hint). rewrite <- has_characteristic_existsb in Hch.
  unfold has_characteristic in Hch.
  destruct (get_characteristic t MEASUREMENT_INTERVAL_UUID) as [ch|] eqn:Ech;
    [clear Hch | discriminate].
  assert (Hbad : forall value, 0 < value ->
             (value <? t_min t) || (t_max t <? value) = true).
  { intros value Hv. rewrite Hmax. apply orb_true_iff. right.
    now apply Z.ltb_lt. }
  split; [exact Hmin|]. split; [exact Hmax|].
  unfold set_property, write_attr_interval.
  cbn [args streq String.eqb Ascii.eqb Bool.eqb andb negb].
  rewrite Ech, Hint. cbn [negb].
  repeat split.
  - intros Ha value Hv. destruct (attrib t); [|contradiction].
    now rewrite (Hbad value Hv).
  - intros Ha value endpoint Hv. destruct (attrib t); [|contradiction].
    now rewrite (Hbad value Hv).
  - now intros ->.
  - intros value Hv. destruct (attrib t); [|cbn; contradiction].
    destruct (Z.eq_dec value 0) as [E|E]; [easy|].
    rewrite (Hbad value ltac:(lia)). cbn. contradiction.
  - intros Ha. exists ch. split; [reflexivity|].
    destruct (attrib t); [|contradiction].
    rewrite Hmin, Hmax. reflexivity.
Qed.

End Properties.

(** ** The properties on the sample data *)

Example value_field_decoding_witness :
  exists m,
    proc_measurement (ext := wire_externals) sample_adapter sample_thermometer
      sample_indication_neg 8 true
    = Next (m, recv_measurement sample_adapter sample_thermometer m)
    /\ m_mant m = -1 /\ m_exp m = 2.
Proof.
  assert (Hp : pdu_of_len sample_indication_neg 8) by (split; [reflexivity | lia]).
  destruct (value_field_decoding (ext := wire_externals) sample_adapter
              sample_thermometer sample_indication_neg 8 true Hp ltac:(lia))
    as (_ & _ & _ & _ & _ & H & _).
  exact (H eq_refl).
Defined.

Example proc_measurement_truncated_witness :
  proc_measurement (ext := wire_externals) sample_adapter sample_thermometer
    [x1d; x12; x00] 3 true
  = Return "Mandatory flags are not provided".
Proof.
  assert (Hp : pdu_of_len [x1d; x12; x00] 3) by (split; [reflexivity | lia]).
  destruct (proc_measurement_truncated (ext := wire_externals) sample_adapter
              sample_thermometer [x1d; x12; x00] 3 true Hp)
    as (_ & _ & _ & H).
  destruct (H ltac:(lia)) as (_ & H1 & _).
  apply H1. lia.
Defined.

Example intermediate_watchers_are_final_witness :
  In {| w_id := 7; srv := ":1.42"; path := "/test/watcher" |}
     (fwatchers
        (run_ops [op_register_watcher 7 sample_msg;
                  op_enable_intermediate sample_msg]
           (new_thermometer_adapter 0))).
Proof.
  apply intermediate_watchers_are_final. simpl. left. reflexivity.
Defined.



Example ind_handler_confirmation_witness :
  exists t' e,
    ind_handler (ext := wire_externals) sample_indication 8 sample_adapter
      sample_thermometer
    = Next (t', e ++ [g_attrib_send sample_attrib 1]).
Proof.
  assert (Hp : pdu_of_len sample_indication 8) by (split; [reflexivity | lia]).
  destruct (ind_handler_confirmation (ext := wire_externals) sample_indication 8
              sample_adapter sample_thermometer Hp) as (_ & _ & H).
  destruct (H sample_measurement_char sample_attrib ltac:(lia) eq_refl eq_refl
              eq_refl) as (t' & e & He & _).
  exists t', e. exact He.
Defined.

(** An indication for a handle (0x30) that is none of the thermometer: the
    handler returns at once, nothing is sent back. *)
Example indication_for_unknown_handle :
  pdu_of_len [x1d; x30; x00; x00; x6c; x01; x00; xff] 8
  /\ attrib sample_thermometer = Some sample_attrib
  /\ ind_handler (ext := wire_externals)
       [x1d; x30; x00; x00; x6c; x01; x00; xff] 8 sample_adapter
       sample_thermometer
     = Return "Unexpected handle".
Proof.
  split; [split; [reflexivity | lia] | split; reflexivity].
Qed.

Example watcher_errors_witness :
  register_watcher 9 sample_msg sample_adapter
  = (sample_adapter, btd_error_already_exists, []).
Proof.
  destruct (watcher_errors sample_adapter sample_msg "/test/watcher" eq_refl)
    as (H & _).
  apply H. exists sample_watcher. repeat split. now left.
Defined.

Example write_attr_interval_errors_witness :
  write_attr_interval (set_min (set_max sample_thermometer 10) 5) 11
  = (set_min (set_max sample_thermometer 10) 5, btd_error_invalid_args, []).
Proof.
  destruct (write_attr_interval_errors
              (set_min (set_max sample_thermometer 10) 5) 11)
    as (_ & _ & H & _).
  apply H; [discriminate | discriminate | right; reflexivity].
Defined.

(** The response 0b 05 00 0a 00, that is min = 5 and max = 10. *)
Example valid_range_desc_cb_applies_witness :
  valid_range_desc_cb (ext := wire_externals) 0 [x0b; x05; x00; x0a; x00] 5
    sample_thermometer
  = Next (set_min (set_max sample_thermometer 10) 5,
          [emit_property_changed (dev sample_thermometer) THERMOMETER_INTERFACE
             "Maximum" 10;
           emit_property_changed (dev sample_thermometer) THERMOMETER_INTERFACE
             "Minimum" 5]).
Proof.
  destruct (valid_range_desc_cb_applies (ext := wire_externals) 0
              [x0b; x05; x00; x0a; x00] 5 sample_thermometer)
    as (_ & _ & _ & H).
  apply H; [reflexivity | discriminate | discriminate | discriminate].
Defined.

Example change_property_idempotent_witness :
  change_property (set_interval sample_thermometer 30) "Interval" 30
  = (set_interval sample_thermometer 30, []).
Proof.
  destruct (change_property_idempotent (set_interval sample_thermometer 30)
              "Interval" 30) as (_ & H & _).
  apply H; reflexivity.
Defined.

Example interval_without_valid_range_witness :
  exists t,
    no_range_steps (ext := wire_externals) (firstn 3 sample_history) sample_new
    = Some t
    /\ write_attr_interval t 5 = (t, btd_error_invalid_args, []).
Proof.
  eexists. split; [vm_compute; reflexivity|].
  match goal with
  | |- write_attr_interval ?t _ = _ =>
    destruct (interval_without_valid_range (ext := wire_externals) t)
      as (_ & _ & H & _)
  end.
  - exists "/org/bluez/hci0/dev_00_11_22_33_44_55",
      {| range_start := 0x10; range_end := 0x20 |}, 1, (firstn 3 sample_history).
    vm_compute. reflexivity.
  - reflexivity.
  - apply H; [discriminate | lia].
Defined.

(** The thermometer of [sample_history]: its interval was read, no valid
    range was applied, and it is disconnected; setting the interval to 5
    is answered NotConnected. *)
Example disconnected_interval_not_connected :
  exists t,
    no_range_run (ext := wire_externals) t
    /\ has_interval t = true
    /\ write_attr_interval t 5 = (t, btd_error_not_connected, []).
Proof.
  eexists. split; [|split].
  - exists "/org/bluez/hci0/dev_00_11_22_33_44_55",
      {| range_start := 0x10; range_end := 0x20 |}, 1, sample_history.
    vm_compute. reflexivity.
  - reflexivity.
  - reflexivity.
Qed.
(** * Further properties *)

(** ** The decoder *)

Section DecoderMore.

Context {ext : Externals}.

(** X1. temptype2str gives a label exactly for the codes 1 to 9; the
    label is never the reserved one, and two codes with a label have
    different labels. *)
Theorem temptype2str_labels (value value' : Z) :
  (1 <= value <= 9 ->
   exists s, temptype2str value = Some s /\ s <> "<reserved>" /\ s <> EmptyString)
  /\ (value < 1 \/ 9 < value -> temptype2str value = None)
  /\ (temptype2str value <> None ->
      temptype2str value = temptype2str value' -> value = value').
Proof.
  assert (Hin : forall v, 1 <= v <= 9 ->
            v = 1 \/ v = 2 \/ v = 3 \/ v = 4 \/ v = 5 \/ v = 6 \/ v = 7
            \/ v = 8 \/ v = 9) by (intros; lia).
  assert (Hout : forall v, v < 1 \/ 9 < v -> temptype2str v = None).
  { intros v Hv. unfold temptype2str.
    change (Z.of_nat (List.length temp_type)) with 10.
    destruct (Z.ltb_spec 0 v); [|reflexivity].
    destruct (Z.ltb_spec v 10); [lia | reflexivity]. }
  assert (Hdom : forall v, temptype2str v <> None -> 1 <= v <= 9).
  { intros v Hv. destruct (Z_le_gt_dec 1 v); [|exfalso; apply Hv, Hout; lia].
    destruct (Z_le_gt_dec v 9); [lia | exfalso; apply Hv, Hout; lia]. }
  split; [|split].
  - intros Hv.
    destruct (Hin value Hv) as [->|[->|[->|[->|[->|[->|[->|[->| ->]]]]]]]];
      eexists; (split; [reflexivity | split; discriminate]).
  - apply Hout.
  - intros Hsome Heq.
    assert (Hsome' : temptype2str value' <> None) by (now rewrite <- Heq).
    pose proof (Hin value (Hdom value Hsome)) as Hv.
    pose proof (Hin value' (Hdom value' Hsome')) as Hv'.
    destruct Hv as [->|[->|[->|[->|[->|[->|[->|[->| ->]]]]]]]];
      destruct Hv' as [->|[->|[->|[->|[->|[->|[->|[->| ->]]]]]]]];
      first [reflexivity | discriminate Heq].
Qed.

Lemma proc_measurement_complete ta t pdu len final :
  pdu_of_len pdu len -> truncated pdu len = false ->
  proc_measurement ta t pdu len final
  = Next (decoded_measurement t pdu final,
          recv_measurement ta t (decoded_measurement t pdu final)).
Proof.
  intros Hp Htr. pose proof Hp as [Hlen Hmax].
  unfold truncated in Htr.
  apply orb_false_iff in Htr as [Htr Hty].
  apply orb_false_iff in Htr as [Htr Hts].
  apply orb_false_iff in Htr as [H3 H4].
  apply Z.ltb_ge in H3, H4.
  unfold proc_measurement, decoded_measurement, return_if.
  rewrite (u16_small (len - 3)) by lia.
  destruct (Z.ltb_spec (len - 3) 1) as [|_]; [lia|].
  rewrite (access_ok pdu len 3 1 Hp) by lia. cbn [bind].
  rewrite (u16_small (len - 3 - 1)) by lia.
  destruct (Z.ltb_spec (len - 3 - 1) 4) as [|_]; [lia|].
  rewrite (access_ok pdu len 4 4 Hp) by lia. cbn [bind].
  destruct (measurement_value (att_get_u32 pdu 4)) as [mant exp].
  rewrite (u16_small (len - 3 - 1 - 4)) by lia.
  replace (len - 3 - 1 - 4) with (len - 8) by lia.
  change (4 + 4)%nat with 8%nat. cbn [fst snd].
  destruct (Z.land (att_get_u8 pdu 3) TEMP_TIME_STAMP =? 0) eqn:Ets;
    cbn [negb andb bind] in *.
  - destruct (Z.land (att_get_u8 pdu 3) TEMP_TYPE =? 0) eqn:Ety;
      cbn [negb andb bind] in *; [reflexivity|].
    apply Z.ltb_ge in Hty.
    destruct (Z.ltb_spec (len - 8) 1); [lia|].
    rewrite (access_ok pdu len 8 1 Hp) by lia. reflexivity.
  - apply Z.ltb_ge in Hts.
    destruct (Z.ltb_spec (len - 8) 7); [lia|].
    rewrite (access_ok pdu len 8 7 Hp) by lia. cbn [bind].
    rewrite (u16_small (len - 8 - 7)) by lia.
    destruct (Z.land (att_get_u8 pdu 3) TEMP_TYPE =? 0) eqn:Ety;
      cbn [negb andb bind] in *; [reflexivity|].
    apply Z.ltb_ge in Hty.
    destruct (Z.ltb_spec (len - 8 - 7) 1); [lia|].
    rewrite (access_ok pdu len (8 + 7) 1 Hp) by lia. reflexivity.
Qed.

Lemma flag_bit (x n : Z) :
  0 <= n -> (Z.land x (2 ^ n) =? 0) = negb (Z.testbit x n).
Proof.
  intros Hn. rewrite land_pow2 by assumption.
  pose proof (Z.pow_pos_nonneg 2 n ltac:(lia) Hn).
  destruct (Z.testbit x n); cbn [negb]; [apply Z.eqb_neq; lia | reflexivity].
Qed.

(** X2. What a complete payload decodes to, field by field: the unit is
    fahrenheit exactly when bit 0 of the flags is set; a time is carried
    exactly when bit 1 is set; with bit 2 set the type is the label of the
    type byte of the packet (the byte after the time stamp, if there is
    one), and no label at all when that code is reserved, even if the
    thermometer has a type of its own; without bit 2 it is the label of
    the type read from the Temperature Type characteristic, if one was
    read. *)
Theorem proc_measurement_fields ta t pdu len final :
  pdu_of_len pdu len -> truncated pdu len = false ->
  let flags := att_get_u8 pdu 3 in
  exists m,
    proc_measurement ta t pdu len final = Next (m, recv_measurement ta t m)
    /\ m_unit m = (if Z.testbit flags 0 then "fahrenheit" else "celsius")
    /\ m_suptime m = Z.testbit flags 1
    /\ (Z.testbit flags 1 = false -> m_time m = 0)
    /\ m_type m
       = (if Z.testbit flags 2 then
            temptype2str (att_get_u8 pdu (if Z.testbit flags 1 then 15 else 8))
          else if has_type t then temptype2str (t_type t) else None)
    /\ m_value m = (if final then "final" else "intermediate").
Proof.
  intros Hp Htr flags.
  exists (decoded_measurement t pdu final).
  split; [now apply proc_measurement_complete|].
  unfold decoded_measurement. fold flags. cbn [m_unit m_suptime m_time m_type m_value].
  change TEMP_UNITS with (2 ^ 0). change TEMP_TIME_STAMP with (2 ^ 1).
  change TEMP_TYPE with (2 ^ 2).
  rewrite !flag_bit by lia. rewrite negb_involutive.
  destruct (Z.testbit flags 0), (Z.testbit flags 1), (Z.testbit flags 2);
    cbn [negb]; repeat split; try reflexivity; discriminate.
Qed.

Lemma att_get_u8_app (pdu extra : list byte) (i : nat) :
  (i < List.length pdu)%nat -> att_get_u8 (pdu ++ extra) i = att_get_u8 pdu i.
Proof.
  intros H. unfold att_get_u8. now rewrite app_nth1.
Qed.

(** X3. Bytes after the last field are ignored: a complete payload with
    anything appended gives the same measurement and the same calls. *)
Theorem proc_measurement_trailing_bytes ta t pdu len final (extra : list byte) :
  pdu_of_len pdu len -> truncated pdu len = false ->
  len + Z.of_nat (List.length extra) <= 65535 ->
  proc_measurement ta t (pdu ++ extra) (len + Z.of_nat (List.length extra)) final
  = proc_measurement ta t pdu len final.
Proof.
  intros Hp Htr Hmax. pose proof Hp as [Hlen _].
  assert (Hp' : pdu_of_len (pdu ++ extra) (len + Z.of_nat (List.length extra))).
  { split; [|exact Hmax]. rewrite length_app. lia. }
  assert (Hget : forall i, Z.of_nat i < len ->
             att_get_u8 (pdu ++ extra) i = att_get_u8 pdu i).
  { intros i Hi. apply att_get_u8_app. lia. }
  pose proof Htr as Htr0. unfold truncated in Htr.
  apply orb_false_iff in Htr as [Htr Hty].
  apply orb_false_iff in Htr as [Htr Hts].
  apply orb_false_iff in Htr as [H3 H4].
  apply Z.ltb_ge in H3, H4.
  assert (Htr' : truncated (pdu ++ extra) (len + Z.of_nat (List.length extra))
                 = false).
  { unfold truncated. rewrite (Hget 3%nat) by lia.
    destruct (negb (Z.land (att_get_u8 pdu 3) TEMP_TIME_STAMP =? 0));
      destruct (negb (Z.land (att_get_u8 pdu 3) TEMP_TYPE =? 0));
      cbn [andb orb] in *;
      repeat match goal with
             | H : (_ <? _) = false |- _ => apply Z.ltb_ge in H
             end;
      repeat (apply orb_false_iff; split); try reflexivity;
      apply Z.ltb_ge; lia. }
  rewrite (proc_measurement_complete ta t _ _ final Hp' Htr').
  rewrite (proc_measurement_complete ta t _ _ final Hp Htr0).
  assert (E : decoded_measurement t (pdu ++ extra) final
              = decoded_measurement t pdu final).
  { unfold decoded_measurement, att_get_u32, att_get_u16.
    rewrite (Hget 3%nat), (Hget 4%nat), (Hget (4 + 1)%nat), (Hget (4 + 2)%nat),
      (Hget (4 + 3)%nat) by lia.
    destruct (Z.land (att_get_u8 pdu 3) TEMP_TIME_STAMP =? 0) eqn:Ets;
      destruct (Z.land (att_get_u8 pdu 3) TEMP_TYPE =? 0) eqn:Ety;
      cbn [negb andb] in *;
      repeat match goal with
             | H : (_ <? _) = false |- _ => apply Z.ltb_ge in H
             end.
    - reflexivity.
    - rewrite (Hget 8%nat) by lia. reflexivity.
    - rewrite (Hget 8%nat), (Hget (8 + 1)%nat), (Hget 10%nat), (Hget 11%nat),
        (Hget 12%nat), (Hget 13%nat), (Hget 14%nat) by lia. reflexivity.
    - rewrite (Hget 8%nat), (Hget (8 + 1)%nat), (Hget 10%nat), (Hget 11%nat),
        (Hget 12%nat), (Hget 13%nat), (Hget 14%nat), (Hget 15%nat) by lia.
      reflexivity. }
  now rewrite E.
Qed.

Lemma truncated_false_len pdu len : truncated pdu len = false -> 8 <= len.
Proof.
  unfold truncated. intros H.
  apply orb_false_iff in H as [H _]. apply orb_false_iff in H as [H _].
  apply orb_false_iff in H as [_ H]. apply Z.ltb_ge in H. lia.
Qed.

(** X4. A complete Temperature Measurement indication on a connected
    thermometer: the thermometer is left as it was, every final watcher
    of the adapter is sent the measurement once, in the order of the list,
    no intermediate watcher is, and the confirmation follows. *)
Theorem final_indication_delivered pdu len ta t ch a :
  pdu_of_len pdu len -> truncated pdu len = false ->
  find (fun ch => cmp_char_val_handle ch (att_get_u16 pdu 1) =? 0) (chars t)
  = Some ch ->
  uuid (attr ch) = TEMPERATURE_MEASUREMENT_UUID ->
  attrib t = Some a ->
  0 < u16 (enc_confirmation (ga_buflen a)) ->
  ind_handler pdu len ta t
  = Next (t,
          map (fun w =>
                 MeasurementReceived (srv w) (path w) (dev t)
                   (decoded_measurement t pdu true))
            (fwatchers ta)
          ++ [g_attrib_send a (u16 (enc_confirmation (ga_buflen a)))]).
Proof.
  intros Hp Htr Hfind Hu Ha Holen.
  pose proof (truncated_false_len pdu len Htr) as H8.
  unfold ind_handler, return_if.
  destruct (Z.ltb_spec len 3); [lia|].
  rewrite (access_ok pdu len 1 2 Hp) by lia. cbn [bind].
  rewrite Hfind, Hu. unfold streq at 1. rewrite String.eqb_refl.
  rewrite (proc_measurement_complete ta t pdu len true Hp Htr).
  cbn [calls_of bind]. rewrite Ha.
  apply Z.ltb_lt in Holen. rewrite Holen.
  reflexivity.
Qed.

(** X5. The notification handler never reads outside the PDU, never
    changes the thermometer and never sends a confirmation; it calls the
    intermediate watchers, each once, for a complete notification of the
    Intermediate Temperature characteristic, and nobody otherwise. *)
Theorem notif_handler_delivery pdu len ta t :
  pdu_of_len pdu len ->
  notif_handler pdu len ta t <> Fault
  /\ (forall t' e,
        notif_handler pdu len ta t = Next (t', e) ->
        t' = t
        /\ (e = []
            \/ e = map (update_watcher t (decoded_measurement t pdu false))
                     (iwatchers ta)))
  /\ (forall ch,
        truncated pdu len = false ->
        find (fun ch => cmp_char_val_handle ch (att_get_u16 pdu 1) =? 0) (chars t)
        = Some ch ->
        uuid (attr ch) = INTERMEDIATE_TEMPERATURE_UUID ->
        notif_handler pdu len ta t
        = Next (t, map (update_watcher t (decoded_measurement t pdu false))
                     (iwatchers ta)))
  /\ (forall ch,
        3 <= len ->
        find (fun ch => cmp_char_val_handle ch (att_get_u16 pdu 1) =? 0) (chars t)
        = Some ch ->
        uuid (attr ch) <> INTERMEDIATE_TEMPERATURE_UUID ->
        notif_handler pdu len ta t = Next (t, [])).
Proof.
  intros Hp.
  assert (Hproc : 3 <= len ->
            calls_of (proc_measurement ta t pdu len false) = Next []
            \/ (truncated pdu len = false
                /\ calls_of (proc_measurement ta t pdu len false)
                   = Next (map (update_watcher t (decoded_measurement t pdu false))
                             (iwatchers ta)))).
  { intros H3. destruct (truncated pdu len) eqn:Htr.
    - destruct (proc_measurement_outcome ta t pdu len false Hp H3)
        as [[_ [why ->]] | [Hf _]]; [now left | congruence].
    - right. split; [reflexivity|].
      rewrite (proc_measurement_complete ta t pdu len false Hp Htr).
      reflexivity. }
  unfold notif_handler, return_if.
  destruct (Z.ltb_spec len 3) as [Hlt|H3].
  { split; [discriminate|]. split; [discriminate|]. split.
    - intros ch Htr. apply truncated_false_len in Htr. lia.
    - intros; lia. }
  rewrite (access_ok pdu len 1 2 Hp) by lia. cbn [bind].
  destruct (find _ (chars t)) as [ch|].
  2:{ split; [discriminate|]. split; [discriminate|].
      split; discriminate. }
  unfold streq.
  destruct (String.eqb_spec (uuid (attr ch)) INTERMEDIATE_TEMPERATURE_UUID)
    as [Hu|Hu].
  - destruct (Hproc H3) as [E|[Htr E]]; rewrite E; cbn [bind];
      (split; [discriminate|]); (split; [intros t' e [= <- <-]; auto|]).
    + split.
      * intros ch' Htr [= <-] _.
        rewrite (proc_measurement_complete ta t pdu len false Hp Htr) in E.
        cbn [calls_of] in E. now injection E as <-.
      * intros ch' _ [= <-] Hne. contradiction.
    + split.
      * reflexivity.
      * intros ch' _ [= <-] Hne. contradiction.
  - split; [discriminate|]. split; [intros t' e [= <- <-]; auto|].
    split.
    + intros ch' _ [= <-] Hu'. contradiction.
    + reflexivity.
Qed.

(** X6. An indication of the Measurement Interval characteristic on a
    connected thermometer: with at least 5 bytes the interval becomes the
    little-endian 16-bit value of bytes 3 and 4 and is established,
    PropertyChanged is emitted if that is a change, and the confirmation
    follows; with fewer bytes nothing changes and the indication is
    confirmed all the same. *)
Theorem interval_indication pdu len ta t ch a :
  pdu_of_len pdu len -> 3 <= len ->
  find (fun ch => cmp_char_val_handle ch (att_get_u16 pdu 1) =? 0) (chars t)
  = Some ch ->
  uuid (attr ch) = MEASUREMENT_INTERVAL_UUID ->
  attrib t = Some a ->
  0 < u16 (enc_confirmation (ga_buflen a)) ->
  let confirm := g_attrib_send a (u16 (enc_confirmation (ga_buflen a))) in
  let value := byte_val (nth 3 pdu x00) + 2 ^ 8 * byte_val (nth 4 pdu x00) in
  (len < 5 -> ind_handler pdu len ta t = Next (t, [confirm]))
  /\ (5 <= len ->
      exists t',
        ind_handler pdu len ta t
        = Next (t',
                (if has_interval t && (interval t =? value) then []
                 else [emit_property_changed (dev t) THERMOMETER_INTERFACE
                         "Interval" value])
                ++ [confirm])
        /\ has_interval t' = true /\ interval t' = value
        /\ t_min t' = t_min t /\ t_max t' = t_max t /\ chars t' = chars t).
Proof.
  intros Hp H3 Hfind Hu Ha Holen confirm value.
  apply Z.ltb_lt in Holen.
  unfold ind_handler, return_if.
  destruct (Z.ltb_spec len 3); [lia|].
  rewrite (access_ok pdu len 1 2 Hp) by lia. cbn [bind].
  rewrite Hfind, Hu.
  change (streq MEASUREMENT_INTERVAL_UUID TEMPERATURE_MEASUREMENT_UUID) with false.
  change (streq MEASUREMENT_INTERVAL_UUID MEASUREMENT_INTERVAL_UUID) with true.
  cbv iota. unfold proc_measurement_interval, return_if.
  split.
  - intros Hlt. destruct (Z.ltb_spec len 5); [|lia].
    cbn [after_call bind]. rewrite Ha, Holen. reflexivity.
  - intros H5. destruct (Z.ltb_spec len 5); [lia|].
    rewrite (access_ok pdu len 3 2 Hp) by lia. cbn [bind after_call].
    change (att_get_u16 pdu 3) with value.
    unfold change_property, streq. cbn [String.eqb Ascii.eqb Bool.eqb andb].
    destruct (has_interval t && (interval t =? value)) eqn:E; cbn [bind].
    + rewrite Ha, Holen. exists t. split; [reflexivity|].
      apply andb_prop in E as [Hi Hv]. apply Z.eqb_eq in Hv. auto.
    + cbn [attrib set_interval dev]. rewrite Ha, Holen.
      eexists. split; [reflexivity|]. cbn. auto.
Qed.

End DecoderMore.

(** ** Properties, the interval and the type *)

Section PropertiesMore.

Context {ext : Externals}.

Implicit Types (t : thermometer) (v value : Z).

(** X7. What GetProperties shows after a property was applied:
    Intermediate is always shown, with the value applied; Interval is
    shown with the value applied, since applying it establishes the
    interval; Maximum and Minimum are shown with the value applied only
    if an interval is established, and are not part of the reply
    otherwise, although their PropertyChanged was emitted. *)
Theorem get_properties_after_change t v :
  dict_get "Intermediate"
    (get_properties (fst (change_property t "Intermediate" v)))
  = Some (DBUS_TYPE_BOOLEAN (negb (v =? 0)))
  /\ dict_get "Interval" (get_properties (fst (change_property t "Interval" v)))
     = Some (DBUS_TYPE_UINT16 v)
  /\ dict_get "Maximum" (get_properties (fst (change_property t "Maximum" v)))
     = (if has_interval t then Some (DBUS_TYPE_UINT16 v) else None)
  /\ dict_get "Minimum" (get_properties (fst (change_property t "Minimum" v)))
     = (if has_interval t then Some (DBUS_TYPE_UINT16 v) else None)
  /\ (has_interval t = false -> t_max t <> v ->
      snd (change_property t "Maximum" v)
      = [emit_property_changed (dev t) THERMOMETER_INTERFACE "Maximum" v]
      /\ map fst (get_properties (fst (change_property t "Maximum" v)))
         = ["Intermediate"]).
Proof.
  unfold change_property, get_properties, streq.
  cbn [String.eqb Ascii.eqb Bool.eqb andb].
  split; [|split; [|split; [|split]]].
  - destruct (Z.eqb_spec (intermediate t) v) as [E|E]; cbn; [|reflexivity].
    now rewrite E.
  - destruct (has_interval t && (interval t =? v)) eqn:E; [|reflexivity].
    apply andb_prop in E as [Hi E]. apply Z.eqb_eq in E. cbn.
    now rewrite Hi, E.
  - destruct (Z.eqb_spec (t_max t) v) as [E|E]; cbn;
      destruct (has_interval t); cbn; congruence.
  - destruct (Z.eqb_spec (t_min t) v) as [E|E]; cbn;
      destruct (has_interval t); cbn; congruence.
  - intros Hi Hv. apply Z.eqb_neq in Hv. rewrite Hv. cbn. now rewrite Hi.
Qed.

(** X8. SetProperty never changes the thermometer. It answers with a
    method return exactly when it issues a write, and it issues a write
    only for the property Interval with a uint16 value inside the cached
    range, on a connected thermometer whose interval is established and
    whose Measurement Interval characteristic is known: then exactly one
    write, of that value, to the value handle of the characteristic. With
    no interval established, Interval is refused as NotAvailable whether
    the thermometer is connected or not. *)
Theorem set_property_gates (msg : DBusMessage) t :
  fst (fst (set_property msg t)) = t
  /\ (snd (fst (set_property msg t)) = method_return
      <-> snd (set_property msg t) <> [])
  /\ (snd (set_property msg t) <> [] ->
      exists value rest a ch,
        args msg
        = DBUS_TYPE_STRING "Interval"
          :: DBUS_TYPE_VARIANT (DBUS_TYPE_UINT16 value) :: rest
        /\ has_interval t = true
        /\ attrib t = Some a
        /\ get_characteristic t MEASUREMENT_INTERVAL_UUID = Some ch
        /\ t_min t <= value <= t_max t
        /\ snd (set_property msg t)
           = [gatt_write_char (Some a) (value_handle (attr ch))
                (att_put_u16 value) (cb_write_interval value)])
  /\ (forall rest,
        args msg = DBUS_TYPE_STRING "Interval" :: rest ->
        has_interval t = false ->
        set_property msg t = (t, btd_error_not_available, [])).
Proof.
  assert (Hw : forall value,
            fst (fst (write_attr_interval t value)) = t
            /\ (snd (fst (write_attr_interval t value)) = method_return
                <-> snd (write_attr_interval t value) <> [])
            /\ (snd (write_attr_interval t value) <> [] ->
                exists a ch,
                  attrib t = Some a
                  /\ get_characteristic t MEASUREMENT_INTERVAL_UUID = Some ch
                  /\ t_min t <= value <= t_max t
                  /\ snd (write_attr_interval t value)
                     = [gatt_write_char (Some a) (value_handle (attr ch))
                          (att_put_u16 value) (cb_write_interval value)])).
  { intros value. unfold write_attr_interval.
    assert (Herr : forall r, r <> method_return ->
              fst (fst (t, r, @nil event)) = t
              /\ (snd (fst (t, r, @nil event)) = method_return
                  <-> snd (t, r, @nil event) <> [])
              /\ (snd (t, r, @nil event) <> [] ->
                  exists a ch,
                    attrib t = Some a
                    /\ get_characteristic t MEASUREMENT_INTERVAL_UUID = Some ch
                    /\ t_min t <= value <= t_max t
                    /\ snd (t, r, @nil event)
                       = [gatt_write_char (Some a) (value_handle (attr ch))
                            (att_put_u16 value) (cb_write_interval value)])).
    { intros r Hr. cbn [fst snd]. split; [reflexivity|].
      split; [split; [contradiction | now intros []] | now intros []]. }
    destruct (attrib t) as [a|] eqn:Ea; [|apply Herr; discriminate].
    destruct (get_characteristic t MEASUREMENT_INTERVAL_UUID) as [ch|] eqn:Ec;
      [|apply Herr; discriminate].
    destruct (Z.ltb_spec value (t_min t)); cbn [orb];
      [apply Herr; discriminate|].
    destruct (Z.ltb_spec (t_max t) value); cbn [orb];
      [apply Herr; discriminate|].
    cbn [fst snd]. split; [reflexivity|].
    split; [split; [discriminate | reflexivity]|].
    intros _. exists a, ch. repeat split; auto; lia. }
  assert (Hcases :
            (exists value rest,
                args msg
                = DBUS_TYPE_STRING "Interval"
                  :: DBUS_TYPE_VARIANT (DBUS_TYPE_UINT16 value) :: rest
                /\ has_interval t = true
                /\ set_property msg t = write_attr_interval t value)
            \/ (exists r, r <> method_return /\ set_property msg t = (t, r, []))).
  { unfold set_property, streq.
    destruct (args msg) as [|arg rest];
      [right; eexists; split; [|reflexivity]; discriminate|].
    destruct arg as [property| | | |];
      try (right; eexists; split; [|reflexivity]; discriminate).
    destruct (String.eqb_spec "Interval" property) as [<-|Hne]; cbn [negb];
      [|right; eexists; split; [|reflexivity]; discriminate].
    destruct (has_interval t); cbn [negb];
      [|right; eexists; split; [|reflexivity]; discriminate].
    destruct rest as [|arg2 rest];
      [right; eexists; split; [|reflexivity]; discriminate|].
    destruct arg2 as [| | |inner|];
      try (right; eexists; split; [|reflexivity]; discriminate).
    destruct inner;
      try (right; eexists; split; [|reflexivity]; discriminate).
    left. eauto. }
  split; [|split; [|split]].
  - destruct Hcases as [(value & rest & _ & _ & ->) | (r & _ & ->)];
      [apply Hw | reflexivity].
  - destruct Hcases as [(value & rest & _ & _ & ->) | (r & Hr & ->)];
      [apply Hw|].
    cbn. split; [contradiction | now intros []].
  - destruct Hcases as [(value & rest & Ha & Hi & ->) | (r & Hr & ->)];
      [|now intros []].
    intros Hne. destruct (Hw value) as (_ & _ & H3).
    destruct (H3 Hne) as (a & ch & H). exists value, rest, a, ch. tauto.
  - intros rest Ha Hi. unfold set_property, streq. rewrite Ha, Hi. reflexivity.
Qed.

Lemma att_get_u16_range (buf : list byte) (p : nat) :
  0 <= att_get_u16 buf p <= 65535.
Proof.
  unfold att_get_u16, att_get_u8.
  pose proof (byte_val_range (nth p buf x00)).
  pose proof (byte_val_range (nth (p + 1) buf x00)). lia.
Qed.

Lemma valid_range_desc_cb_next status pdu len t t' e :
  valid_range_desc_cb status pdu len t = Next (t', e) ->
  exists min max,
    1 <= min /\ min <= max /\ max <= 65535
    /\ t' = set_min (set_max t max) min.
Proof.
  unfold valid_range_desc_cb, return_if.
  destruct (negb (status =? 0)); [discriminate|].
  destruct (dec_read_resp pdu len VALID_RANGE_DESC_SIZE) as [vlen value_].
  destruct (vlen <? 0); [discriminate|].
  destruct (vlen <? 4); [discriminate|].
  pose proof (att_get_u16_range value_ 0) as Hmin.
  pose proof (att_get_u16_range value_ 2) as Hmax.
  set (min := att_get_u16 value_ 0) in *. set (max := att_get_u16 value_ 2) in *.
  destruct (Z.eqb_spec min 0); [discriminate|].
  destruct (Z.ltb_spec max min); [discriminate|]. cbn [orb].
  unfold change_property, streq. cbn [String.eqb Ascii.eqb Bool.eqb andb].
  intros Hres. exists min, max. repeat split; try lia.
  destruct (Z.eqb_spec (t_max t) max) as [Emax|Emax].
  - destruct (Z.eqb_spec (t_min t) min) as [Emin|Emin];
      injection Hres as <- _; rewrite <- Emax.
    + rewrite <- Emin. destruct t; reflexivity.
    + destruct t; reflexivity.
  - cbn [t_min set_max] in Hres.
    destruct (Z.eqb_spec (t_min t) min) as [Emin|Emin];
      injection Hres as <- _; [|reflexivity].
    rewrite <- Emin. destruct t; reflexivity.
Qed.

(** X9. Once a range read from the Valid Range descriptor is applied, the
    cached range is a valid one (1 <= min <= max <= 65535), and on a
    connected thermometer with the Measurement Interval characteristic
    write_attr_interval accepts exactly the values of that range: 0 is
    refused from then on. *)
Theorem interval_range_after_valid_range status pdu len t t' e :
  valid_range_desc_cb status pdu len t = Next (t', e) ->
  attrib t <> None ->
  get_characteristic t MEASUREMENT_INTERVAL_UUID <> None ->
  1 <= t_min t' /\ t_min t' <= t_max t' /\ t_max t' <= 65535
  /\ (forall value,
        snd (fst (write_attr_interval t' value)) = method_return
        <-> t_min t' <= value <= t_max t')
  /\ (forall value,
        ~ t_min t' <= value <= t_max t' ->
        write_attr_interval t' value = (t', btd_error_invalid_args, []))
  /\ write_attr_interval t' 0 = (t', btd_error_invalid_args, []).
Proof.
  intros Hcb Ha Hc.
  destruct (valid_range_desc_cb_next _ _ _ _ _ _ Hcb)
    as (min & max & Hmin & Hle & Hmax & ->).
  cbn [t_min t_max set_min set_max].
  assert (Hrefuse : forall value,
            ~ min <= value <= max ->
            write_attr_interval (set_min (set_max t max) min) value
            = (set_min (set_max t max) min, btd_error_invalid_args, [])).
  { intros value Hv. unfold write_attr_interval, get_characteristic.
    cbn [attrib chars t_min t_max set_min set_max].
    destruct (attrib t); [|contradiction].
    fold (get_characteristic t MEASUREMENT_INTERVAL_UUID).
    destruct (get_characteristic t MEASUREMENT_INTERVAL_UUID); [|contradiction].
    destruct (Z.ltb_spec value min); [reflexivity|].
    destruct (Z.ltb_spec max value); [reflexivity | lia]. }
  split; [exact Hmin|]. split; [exact Hle|]. split; [exact Hmax|].
  split; [|split; [exact Hrefuse | apply Hrefuse; lia]].
  intros value. split.
  - intros Hr. destruct (Z_le_gt_dec min value) as [H1|H1];
      [destruct (Z_le_gt_dec value max) as [H2|H2]; [lia|]|];
      rewrite Hrefuse in Hr by lia; discriminate.
  - intros Hv. unfold write_attr_interval, get_characteristic.
    cbn [attrib chars t_min t_max set_min set_max].
    destruct (attrib t); [|contradiction].
    fold (get_characteristic t MEASUREMENT_INTERVAL_UUID).
    destruct (get_characteristic t MEASUREMENT_INTERVAL_UUID); [|contradiction].
    destruct (Z.ltb_spec value min); [lia|].
    destruct (Z.ltb_spec max value); [lia | reflexivity].
Qed.

(** X10. The type read from the Temperature Type characteristic: the
    response is taken when the read succeeded and decoded to exactly one
    byte, and then every later measurement whose flags carry no type is
    labelled with that byte (no label if the code is reserved); any other
    response leaves the thermometer as it was. Nothing is emitted either
    way. *)
Theorem temperature_type_read status pdu len t :
  let vlen := fst (dec_read_resp pdu len TEMPERATURE_TYPE_SIZE) in
  let value_ := snd (dec_read_resp pdu len TEMPERATURE_TYPE_SIZE) in
  (status <> 0 \/ vlen <> 1 ->
   exists why, read_temp_type_cb status pdu len t = Return why)
  /\ (status = 0 -> vlen = 1 ->
      exists t',
        read_temp_type_cb status pdu len t = Next (t', [])
        /\ has_type t' = true /\ t_type t' = att_get_u8 value_ 0
        /\ forall ta (m_pdu : list byte) m_len final,
             pdu_of_len m_pdu m_len -> truncated m_pdu m_len = false ->
             Z.testbit (att_get_u8 m_pdu 3) 2 = false ->
             exists m,
               proc_measurement ta t' m_pdu m_len final
               = Next (m, recv_measurement ta t' m)
               /\ m_type m = temptype2str (att_get_u8 value_ 0)).
Proof.
  intros vlen value_. subst vlen value_.
  unfold read_temp_type_cb, return_if.
  destruct (dec_read_resp pdu len TEMPERATURE_TYPE_SIZE) as [vlen value_].
  cbn [fst snd]. split.
  - intros H. destruct (Z.eqb_spec status 0) as [Hs|Hs]; cbn [negb]; [|eauto].
    destruct (vlen <? 0); [eauto|].
    destruct (Z.eqb_spec vlen 1); cbn [negb]; [|eauto].
    destruct H; contradiction.
  - intros -> ->. cbn [Z.eqb negb Z.ltb Z.compare].
    eexists. split; [reflexivity|]. split; [reflexivity|].
    split; [reflexivity|].
    intros ta m_pdu m_len final Hp Htr Hbit.
    exists (decoded_measurement (set_type t (att_get_u8 value_ 0)) m_pdu final).
    split; [now apply proc_measurement_complete|].
    unfold decoded_measurement. cbn [m_type has_type t_type set_type].
    change TEMP_TYPE with (2 ^ 2). rewrite flag_bit, Hbit by lia. reflexivity.
Qed.

(** X11. SetProperty accepted, then the response to its write: a
    successful write response makes the requested value the interval,
    inside the cached range, and GetProperties shows it; a failed write
    (an error status, or a response that does not decode) leaves the
    thermometer as it was. *)
Theorem set_interval_then_response (endpoint : string) t value
    (rest : list dbus_arg) (e : list event) :
  set_property
    {| sender := endpoint;
       args := DBUS_TYPE_STRING "Interval"
               :: DBUS_TYPE_VARIANT (DBUS_TYPE_UINT16 value) :: rest |} t
  = (t, method_return, e) ->
  e = [gatt_write_char (attrib t)
         (match get_characteristic t MEASUREMENT_INTERVAL_UUID with
          | Some ch => value_handle (attr ch)
          | None => 0
          end) (att_put_u16 value) (cb_write_interval value)]
  /\ (forall status pdu len,
        status <> 0 \/ dec_write_resp pdu len = false ->
        exists why, write_interval_cb status pdu len value t = Return why)
  /\ (forall pdu len,
        dec_write_resp pdu len = true ->
        exists t' e',
          write_interval_cb 0 pdu len value t = Next (t', e')
          /\ has_interval t' = true /\ interval t' = value
          /\ t_min t' <= interval t' <= t_max t'
          /\ dict_get "Interval" (get_properties t')
             = Some (DBUS_TYPE_UINT16 value)).
Proof.
  unfold set_property, streq, write_attr_interval.
  cbn [args String.eqb Ascii.eqb Bool.eqb andb negb].
  destruct (has_interval t) eqn:Hi; cbn [negb]; [|discriminate].
  destruct (attrib t) as [a|]; [|discriminate].
  destruct (get_characteristic t MEASUREMENT_INTERVAL_UUID) as [ch|];
    [|discriminate].
  destruct (Z.ltb_spec value (t_min t)); cbn [orb]; [discriminate|].
  destruct (Z.ltb_spec (t_max t) value); cbn [orb]; [discriminate|].
  intros [= <-]. split; [reflexivity|].
  unfold write_interval_cb, return_if. split.
  - intros status pdu len [Hs|Hd].
    + apply Z.eqb_neq in Hs. rewrite Hs. cbn [negb]. eauto.
    + rewrite Hd. destruct (negb (status =? 0)); cbn [negb]; eauto.
  - intros pdu len ->. cbn [Z.eqb negb].
    unfold change_property, streq. cbn [String.eqb Ascii.eqb Bool.eqb andb].
    rewrite Hi. cbn [andb].
    destruct (Z.eqb_spec (interval t) value) as [E|E].
    + exists t, []. split; [reflexivity|]. split; [exact Hi|].
      split; [exact E|]. split; [lia|].
      unfold get_properties. rewrite Hi, E. reflexivity.
    + eexists _, _. split; [reflexivity|]. cbn. split; [reflexivity|].
      split; [reflexivity|]. split; [lia | reflexivity].
Qed.

End PropertiesMore.

(** ** A thermometer over its whole life *)

Section HistoriesMore.

Context {ext : Externals}.

Implicit Types (t : thermometer) (v : Z).

Lemma set_intermediate_same t : set_intermediate t (intermediate t) = t.
Proof. destruct t; reflexivity. Qed.

Lemma change_property_interval_state t v :
  fst (change_property t "Interval" v) = t
  \/ fst (change_property t "Interval" v) = set_interval t v.
Proof.
  unfold change_property, streq. cbn [String.eqb Ascii.eqb Bool.eqb andb].
  destruct (has_interval t && (interval t =? v)); cbn; auto.
Qed.

Lemma process_thermometer_char_state ch t :
  fst (process_thermometer_char ch t)
  = set_intermediate t
      (if streq (uuid (attr ch)) INTERMEDIATE_TEMPERATURE_UUID then 1
       else intermediate t).
Proof.
  unfold process_thermometer_char.
  destruct (streq (uuid (attr ch)) INTERMEDIATE_TEMPERATURE_UUID).
  - unfold change_property, streq. cbn [String.eqb Ascii.eqb Bool.eqb andb].
    destruct (Z.eqb_spec (intermediate t) 1) as [E|E]; [|reflexivity].
    cbn. rewrite <- E. symmetry. apply set_intermediate_same.
  - rewrite set_intermediate_same.
    destruct (streq _ TEMPERATURE_TYPE_UUID); [reflexivity|].
    destruct (streq _ MEASUREMENT_INTERVAL_UUID); reflexivity.
Qed.

(** What a discovery leaves: one characteristic per entry, appended in
    order and without descriptors, and the Intermediate flag raised when
    one of them is the Intermediate Temperature characteristic. *)
Lemma configure_chars_state (l : list gatt_char) t :
  fst (configure_chars l t)
  = set_chars
      (set_intermediate t
         (if has_uuid INTERMEDIATE_TEMPERATURE_UUID (map new_characteristic l)
          then 1 else intermediate t))
      (chars t ++ map new_characteristic l).
Proof.
  revert t. induction l as [|c l IH]; intros t; cbn [configure_chars].
  - cbn. rewrite app_nil_r. destruct t; reflexivity.
  - pose proof (process_thermometer_char_state
                  {| attr := c; desc := [] |}
                  (set_chars t (chars t ++ [{| attr := c; desc := [] |}])))
      as Hp.
    destruct (process_thermometer_char _ _) as [t2 e1]. cbn [fst] in Hp.
    specialize (IH t2). destruct (configure_chars l t2) as [t3 e3].
    cbn [fst] in *. rewrite IH, Hp.
    cbn [map has_uuid existsb new_characteristic attr].
    fold (has_uuid INTERMEDIATE_TEMPERATURE_UUID (map new_characteristic l)).
    destruct (streq (uuid c) INTERMEDIATE_TEMPERATURE_UUID);
      destruct (has_uuid INTERMEDIATE_TEMPERATURE_UUID (map new_characteristic l));
      cbn; rewrite <- app_assoc; reflexivity.
Qed.

Lemma find_has_uuid (l : list characteristic) f ch u :
  find f l = Some ch -> uuid (attr ch) = u -> has_uuid u l = true.
Proof.
  intros Hf Hu. apply find_some in Hf as [Hin _].
  apply existsb_exists. exists ch. split; [exact Hin|].
  rewrite Hu. apply String.eqb_refl.
Qed.

Lemma ind_handler_state pdu len ta t t' e :
  ind_handler pdu len ta t = Next (t', e) -> changes t t'.
Proof.
  unfold ind_handler, return_if.
  destruct (len <? 3); [discriminate|].
  destruct (access pdu 1 2); cbn [bind]; try discriminate.
  destruct (find _ (chars t)) as [ch|] eqn:Ef; [|discriminate].
  assert (Hend : forall t1 (e1 : list event),
             changes t t1 ->
             match attrib t1 with
             | Some a =>
               if 0 <? u16 (enc_confirmation (ga_buflen a))
               then Next (t1, e1 ++ [g_attrib_send a
                                       (u16 (enc_confirmation (ga_buflen a)))])
               else Next (t1, e1)
             | None => Fault
             end = Next (t', e) -> changes t t').
  { intros t1 e1 Hc. destruct (attrib t1); [|discriminate].
    destruct (0 <? _); now intros [= <- _]. }
  destruct (streq (uuid (attr ch)) TEMPERATURE_MEASUREMENT_UUID).
  - destruct (proc_measurement ta t pdu len true) as [| |[m e0]];
      cbn [calls_of bind]; try discriminate; apply Hend; constructor.
  - destruct (String.eqb_spec (uuid (attr ch)) MEASUREMENT_INTERVAL_UUID)
      as [Hu|Hu]; unfold streq;
      [apply String.eqb_eq in Hu as Hu'; rewrite Hu'
      |apply String.eqb_neq in Hu as Hu'; rewrite Hu'].
    + unfold proc_measurement_interval, return_if.
      destruct (len <? 5); cbn [after_call bind]; [apply Hend; constructor|].
      destruct (access pdu 3 2) as [|why|[]]; cbn [bind after_call];
        [discriminate | apply Hend; constructor |].
      destruct (change_property_interval_state t (att_get_u16 pdu 3)) as [E|E];
        destruct (change_property t "Interval" (att_get_u16 pdu 3)) as [t2 e2];
        cbn [fst] in E; subst t2; cbn [bind]; apply Hend.
      * constructor.
      * constructor. eapply find_has_uuid; eauto.
    + cbn [bind]. apply Hend. constructor.
Qed.

(** Every event changes the thermometer in one of the ways of
    [changes]. *)
Lemma thermo_step_changes ta (e : thermo_event) t t' :
  thermo_step ta e t = Some t' -> changes t t'.
Proof.
  unfold thermo_step. destruct (pending e t) eqn:Ep; [|discriminate].
  destruct e as [a ind notif| |l status|i status pdu len|status pdu len
                 |status pdu len|status pdu len|status pdu len value
                 |pdu len|pdu len|msg]; cbn [fire pending] in *.
  - intros [= <-]. constructor.
  - intros [= <-]. constructor.
  - unfold configure_thermometer_cb, return_if.
    destruct (negb (status =? 0)); cbn [state_after].
    + intros [= <-]. constructor.
    + pose proof (configure_chars_state l t) as H.
      destruct (configure_chars l t) as [t1 e1]. cbn [fst] in H.
      intros [= <-]. rewrite H. constructor.
  - unfold discover_desc_cb, return_if.
    destruct (nth_error (chars t) i) as [ch|] eqn:En; [|discriminate].
    destruct (negb (status =? 0)); cbn [state_after];
      [intros [= <-]; constructor|].
    destruct (dec_find_info_resp pdu len) as [[format data]|];
      cbn [state_after]; intros [= <-]; [|constructor].
    now constructor.
  - unfold read_temp_type_cb, return_if.
    destruct (negb (status =? 0)); cbn [state_after];
      [intros [= <-]; constructor|].
    destruct (dec_read_resp pdu len TEMPERATURE_TYPE_SIZE) as [vlen value_].
    destruct (vlen <? 0); cbn [state_after]; [intros [= <-]; constructor|].
    destruct (negb (vlen =? 1)); cbn [state_after]; intros [= <-];
      constructor.
  - rewrite has_characteristic_existsb in Ep.
    unfold read_interval_cb, return_if.
    destruct (negb (status =? 0)); cbn [state_after];
      [intros [= <-]; constructor|].
    destruct (dec_read_resp pdu len MEASUREMENT_INTERVAL_SIZE) as [vlen value_].
    destruct (vlen <? 0); cbn [state_after]; [intros [= <-]; constructor|].
    destruct (vlen <? 2); cbn [state_after]; [intros [= <-]; constructor|].
    destruct (change_property_interval_state t (att_get_u16 value_ 0)) as [E|E];
      destruct (change_property t "Interval" (att_get_u16 value_ 0)) as [t1 e1];
      cbn [fst] in E; subst t1; intros [= <-]; now constructor.
  - destruct (valid_range_desc_cb status pdu len t) as [|why|[t1 e1]] eqn:Ev;
      cbn [state_after]; try discriminate; intros [= <-]; [constructor|].
    destruct (valid_range_desc_cb_next _ _ _ _ _ _ Ev)
      as (min & max & H1 & H2 & H3 & ->).
    now constructor.
  - rewrite has_characteristic_existsb in Ep.
    unfold write_interval_cb, return_if.
    destruct (negb (status =? 0)); cbn [state_after];
      [intros [= <-]; constructor|].
    destruct (negb (dec_write_resp pdu len)); cbn [state_after];
      [intros [= <-]; constructor|].
    destruct (change_property_interval_state t value) as [E|E];
      destruct (change_property t "Interval" value) as [t1 e1];
      cbn [fst] in E; subst t1; intros [= <-]; now constructor.
  - destruct (ind_handler pdu len ta t) as [|why|[t1 e1]] eqn:Eh;
      cbn [state_after]; try discriminate; intros [= <-]; [constructor|].
    eapply ind_handler_state, Eh.
  - destruct (notif_handler pdu len ta t) as [|why|[t1 e1]] eqn:Eh;
      cbn [state_after]; try discriminate; intros [= <-]; [constructor|].
    apply notif_handler_state in Eh as ->. constructor.
  - pose proof (set_property_state msg t) as H.
    destruct (set_property msg t) as [[t1 r] e1]. cbn in H. subst t1.
    intros [= <-]. constructor.
Qed.

Lemma has_uuid_replace_nth u (l : list characteristic) i ch added :
  nth_error l i = Some ch ->
  has_uuid u (replace_nth i l (append_desc ch added)) = has_uuid u l.
Proof.
  intros Hn. unfold has_uuid. now apply existsb_replace_nth with (x := ch).
Qed.

Lemma changes_inv t t' : changes t t' -> thermo_inv t -> thermo_inv t'.
Proof.
  intros Hc (Hrange & Hint & Himd & Hids).
  destruct Hc as [|a ind notif| |v Hmi|v|min max H1 H2 H3|i ch added Hn|l];
    unfold thermo_inv, range_ok in *;
    cbn [t_min t_max has_interval intermediate chars attrib attindid attnotid
         set_connection set_interval set_type set_min set_max set_chars
         set_intermediate].
  - auto.
  - split; [exact Hrange|]. split; [exact Hint|]. split; [exact Himd|].
    discriminate.
  - split; [exact Hrange|]. split; [exact Hint|]. split; [exact Himd|]. auto.
  - split; [exact Hrange|]. split; [auto|]. split; [exact Himd | exact Hids].
  - auto.
  - split; [right; lia|]. auto.
  - rewrite !(has_uuid_replace_nth _ _ _ _ _ Hn). auto.
  - unfold has_uuid in *. rewrite !existsb_app.
    split; [exact Hrange|]. split; [|split; [|exact Hids]].
    + intros Hi. now rewrite (Hint Hi).
    + destruct (existsb _ (map new_characteristic l)).
      * right. split; [reflexivity | apply orb_true_r].
      * destruct Himd as [H0|[H1 Hc]]; [now left|].
        right. split; [exact H1|]. now rewrite Hc.
Qed.

Lemma new_thermometer_inv device tattr_range attio :
  thermo_inv (new_thermometer device tattr_range attio).
Proof.
  unfold thermo_inv, range_ok. cbn. repeat split; auto; discriminate.
Qed.

Lemma thermo_steps_inv l t t' :
  thermo_steps l t = Some t' -> thermo_inv t -> thermo_inv t'.
Proof.
  revert t. induction l as [|[ta e] l IH]; intros t Hrun Hinv; cbn in Hrun.
  - now injection Hrun as <-.
  - destruct (thermo_step ta e t) as [t1|] eqn:Es; [|discriminate].
    apply (IH t1 Hrun). eapply changes_inv; [|exact Hinv].
    eapply thermo_step_changes, Es.
Qed.

(** X12. On every thermometer, whatever happened to it since
    thermometer_register: the cached range is the initial (0, 0) or a
    valid one with 1 <= min <= max <= 65535; an established interval
    means the Measurement Interval characteristic is among the discovered
    ones; the Intermediate flag is 0 or 1, and 1 only with the
    Intermediate Temperature characteristic discovered; and without a
    connection the indication and notification registrations are
    cleared. *)
Theorem thermometer_invariant t :
  thermo_run t ->
  ((t_min t = 0 /\ t_max t = 0)
   \/ (1 <= t_min t /\ t_min t <= t_max t /\ t_max t <= 65535))
  /\ (has_interval t = true ->
      exists ch, get_characteristic t MEASUREMENT_INTERVAL_UUID = Some ch)
  /\ (intermediate t = 0
      \/ (intermediate t = 1
          /\ exists ch,
               get_characteristic t INTERMEDIATE_TEMPERATURE_UUID = Some ch))
  /\ (attrib t = None -> attindid t = 0 /\ attnotid t = 0).
Proof.
  intros (device & tattr_range & attio & l & Hrun).
  destruct (thermo_steps_inv l _ t Hrun (new_thermometer_inv _ _ _))
    as (Hrange & Hint & Himd & Hids).
  assert (Hget : forall u, has_uuid u (chars t) = true ->
            exists ch, get_characteristic t u = Some ch).
  { intros u Hu. unfold has_uuid in Hu.
    rewrite <- has_characteristic_existsb in Hu. unfold has_characteristic in Hu.
    destruct (get_characteristic t u); [eauto | discriminate]. }
  split; [exact Hrange|]. split; [|split; [|exact Hids]].
  - intros Hi. apply Hget, Hint, Hi.
  - destruct Himd as [H0|[H1 Hc]]; [now left|].
    right. split; [exact H1 | now apply Hget].
Qed.

Lemma keeps_refl t : keeps t t.
Proof.
  unfold keeps. repeat split; auto.
  intros i ch Hn. exists []. rewrite app_nil_r, Hn. destruct ch; reflexivity.
Qed.

Lemma keeps_trans t1 t2 t3 : keeps t1 t2 -> keeps t2 t3 -> keeps t1 t3.
Proof.
  intros (Hd & Hr & Hi & Ht & Hc) (Hd' & Hr' & Hi' & Ht' & Hc').
  unfold keeps. split; [congruence|]. split; [congruence|].
  split; [auto|]. split; [auto|].
  intros i ch Hn. destruct (Hc i ch Hn) as (added & Hn2).
  destruct (Hc' i _ Hn2) as (added' & Hn3). cbn [attr desc] in Hn3.
  exists (added ++ added'). now rewrite app_assoc.
Qed.

Lemma keeps_same_chars t t' :
  dev t' = dev t -> svc_range t' = svc_range t ->
  (has_interval t = true -> has_interval t' = true) ->
  (has_type t = true -> has_type t' = true) ->
  chars t' = chars t -> keeps t t'.
Proof.
  intros Hd Hr Hi Ht Hc. unfold keeps. repeat split; auto.
  intros i ch Hn. exists []. rewrite Hc, app_nil_r, Hn.
  destruct ch; reflexivity.
Qed.

Lemma nth_error_replace_nth {A : Type} (l : list A) i j x :
  nth_error (replace_nth i l x) j
  = if Nat.eqb i j then option_map (fun _ => x) (nth_error l j)
    else nth_error l j.
Proof.
  revert i j. induction l as [|y l IH]; intros [|i] [|j]; cbn;
    try reflexivity.
  - now destruct (Nat.eqb i j).
  - apply IH.
Qed.

Lemma changes_keeps t t' : changes t t' -> keeps t t'.
Proof.
  intros Hc.
  destruct Hc as [|a ind notif| |v Hmi|v|min max H1 H2 H3|i ch added Hn|l].
  - apply keeps_refl.
  - now apply keeps_same_chars.
  - now apply keeps_same_chars.
  - now apply keeps_same_chars.
  - now apply keeps_same_chars.
  - now apply keeps_same_chars.
  - unfold keeps. cbn. repeat split; auto.
    intros j ch' Hj. rewrite nth_error_replace_nth.
    destruct (Nat.eqb_spec i j) as [<-|Hne].
    + rewrite Hj. cbn. exists added. rewrite Hn in Hj. now injection Hj as <-.
    + exists []. rewrite app_nil_r, Hj. destruct ch'; reflexivity.
  - unfold keeps. cbn. repeat split; auto.
    intros j ch' Hj. exists [].
    rewrite nth_error_app1 by (apply nth_error_Some; congruence).
    rewrite app_nil_r, Hj. destruct ch'; reflexivity.
Qed.

(** X13. Nothing learnt about a device is discarded, whatever follows
    (a disconnection included): an established interval and a read type
    stay, every discovered characteristic stays at its place in t->chars
    with its attribute, and its descriptors are only ever added to. *)
Theorem thermometer_keeps_discoveries l t t' :
  thermo_steps l t = Some t' ->
  dev t' = dev t
  /\ svc_range t' = svc_range t
  /\ (has_interval t = true -> has_interval t' = true)
  /\ (has_type t = true -> has_type t' = true)
  /\ (forall i ch,
        nth_error (chars t) i = Some ch ->
        exists added,
          nth_error (chars t') i
          = Some {| attr := attr ch; desc := desc ch ++ added |}).
Proof.
  intros Hrun. change (keeps t t').
  revert t Hrun. induction l as [|[ta e] l IH]; intros t Hrun; cbn in Hrun.
  - injection Hrun as <-. apply keeps_refl.
  - destruct (thermo_step ta e t) as [t1|] eqn:Es; [|discriminate].
    eapply keeps_trans; [|apply (IH t1 Hrun)].
    eapply changes_keeps, thermo_step_changes, Es.
Qed.










End HistoriesMore.

(** ** The registry, further *)

Section RegistryMore.

Implicit Types (ta : thermometer_adapter) (w : watcher) (l : list watcher).

Lemma set_fwatchers_same ta : set_fwatchers ta (fwatchers ta) = ta.
Proof. destruct ta; reflexivity. Qed.

Lemma set_iwatchers_same ta : set_iwatchers ta (iwatchers ta) = ta.
Proof. destruct ta; reflexivity. Qed.








(** *** Keys *)

Lemma key_registered l w :
  In (srv w, path w) (map (fun w => (srv w, path w)) l)
  -> registered l (srv w) (path w).
Proof.
  intros H. apply in_map_iff in H as (x & [= Hs Hp] & Hin).
  exists x. auto.
Qed.

Lemma unique_keys_remove l w :
  unique_keys l -> unique_keys (g_slist_remove l w).
Proof.
  unfold unique_keys. induction l as [|x l IH]; cbn; [auto|].
  intros H. inversion H as [|k ks Hk Hnd]; subst.
  destruct (watcher_eqb x w); [exact Hnd|].
  cbn. constructor; [|now apply IH].
  intros Hin. apply Hk. apply in_map_iff in Hin as (y & Hy & Hin).
  apply in_map_iff. exists y. split; [exact Hy|].
  eapply g_slist_remove_In, Hin.
Qed.

Lemma unique_keys_cons l w :
  unique_keys l -> ~ registered l (srv w) (path w) -> unique_keys (w :: l).
Proof.
  unfold unique_keys. intros Hnd Hreg. cbn. constructor; [|exact Hnd].
  intros Hin. apply Hreg. now apply key_registered.
Qed.

Lemma remove_int_watcher_keys ta w :
  keys_inv ta -> keys_inv (fst (remove_int_watcher ta w)).
Proof.
  intros [Hf Hi]. unfold remove_int_watcher.
  destruct (negb (g_slist_find (iwatchers ta) w)); [split; assumption|].
  assert (H : keys_inv (set_iwatchers ta (g_slist_remove (iwatchers ta) w))).
  { split; cbn; [exact Hf | now apply unique_keys_remove]. }
  destruct (g_slist_length _ =? 0); exact H.
Qed.

Lemma watcher_exit_keys ta w : keys_inv ta -> keys_inv (fst (watcher_exit w ta)).
Proof.
  intros Hk. unfold watcher_exit.
  pose proof (remove_int_watcher_keys ta w Hk) as H.
  destruct (remove_int_watcher ta w) as [ta1 e1]. cbn [fst] in H.
  destruct H as [Hf Hi].
  assert (H : keys_inv (set_fwatchers ta1 (g_slist_remove (fwatchers ta1) w))).
  { split; cbn; [now apply unique_keys_remove | exact Hi]. }
  destruct (g_slist_length _ =? 0); exact H.
Qed.

Lemma apply_op_keys op ta : keys_inv ta -> keys_inv (fst (apply_op op ta)).
Proof.
  intros Hk. pose proof Hk as [Hf Hi].
  destruct op as [watch msg|msg|msg|msg|name|devs]; cbn [apply_op].
  - unfold register_watcher.
    destruct (get_args_object_path msg) as [p|]; [|exact Hk].
    destruct (find_watcher (fwatchers ta) (sender msg) p) eqn:E; [exact Hk|].
    apply find_watcher_None in E. split; cbn; [|exact Hi].
    now apply unique_keys_cons.
  - unfold unregister_watcher.
    destruct (get_args_object_path msg) as [p|]; [|exact Hk].
    destruct (find_watcher (fwatchers ta) (sender msg) p) as [w|]; [|exact Hk].
    pose proof (watcher_exit_keys ta w Hk) as H. unfold watcher_exit in H.
    destruct (remove_int_watcher ta w) as [ta1 e1].
    destruct (g_slist_length _ =? 0); exact H.
  - unfold enable_intermediate.
    destruct (get_args_object_path msg) as [p|]; [|exact Hk].
    destruct (find_watcher (fwatchers ta) (sender msg) p) as [w|] eqn:Ef;
      [|exact Hk].
    destruct (find_watcher (iwatchers ta) (sender msg) p) eqn:Ei; [exact Hk|].
    apply find_watcher_Some in Ef as (_ & Hs & Hp).
    apply find_watcher_None in Ei. rewrite <- Hs, <- Hp in Ei.
    split; cbn; [exact Hf | now apply unique_keys_cons].
  - unfold disable_intermediate.
    destruct (get_args_object_path msg) as [p|]; [|exact Hk].
    destruct (find_watcher (iwatchers ta) (sender msg) p) as [w|]; [|exact Hk].
    pose proof (remove_int_watcher_keys ta w Hk) as H.
    destruct (remove_int_watcher ta w) as [ta1 e1]. exact H.
  - unfold endpoint_disconnect.
    generalize (filter (fun w => streq (srv w) name) (fwatchers ta)).
    generalize (@nil event). intros e l. revert ta e Hk Hf Hi.
    induction l as [|w l IH]; intros ta e Hk Hf Hi; [exact Hk|].
    cbn [fold_left fst snd].
    pose proof (watcher_exit_keys ta w Hk) as H.
    destruct (watcher_exit w ta) as [ta' e']. cbn [fst] in H.
    apply IH; [exact H | apply H | apply H].
  - exact Hk.
Qed.

Lemma run_ops_keys ops ta : keys_inv ta -> keys_inv (run_ops ops ta).
Proof.
  revert ta. induction ops as [|op ops IH]; intros ta Hk; [exact Hk|].
  cbn. apply IH. now apply apply_op_keys.
Qed.

Lemma unique_keys_spec l :
  unique_keys l ->
  (forall x y, In x l -> In y l -> srv x = srv y -> path x = path y -> x = y)
  /\ NoDup l.
Proof.
  unfold unique_keys. induction l as [|z l IH]; cbn.
  - intros _. split; [intros x y [] | constructor].
  - intros H. inversion H as [|k ks Hz Hnd]; subst.
    destruct (IH Hnd) as [IHinj IHnd]. split.
    + intros x y [Hx|Hx] [Hy|Hy] Hs Hp; subst; auto.
      * exfalso. apply Hz. apply in_map_iff. exists y.
        split; [now rewrite Hs, Hp | exact Hy].
      * exfalso. apply Hz. apply in_map_iff. exists x.
        split; [now rewrite Hs, Hp | exact Hx].
    + constructor; [|exact IHnd].
      intros Hin. apply Hz. apply in_map_iff. now exists z.
Qed.

Lemma run_ops_new_keys (a : nat) (ops : list registry_op) :
  keys_inv (run_ops ops (new_thermometer_adapter a)).
Proof. apply run_ops_keys. split; constructor. Qed.

(** X17. On an adapter, after any sequence of registry operations, no
    two final watchers have the same (sender, path), and no two
    intermediate watchers have: a measurement is never sent twice to the
    same watcher. *)
Theorem watcher_keys_unique (a : nat) (ops : list registry_op) w w' :
  let ta := run_ops ops (new_thermometer_adapter a) in
  (In w (fwatchers ta) -> In w' (fwatchers ta) ->
   srv w = srv w' -> path w = path w' -> w = w')
  /\ (In w (iwatchers ta) -> In w' (iwatchers ta) ->
      srv w = srv w' -> path w = path w' -> w = w')
  /\ NoDup (fwatchers ta) /\ NoDup (iwatchers ta).
Proof.
  intros ta.
  pose proof (run_ops_new_keys a ops) as Hk. fold ta in Hk.
  destruct Hk as [Hf Hi].
  destruct (unique_keys_spec _ Hf) as [Hf1 Hf2].
  destruct (unique_keys_spec _ Hi) as [Hi1 Hi2].
  split; [apply Hf1|]. split; [apply Hi1|]. split; assumption.
Qed.

(** X18. UnregisterWatcher for a registered pair does to the adapter,
    and makes the same calls as, the disconnect watch of that watcher
    firing: explicit removal and removal on disconnection are one and
    the same. *)
Theorem unregister_is_watcher_exit (msg : DBusMessage) ta (p : string) w :
  get_args_object_path msg = Some p ->
  find_watcher (fwatchers ta) (sender msg) p = Some w ->
  unregister_watcher msg ta
  = (fst (watcher_exit w ta), method_return, snd (watcher_exit w ta)).
Proof.
  intros Hargs Hfind. unfold unregister_watcher, watcher_exit.
  rewrite Hargs, Hfind.
  destruct (remove_int_watcher ta w) as [ta1 e1].
  destruct (g_slist_length _ =? 0); cbn [fst snd]; [reflexivity|].
  now rewrite app_nil_r.
Qed.

(** *** An endpoint leaves *)

Lemma watcher_exit_lists ta w :
  fwatchers (fst (watcher_exit w ta)) = g_slist_remove (fwatchers ta) w
  /\ iwatchers (fst (watcher_exit w ta)) = g_slist_remove (iwatchers ta) w
  /\ devices (fst (watcher_exit w ta)) = devices ta.
Proof.
  unfold watcher_exit.
  pose proof (remove_int_watcher_spec ta w) as H.
  destruct (remove_int_watcher ta w) as [ta1 e1].
  destruct H as (Hd & Hf & Hi & _).
  assert (Hi' : iwatchers ta1 = g_slist_remove (iwatchers ta) w).
  { rewrite Hi. destruct (g_slist_find (iwatchers ta) w) eqn:E; [reflexivity|].
    symmetry. apply g_slist_remove_absent. intros Hin.
    apply g_slist_find_In in Hin. congruence. }
  destruct (g_slist_length _ =? 0); cbn [fst fwatchers iwatchers devices set_fwatchers];
    rewrite Hf; auto.
Qed.

Lemma g_slist_remove_iff l w x :
  NoDup l -> (In x (g_slist_remove l w) <-> In x l /\ x <> w).
Proof.
  intros Hnd. split.
  - intros Hin. split; [eapply g_slist_remove_In, Hin|].
    intros ->. now apply (g_slist_remove_gone l w Hnd).
  - intros [Hin Hne]. now apply g_slist_remove_other.
Qed.

Lemma exit_all_lists (ws : list watcher) ta (e : list event) :
  NoDup (fwatchers ta) -> NoDup (iwatchers ta) ->
  let ta' :=
    fst (fold_left
           (fun (acc : thermometer_adapter * list event) (w : watcher) =>
              let '(ta', e') := watcher_exit w (fst acc) in (ta', snd acc ++ e'))
           ws (ta, e)) in
  (forall x, In x (fwatchers ta') <-> In x (fwatchers ta) /\ ~ In x ws)
  /\ (forall x, In x (iwatchers ta') <-> In x (iwatchers ta) /\ ~ In x ws)
  /\ devices ta' = devices ta.
Proof.
  revert ta e. induction ws as [|w ws IH]; intros ta e Hf Hi; cbn [fold_left fst snd].
  - cbn. repeat split; try tauto.
  - destruct (watcher_exit_lists ta w) as (Ef & Ei & Ed).
    destruct (watcher_exit w ta) as [ta1 e1]. cbn [fst] in *.
    assert (Hf1 : NoDup (fwatchers ta1))
      by (rewrite Ef; now apply g_slist_remove_NoDup).
    assert (Hi1 : NoDup (iwatchers ta1))
      by (rewrite Ei; now apply g_slist_remove_NoDup).
    specialize (IH ta1 (e ++ e1) Hf1 Hi1). cbv zeta in IH.
    destruct IH as (IHf & IHi & IHd).
    split; [|split; [|congruence]].
    + intros x. rewrite IHf, Ef, (g_slist_remove_iff _ _ _ Hf). cbn [In].
      intuition congruence.
    + intros x. rewrite IHi, Ei, (g_slist_remove_iff _ _ _ Hi). cbn [In].
      intuition congruence.
Qed.

(** X19. When an endpoint leaves the bus, on an adapter in any state the
    registry reaches: every watcher of that endpoint is gone from the
    final and from the intermediate list, every watcher of another
    endpoint is still where it was, and the attached thermometers are
    untouched. *)
Theorem endpoint_disconnect_removes (a : nat) (ops : list registry_op)
    (name : string) w :
  let ta := run_ops ops (new_thermometer_adapter a) in
  let ta' := fst (endpoint_disconnect name ta) in
  (In w (fwatchers ta') <-> In w (fwatchers ta) /\ srv w <> name)
  /\ (In w (iwatchers ta') <-> In w (iwatchers ta) /\ srv w <> name)
  /\ devices ta' = devices ta.
Proof.
  intros ta ta'. subst ta'.
  destruct (run_ops_inv ops _ (new_thermometer_adapter_inv a)) as [Hnd_i Hincl].
  fold ta in Hnd_i, Hincl.
  assert (Hnd_f : NoDup (fwatchers ta)).
  { apply unique_keys_spec. apply (run_ops_new_keys a ops). }
  unfold endpoint_disconnect.
  destruct (exit_all_lists
              (filter (fun w => streq (srv w) name) (fwatchers ta)) ta []
              Hnd_f Hnd_i) as (Hf & Hi & Hd).
  assert (Hws : forall x, In x (fwatchers ta) ->
            (~ In x (filter (fun w => streq (srv w) name) (fwatchers ta))
             <-> srv x <> name)).
  { intros x Hx. rewrite filter_In. unfold streq. split.
    - intros H E. apply H. split; [exact Hx|]. now apply String.eqb_eq.
    - intros H [_ E]. apply String.eqb_eq in E. contradiction. }
  split; [|split; [|exact Hd]].
  - rewrite Hf. split; intros [Hx H]; (split; [exact Hx|]); now apply (Hws w Hx).
  - rewrite Hi. split; intros [Hx H]; (split; [exact Hx|]);
      now apply (Hws w (Hincl w Hx)).
Qed.

End RegistryMore.

(** ** Connection, discovery and registration *)

Section LifecycleMore.

Context {ext : Externals}.

Implicit Types (t : thermometer) (ta : thermometer_adapter).

Lemma set_connection_same t :
  attrib t = None -> attindid t = 0 -> attnotid t = 0 ->
  set_connection t None 0 0 = t.
Proof.
  destruct t; cbn. intros -> -> ->. reflexivity.
Qed.

(** X20. A connection that comes and goes on a thermometer that had
    none: the characteristics of the service range are asked for when it
    comes; when it goes, the indication and the notification handler are
    unregistered from the connection they were registered on (each one if
    its registration gave an id), and the thermometer is exactly what it
    was before: all that was discovered and cached is kept. *)
Theorem connect_then_disconnect (a : GAttrib) (ind notif : Z) t :
  thermo_run t ->
  attrib t = None ->
  let r1 := attio_connected_cb a ind notif t in
  let r2 := attio_disconnected_cb (fst r1) in
  snd r1 = [gatt_discover_char (Some a) (range_start (svc_range t))
              (range_end (svc_range t)) cb_configure_thermometer]
  /\ fst r2 = t
  /\ snd r2 = (if 0 <? ind then [g_attrib_unregister (Some a) ind] else [])
              ++ (if 0 <? notif then [g_attrib_unregister (Some a) notif]
                  else []).
Proof.
  intros (device & tattr_range & attio & l & Hrun) Hatt r1 r2. subst r1 r2.
  destruct (thermo_steps_inv l _ t Hrun (new_thermometer_inv _ _ _))
    as (_ & _ & _ & Hids).
  destruct (Hids Hatt) as [Hi Hn].
  unfold attio_connected_cb, attio_disconnected_cb. cbn [fst snd].
  split; [destruct t; reflexivity|]. split.
  - rewrite <- (set_connection_same t Hatt Hi Hn) at 2.
    destruct t; reflexivity.
  - destruct t; reflexivity.
Qed.







End LifecycleMore.

Section RegistrationMore.

Implicit Types (t : thermometer) (ta : thermometer_adapter).

Lemma change_property_intermediate_calls t :
  change_property t "Intermediate" 1
  = if intermediate t =? 1 then (t, [])
    else (set_intermediate t 1,
          [emit_property_changed (dev t) THERMOMETER_INTERFACE
             "Intermediate" 1]).
Proof.
  unfold change_property, streq. cbn [String.eqb Ascii.eqb Bool.eqb andb].
  destruct (intermediate t =? 1); [reflexivity|]. destruct t; reflexivity.
Qed.

Lemma process_thermometer_char_signal ch t :
  filter is_property_changed (snd (process_thermometer_char ch t))
  = (if streq (uuid (attr ch)) INTERMEDIATE_TEMPERATURE_UUID
        && negb (intermediate t =? 1)
     then [emit_property_changed (dev t) THERMOMETER_INTERFACE
             "Intermediate" 1]
     else []).
Proof.
  unfold process_thermometer_char.
  destruct (streq (uuid (attr ch)) INTERMEDIATE_TEMPERATURE_UUID).
  - rewrite change_property_intermediate_calls.
    destruct (intermediate t =? 1); reflexivity.
  - destruct (streq _ TEMPERATURE_TYPE_UUID); [reflexivity|].
    destruct (streq _ MEASUREMENT_INTERVAL_UUID); reflexivity.
Qed.

Lemma process_thermometer_char_after ch t :
  dev (fst (process_thermometer_char ch t)) = dev t
  /\ intermediate (fst (process_thermometer_char ch t))
     = (if streq (uuid (attr ch)) INTERMEDIATE_TEMPERATURE_UUID then 1
        else intermediate t).
Proof.
  unfold process_thermometer_char.
  destruct (streq (uuid (attr ch)) INTERMEDIATE_TEMPERATURE_UUID).
  - rewrite change_property_intermediate_calls.
    destruct (Z.eqb_spec (intermediate t) 1) as [E|E]; cbn; auto.
  - destruct (streq _ TEMPERATURE_TYPE_UUID); [cbn; auto|].
    destruct (streq _ MEASUREMENT_INTERVAL_UUID); cbn; auto.
Qed.

(** X22. What a discovery of characteristics signals: PropertyChanged
    for Intermediate (true) is emitted once when the Intermediate
    Temperature characteristic is among the discovered ones and the flag
    was not set yet, also when the device lists that characteristic more
    than once, and no other property change is signalled; a discovery
    that failed signals nothing and leaves the thermometer as it is. *)
Theorem discovery_intermediate_signal (l : list gatt_char) (status : Z) t :
  filter is_property_changed (snd (configure_chars l t))
  = (if has_uuid INTERMEDIATE_TEMPERATURE_UUID (map new_characteristic l)
        && negb (intermediate t =? 1)
     then [emit_property_changed (dev t) THERMOMETER_INTERFACE
             "Intermediate" 1]
     else [])
  /\ configure_thermometer_cb l status t
     = (if status =? 0 then Next (configure_chars l t)
        else Return "Discover thermometer characteristics").
Proof.
  split; [|unfold configure_thermometer_cb, return_if;
           destruct (status =? 0); reflexivity].
  revert t. induction l as [|c l IH]; intros t; [reflexivity|].
  cbn [configure_chars].
  set (ch := {| attr := c; desc := [] |}).
  set (t1 := set_chars t (chars t ++ [ch])).
  pose proof (process_thermometer_char_signal ch t1) as Hs.
  pose proof (process_thermometer_char_after ch t1) as [Hd Hi].
  destruct (process_thermometer_char ch t1) as [t2 e1]. cbn [fst snd] in *.
  specialize (IH t2). destruct (configure_chars l t2) as [t3 e3].
  cbn [fst snd] in *.
  rewrite !filter_app.
  match goal with
  | |- context [filter is_property_changed ?e2
                ++ filter is_property_changed e3] =>
    assert (E2 : filter is_property_changed e2 = [])
  end.
  { destruct l as [|c' l'].
    - destruct (negb (value_handle c =? _)); reflexivity.
    - destruct (_ =? handle c'); reflexivity. }
  rewrite E2, Hs, IH, Hd, Hi.
  cbn [map has_uuid existsb new_characteristic attr app].
  fold (has_uuid INTERMEDIATE_TEMPERATURE_UUID (map new_characteristic l)).
  replace (dev t1) with (dev t) by (destruct t; reflexivity).
  replace (intermediate t1) with (intermediate t) by (destruct t; reflexivity).
  cbn [ch attr].
  destruct (streq (uuid c) INTERMEDIATE_TEMPERATURE_UUID); cbn [orb andb].
  - destruct (negb (intermediate t =? 1)); cbn [app];
      rewrite andb_false_r; reflexivity.
  - reflexivity.
Qed.

Lemma remove_found_head {A : Type} (f : A -> bool) (x : A) (l : list A) :
  f x = true -> remove_found f (x :: l) = l.
Proof. intros H. cbn. now rewrite H. Qed.

Lemma remove_found_filter {A : Type} (f g : A -> bool) (l : list A) :
  (forall x, f x = true -> g x = false) ->
  filter g (remove_found f l) = filter g l.
Proof.
  intros H. induction l as [|x l IH]; [reflexivity|].
  cbn. destruct (f x) eqn:E.
  - now rewrite (H x E).
  - cbn. now rewrite IH.
Qed.

(** X23. thermometer_register followed by thermometer_unregister for the
    same device: the first answers 0, the second finds the thermometer
    just created, unregisters its interface and leaves the adapter as it
    was before the two. And whatever is attached, thermometer_unregister
    keeps the thermometers of every other device, in their order, and
    the watchers. *)
Theorem thermometer_register_then_unregister (device : string)
    (tattr_range : att_range) (attio : Z) ta :
  (let r1 := thermometer_register device tattr_range true attio (Some ta) in
   snd r1 = 0
   /\ thermometer_unregister device (fst r1)
      = (Some ta, Some (new_thermometer device tattr_range attio)))
  /\ (forall ta', fst (thermometer_unregister device (Some ta)) = Some ta' ->
        filter (fun t => negb (streq device (dev t))) (devices ta')
        = filter (fun t => negb (streq device (dev t))) (devices ta)
        /\ fwatchers ta' = fwatchers ta /\ iwatchers ta' = iwatchers ta
        /\ adapter ta' = adapter ta).
Proof.
  split.
  - cbv zeta. unfold thermometer_register. cbn [negb fst snd].
    split; [reflexivity|].
    unfold thermometer_unregister. cbn [devices set_devices find].
    unfold cmp_device at 1. cbn [dev new_thermometer].
    unfold streq. rewrite String.eqb_refl. cbn [Z.eqb].
    rewrite remove_found_head.
    + destruct ta; reflexivity.
    + unfold cmp_device. cbn [dev new_thermometer]. unfold streq.
      now rewrite String.eqb_refl.
  - intros ta'. unfold thermometer_unregister.
    destruct (find _ (devices ta)); cbn [fst]; intros [= <-].
    + cbn [devices set_devices fwatchers iwatchers adapter].
      split; [|auto]. apply remove_found_filter.
      intros x. unfold cmp_device. destruct (streq device (dev x)); [reflexivity|].
      discriminate.
    + auto.
Qed.

Lemma cmp_adapter_eqb ta (a : nat) :
  (cmp_adapter ta a =? 0) = Nat.eqb a (adapter ta).
Proof. unfold cmp_adapter. destruct (Nat.eqb a (adapter ta)); reflexivity. Qed.

(** X24. The list of adapters: after thermometer_adapter_register
    succeeded for an adapter, the adapter is found, without devices and
    without watchers, so that thermometer_register attaches to it;
    the lookup of every other adapter is what it was;
    thermometer_adapter_unregister then gives the list back as it was.
    When the interface cannot be registered the list is unchanged and
    -EIO is returned. *)
Theorem adapter_register_then_unregister (a : nat)
    (l : list thermometer_adapter) (device : string)
    (tattr_range : att_range) (attio : Z) :
  let r := thermometer_adapter_register a true l in
  snd r = 0
  /\ find_thermometer_adapter (fst r) a = Some (new_thermometer_adapter a)
  /\ (forall b, b <> a ->
        find_thermometer_adapter (fst r) b = find_thermometer_adapter l b)
  /\ thermometer_register device tattr_range true attio
       (find_thermometer_adapter (fst r) a)
     = (Some {| adapter := a;
                devices := [new_thermometer device tattr_range attio];
                fwatchers := []; iwatchers := [] |}, 0)
  /\ thermometer_adapter_unregister a (fst r) = l
  /\ thermometer_adapter_register a false l = (l, - EIO).
Proof.
  cbv zeta. unfold thermometer_adapter_register. cbn [negb fst snd].
  assert (Hfind : find_thermometer_adapter (new_thermometer_adapter a :: l) a
                  = Some (new_thermometer_adapter a)).
  { unfold find_thermometer_adapter. cbn [find]. rewrite cmp_adapter_eqb.
    cbn [adapter new_thermometer_adapter]. now rewrite Nat.eqb_refl. }
  split; [reflexivity|]. split; [exact Hfind|]. split; [|split; [|split]].
  - intros b Hb. unfold find_thermometer_adapter. cbn [find].
    rewrite cmp_adapter_eqb. cbn [adapter new_thermometer_adapter].
    apply Nat.eqb_neq in Hb. now rewrite Hb.
  - rewrite Hfind. reflexivity.
  - unfold thermometer_adapter_unregister. rewrite Hfind.
    apply remove_found_head. rewrite cmp_adapter_eqb.
    cbn [adapter new_thermometer_adapter]. apply Nat.eqb_refl.
  - reflexivity.
Qed.

End RegistrationMore.

(** ** The further properties on the sample data *)

Example proc_measurement_fields_witness :
  exists m,
    proc_measurement (ext := wire_externals) sample_adapter sample_thermometer
      sample_full_indication 16 true
    = Next (m, recv_measurement sample_adapter sample_thermometer m)
    /\ m_unit m = "fahrenheit" /\ m_suptime m = true
    /\ m_type m = Some "body".
Proof.
  assert (Hp : pdu_of_len sample_full_indication 16)
    by (split; [reflexivity | lia]).
  pose proof (proc_measurement_fields (ext := wire_externals) sample_adapter
                sample_thermometer sample_full_indication 16 true Hp eq_refl)
    as H.
  cbv zeta in H. destruct H as (m & H1 & H2 & H3 & _ & H5 & _).
  exists m. split; [exact H1|]. split; [exact H2|]. split; [exact H3 | exact H5].
Defined.

Example proc_measurement_trailing_bytes_witness :
  proc_measurement (ext := wire_externals) sample_adapter sample_thermometer
    (sample_indication ++ [xaa; xbb]) (8 + Z.of_nat (List.length [xaa; xbb]))
    true
  = proc_measurement (ext := wire_externals) sample_adapter sample_thermometer
      sample_indication 8 true.
Proof.
  apply (proc_measurement_trailing_bytes (ext := wire_externals));
    [split; [reflexivity | lia] | reflexivity | cbn; lia].
Defined.

Example final_indication_delivered_witness :
  ind_handler (ext := wire_externals) sample_indication 8 sample_adapter2
    sample_thermometer
  = Next (sample_thermometer,
          map (fun w =>
                 MeasurementReceived (srv w) (path w) (dev sample_thermometer)
                   (decoded_measurement (ext := wire_externals)
                      sample_thermometer sample_indication true))
            [sample_watcher; sample_watcher2]
          ++ [g_attrib_send sample_attrib 1]).
Proof.
  apply (final_indication_delivered (ext := wire_externals) sample_indication 8
           sample_adapter2 sample_thermometer sample_measurement_char
           sample_attrib);
    [split; [reflexivity | lia] | reflexivity | reflexivity | reflexivity
    | reflexivity | reflexivity].
Defined.

Example notif_handler_delivery_witness :
  notif_handler (ext := wire_externals) sample_indication 8 sample_adapter2
    sample_thermometer
  = Next (sample_thermometer, []).
Proof.
  assert (Hp : pdu_of_len sample_indication 8) by (split; [reflexivity | lia]).
  destruct (notif_handler_delivery (ext := wire_externals) sample_indication 8
              sample_adapter2 sample_thermometer Hp) as (_ & _ & _ & H).
  apply (H sample_measurement_char); [lia | reflexivity | discriminate].
Defined.

Example interval_indication_witness :
  exists t',
    ind_handler (ext := wire_externals) sample_interval_indication 5
      sample_adapter sample_thermometer
    = Next (t',
            [ emit_property_changed (dev sample_thermometer)
                THERMOMETER_INTERFACE "Interval" 30;
              g_attrib_send sample_attrib 1 ])
    /\ interval t' = 30.
Proof.
  assert (Hp : pdu_of_len sample_interval_indication 5)
    by (split; [reflexivity | lia]).
  pose proof (interval_indication (ext := wire_externals)
                sample_interval_indication 5 sample_adapter sample_thermometer
                sample_interval_char sample_attrib Hp ltac:(lia) eq_refl eq_refl
                eq_refl eq_refl) as H.
  cbv zeta in H. destruct H as [_ H].
  destruct (H ltac:(lia)) as (t' & He & _ & Hi & _).
  exists t'. split; [exact He | exact Hi].
Defined.

Example interval_range_after_valid_range_witness :
  exists t',
    valid_range_desc_cb (ext := wire_externals) 0 [x0b; x05; x00; x0a; x00] 5
      sample_thermometer
    = Next (t',
            [ emit_property_changed (dev sample_thermometer)
                THERMOMETER_INTERFACE "Maximum" 10;
              emit_property_changed (dev sample_thermometer)
                THERMOMETER_INTERFACE "Minimum" 5 ])
    /\ write_attr_interval t' 0 = (t', btd_error_invalid_args, []).
Proof.
  eexists. split; [vm_compute; reflexivity|].
  match goal with
  | |- write_attr_interval ?t 0 = _ =>
    apply (interval_range_after_valid_range (ext := wire_externals) 0
             [x0b; x05; x00; x0a; x00] 5 sample_thermometer t
             [ emit_property_changed (dev sample_thermometer)
                 THERMOMETER_INTERFACE "Maximum" 10;
               emit_property_changed (dev sample_thermometer)
                 THERMOMETER_INTERFACE "Minimum" 5 ])
  end.
  - vm_compute. reflexivity.
  - discriminate.
  - discriminate.
Defined.

Example set_interval_then_response_witness :
  exists t' e',
    write_interval_cb (ext := wire_externals) 0 [x13] 1 8 sample_ranged
    = Next (t', e')
    /\ interval t' = 8.
Proof.
  destruct (set_interval_then_response (ext := wire_externals) ":1.42"
              sample_ranged 8 []
              [gatt_write_char (Some sample_attrib) 0x15 (att_put_u16 8)
                 (cb_write_interval 8)] eq_refl) as (_ & _ & H).
  destruct (H [x13] 1 eq_refl) as (t' & e' & H1 & _ & H2 & _).
  exists t', e'. split; [exact H1 | exact H2].
Defined.

Example thermometer_invariant_witness :
  exists t,
    thermo_steps (ext := wire_externals) sample_history sample_new = Some t
    /\ attrib t = None /\ attindid t = 0 /\ attnotid t = 0
    /\ exists ch, get_characteristic t MEASUREMENT_INTERVAL_UUID = Some ch.
Proof.
  eexists. split; [vm_compute; reflexivity|].
  match goal with
  | |- attrib ?t = None /\ _ =>
    destruct (thermometer_invariant (ext := wire_externals) t)
      as (_ & Hi & _ & Hc)
  end.
  - exists "/org/bluez/hci0/dev_00_11_22_33_44_55",
      {| range_start := 0x10; range_end := 0x20 |}, 1, sample_history.
    vm_compute. reflexivity.
  - split; [reflexivity|].
    destruct (Hc eq_refl) as [H1 H2].
    split; [exact H1|]. split; [exact H2|]. apply Hi. reflexivity.
Defined.

Example thermometer_keeps_discoveries_witness :
  exists t' added,
    thermo_steps (ext := wire_externals)
      [ (sample_adapter, ev_disconnected);
        (sample_adapter, ev_connected sample_attrib 4 5) ] sample_thermometer
    = Some t'
    /\ nth_error (chars t') 0
       = Some {| attr := sample_measurement_gatt_char;
                 desc := [sample_ccc 0x13] ++ added |}.
Proof.
  pose proof (thermometer_keeps_discoveries (ext := wire_externals)
                [ (sample_adapter, ev_disconnected);
                  (sample_adapter, ev_connected sample_attrib 4 5) ]
                sample_thermometer _ eq_refl) as (_ & _ & _ & _ & H).
  destruct (H 0%nat sample_measurement_char eq_refl) as [added Ha].
  eexists _, added. split; [reflexivity | exact Ha].
Defined.




Example unregister_is_watcher_exit_witness :
  unregister_watcher sample_msg sample_adapter
  = (fst (watcher_exit sample_watcher sample_adapter), method_return,
     snd (watcher_exit sample_watcher sample_adapter)).
Proof.
  apply (unregister_is_watcher_exit sample_msg sample_adapter "/test/watcher");
    reflexivity.
Defined.

Example connect_then_disconnect_witness :
  exists t,
    thermo_steps (ext := wire_externals) sample_history sample_new = Some t
    /\ fst (attio_disconnected_cb (fst (attio_connected_cb sample_attrib 4 5 t)))
       = t
    /\ snd (attio_disconnected_cb (fst (attio_connected_cb sample_attrib 4 5 t)))
       = [ g_attrib_unregister (Some sample_attrib) 4;
           g_attrib_unregister (Some sample_attrib) 5 ].
Proof.
  eexists. split; [vm_compute; reflexivity|].
  match goal with
  | |- fst (attio_disconnected_cb (fst (attio_connected_cb _ _ _ ?t))) = _ /\ _ =>
    pose proof (connect_then_disconnect (ext := wire_externals) sample_attrib
                  4 5 t) as H
  end.
  cbv zeta in H. apply H.
  - exists "/org/bluez/hci0/dev_00_11_22_33_44_55",
      {| range_start := 0x10; range_end := 0x20 |}, 1, sample_history.
    vm_compute. reflexivity.
  - reflexivity.
Defined.

